(** * Vida restaurant butler: dialogue controller and recommendation engine

    A shallow embedding of the slot-filling controller ([conversation.ts],
    [newConversation.ts]), of the two recommenders ([recommender.ts],
    [newRecommender.ts]) and of the command parser ([parser.ts]), followed by
    the properties the specification states about them.

    Conventions of the embedding.
    - A JavaScript [string] is a Rocq [string]; case folding and white space
      are those of the ASCII range, other characters pass through unchanged.
    - A JavaScript [number] holding a score or a rating is an exact rational
      ([Q]) in the embedding of the controller, whose properties do not read
      the value of a score. The arithmetic of [recommender.ts] is embedded a
      second time on IEEE 754 doubles (primitive [float]s; the definitions
      whose names end in [64]), and what is said about the value of a score
      is said of those. Counters and party sizes are integers.
    - An optional property is an [option]; a property that is present but
      [undefined] and a property that is absent are both [None].
    - Calls that leave the process (slot extraction, date resolution) are
      fields of an [Interpreter] record, one answer function per capability.
    - A [Record<string, number>] is an association list in property order
      (the order of first insertion), which [Object.entries] exposes.
    - [localStorage] is a [Storage] record threaded through the controller. *)

From Stdlib Require Import Ascii String QArith Qminmax Lqa Lia.
From Stdlib Require Import Sorting.Sorted Sorting.Permutation.
From Stdlib Require Import Floats.
From stdpp Require Import base option list strings pretty.

Open Scope string_scope.
Open Scope list_scope.

(** ** JavaScript string primitives *)

Module JS.

(** Truthiness of the value kinds the controller tests with [!x], [!!x],
    [x && ...] and [x || d]. *)
Definition truthyStr (o : option string) : bool :=
  match o with
  | Some s => negb (String.eqb s EmptyString)
  | None => false
  end.

Definition truthyNum (o : option Z) : bool :=
  match o with
  | Some n => negb (Z.eqb n 0)
  | None => false
  end.

Definition truthyObj {A : Type} (o : option A) : bool :=
  match o with
  | Some _ => true
  | None => false
  end.

(** [String.prototype.toLowerCase] on the ASCII range. *)
Definition lowerChar (c : ascii) : ascii :=
  let n := Ascii.nat_of_ascii c in
  if (65 <=? n)%nat && (n <=? 90)%nat then Ascii.ascii_of_nat (n + 32) else c.

Fixpoint toLowerCase (s : string) : string :=
  match s with
  | EmptyString => EmptyString
  | String c s' => String (lowerChar c) (toLowerCase s')
  end.

(** White space as [trim] and the regular expression class [\s] see it:
    tab, line feed, vertical tab, form feed, carriage return, space. *)
Definition isSpace (c : ascii) : bool :=
  let n := Ascii.nat_of_ascii c in
  ((9 <=? n)%nat && (n <=? 13)%nat) || (n =? 32)%nat.

(** The class [\d]. *)
Definition isDigit (c : ascii) : bool :=
  let n := Ascii.nat_of_ascii c in
  (48 <=? n)%nat && (n <=? 57)%nat.

(** The class [\w], which decides the word boundary [\b]. *)
Definition isWordChar (c : ascii) : bool :=
  let n := Ascii.nat_of_ascii c in
  isDigit c
  || ((65 <=? n)%nat && (n <=? 90)%nat)
  || ((97 <=? n)%nat && (n <=? 122)%nat)
  || (n =? 95)%nat.

Fixpoint trimStart (s : string) : string :=
  match s with
  | EmptyString => EmptyString
  | String c s' => if isSpace c then trimStart s' else s
  end.

Fixpoint trimEnd (s : string) : string :=
  match s with
  | EmptyString => EmptyString
  | String c s' =>
      match trimEnd s' with
      | EmptyString => if isSpace c then EmptyString else String c EmptyString
      | t => String c t
      end
  end.

Definition trim (s : string) : string := trimEnd (trimStart s).

Definition startsWith (s pre : string) : bool := String.prefix pre s.

(** [s.includes(sub)]: [sub] occurs in [s] at some offset. *)
Fixpoint includes (s sub : string) : bool :=
  String.prefix sub s
  || match s with
     | EmptyString => false
     | String _ s' => includes s' sub
     end.

(** [xs.includes(x)] on an array of strings. *)
Definition arrayIncludes (xs : list string) (x : string) : bool :=
  existsb (String.eqb x) xs.

(** [xs.join(sep)]. *)
Definition join (sep : string) (xs : list string) : string :=
  String.concat sep xs.

(** [xs.slice(-n)]: the last [n] elements. *)
Definition sliceLast {A : Type} (n : nat) (xs : list A) : list A :=
  drop (length xs - n) xs.

(** [s.padStart(2, "0")]. *)
Definition padStart2 (s : string) : string :=
  match String.length s with
  | O => "00"
  | S O => "0" +:+ s
  | _ => s
  end.

(** [parseInt] on a string of decimal digits. *)
Definition digitVal (c : ascii) : nat := Ascii.nat_of_ascii c - 48.

Definition parseDigits (ds : list ascii) : nat :=
  fold_left (fun acc c => 10 * acc + digitVal c)%nat ds 0%nat.

Definition newline : string := String (Ascii.ascii_of_nat 10) EmptyString.

(** The comparator protocol of [Array.prototype.sort]: [cmp a b > 0] puts
    [a] after [b]. The sort is stable, so with a comparator that orders by
    a key every implementation returns the list that repeated insertion
    returns: an element goes in front of the first one it need not
    follow. *)
Definition after (c : Q) : bool := negb (Qle_bool c 0).

Fixpoint sortInsert {A : Type} (cmp : A -> A -> Q) (x : A) (l : list A) : list A :=
  match l with
  | [] => [x]
  | y :: l' => if after (cmp x y) then y :: sortInsert cmp x l' else x :: l
  end.

Fixpoint sort {A : Type} (cmp : A -> A -> Q) (l : list A) : list A :=
  match l with
  | [] => []
  | x :: l' => sortInsert cmp x (sort cmp l')
  end.

End JS.

(** ** JavaScript numbers as doubles

    A [number] is an IEEE 754 double, a primitive [float]: the kernel
    evaluates its operations as the engine does, rounding to the nearest
    double with ties to even. *)

Set Warnings "-inexact-float".

Module Double.

(** [Number.isNaN]. *)
Definition isNaN (x : float) : bool := PrimFloat.is_nan x.

(** The double of an integer: the integer itself up to 53 bits, the nearest
    double beyond. *)
Definition ofZ (z : Z) : float :=
  SF2Prim (binary_normalize FloatOps.prec FloatOps.emax z 0 false).

(** The double of an array length. *)
Definition ofNat (n : nat) : float := ofZ (Z.of_nat n).

(** The double a decimal literal denotes. The division of two integers
    below 2^53 is rounded once, to the double nearest the quotient. *)
Definition ofQ (q : Q) : float := (ofZ (Qnum q) / ofZ (Zpos (Qden q)))%float.

(** The comparator protocol of [Array.prototype.sort]: [cmp a b > 0] puts
    [a] after [b], and a [NaN] counts as 0. With a comparator that orders
    by a key, and no [NaN] among the keys, the comparator is consistent
    and every implementation returns what repeated insertion returns (the
    sort is stable). With a [NaN] among the keys the order is left to the
    implementation; nothing below depends on the order this definition
    gives then. *)
Definition after (c : float) : bool := (0 <? c)%float.

Fixpoint sortInsert {A : Type} (cmp : A -> A -> float) (x : A) (l : list A)
  : list A :=
  match l with
  | [] => [x]
  | y :: l' => if after (cmp x y) then y :: sortInsert cmp x l' else x :: l
  end.

Fixpoint sort {A : Type} (cmp : A -> A -> float) (l : list A) : list A :=
  match l with
  | [] => []
  | x :: l' => sortInsert cmp x (sort cmp l')
  end.

(** Where a double stands on the number line, in units of the least
    positive double, 2^-1074: both zeros at 0, the infinities beyond every
    finite double. The order of the doubles other than [NaN] is the order
    of their places. *)
Definition place (x : spec_float) : Z :=
  match x with
  | S754_zero _ => 0
  | S754_infinity s => cond_Zopp s (2 ^ 2098)
  | S754_nan => 0
  | S754_finite s m e => cond_Zopp s (Zpos m * 2 ^ (e + 1074))
  end.

Definition rank (x : float) : Z := place (Prim2SF x).

End Double.

(** ** Data model ([types/index.ts]) *)

Inductive Price := PriceLow | PriceMid | PriceHigh.
Inductive Budget := BudgetCheap | BudgetMid | BudgetHigh.
Inductive MealTime :=
  Breakfast | Lunch | Dinner | Coffee | Drinks | LateNight.
Inductive Vibe := Romantic | Lively | Quiet | Outdoor | Family | Business.

Definition Price_eqb (a b : Price) : bool :=
  match a, b with
  | PriceLow, PriceLow | PriceMid, PriceMid | PriceHigh, PriceHigh => true
  | _, _ => false
  end.

(** The string each enumeration value is in the source. *)
Definition budgetName (b : Budget) : string :=
  match b with
  | BudgetCheap => "cheap"
  | BudgetMid => "mid"
  | BudgetHigh => "high"
  end.

Definition vibeName (v : Vibe) : string :=
  match v with
  | Romantic => "romantic"
  | Lively => "lively"
  | Quiet => "quiet"
  | Outdoor => "outdoor"
  | Family => "family"
  | Business => "business"
  end.

Module Restaurant.
Record t := mk {
  id : string;
  name : string;
  area : string;
  city : string;
  cuisines : list string;
  price : Price;
  vibe : list string;
  dietary : list string;
  rating : Q;
  highlights : list string;
  bookingAvailable : bool;
  discountCode : option string;
}.
End Restaurant.

Module Avoid.
Record t := mk {
  cuisines : option (list string);
  tags : option (list string);
}.
End Avoid.

Module Slots.
Record t := mk {
  mealTime : option MealTime;
  area : option string;
  partySize : option Z;
  budget : option Budget;
  cravingCuisines : option (list string);
  vibe : option Vibe;
  dietary : option (list string);
  avoid : option Avoid.t;
}.

(** The object literal [{}]. *)
Definition empty : t := mk None None None None None None None None.

Definition set_area (v : option string) (s : t) : t :=
  mk (mealTime s) v (partySize s) (budget s) (cravingCuisines s) (vibe s)
     (dietary s) (avoid s).
Definition set_budget (v : option Budget) (s : t) : t :=
  mk (mealTime s) (area s) (partySize s) v (cravingCuisines s) (vibe s)
     (dietary s) (avoid s).
Definition set_cravingCuisines (v : option (list string)) (s : t) : t :=
  mk (mealTime s) (area s) (partySize s) (budget s) v (vibe s)
     (dietary s) (avoid s).
Definition set_vibe (v : option Vibe) (s : t) : t :=
  mk (mealTime s) (area s) (partySize s) (budget s) (cravingCuisines s) v
     (dietary s) (avoid s).

(** One property of the spread [{...a, ...b}]: the value [b] carries wins,
    and [a]'s value stays where [b] has none. *)
Definition over {A : Type} (a b : option A) : option A :=
  match b with
  | Some v => Some v
  | None => a
  end.

(** [{...a, ...b}]. *)
Definition spread (a b : t) : t :=
  mk (over (mealTime a) (mealTime b))
     (over (area a) (area b))
     (over (partySize a) (partySize b))
     (over (budget a) (budget b))
     (over (cravingCuisines a) (cravingCuisines b))
     (over (vibe a) (vibe b))
     (over (dietary a) (dietary b))
     (over (avoid a) (avoid b)).
End Slots.

Module BookingDraft.
(** [restaurantId] is optional here although the interface requires it:
    the [change] branch of the controller rebuilds the draft by spreading
    the previous one, which leaves the property out when there was none. *)
Record t := mk {
  restaurantId : option string;
  date : option string;
  time : option string;
  partySize : option Z;
  notes : option string;
}.

Definition set_date (v : option string) (d : t) : t :=
  mk (restaurantId d) v (time d) (partySize d) (notes d).
Definition set_time (v : option string) (d : t) : t :=
  mk (restaurantId d) (date d) v (partySize d) (notes d).
Definition set_partySize (v : option Z) (d : t) : t :=
  mk (restaurantId d) (date d) (time d) v (notes d).
Definition set_notes (v : option string) (d : t) : t :=
  mk (restaurantId d) (date d) (time d) (partySize d) v.
End BookingDraft.

Module Counters.
(** A [Record<string, number>]: the properties in insertion order. *)
Definition t := list (string * Z).

(** [record[key]] among the properties the record owns. *)
Fixpoint get (m : t) (k : string) : option Z :=
  match m with
  | [] => None
  | (k', v) :: m' => if String.eqb k' k then Some v else get m' k
  end.

(** [record[key] = v]: an existing property keeps its place, a new one
    goes last. *)
Fixpoint set (m : t) (k : string) (v : Z) : t :=
  match m with
  | [] => [(k, v)]
  | (k', v') :: m' =>
      if String.eqb k' k then (k', v) :: m' else (k', v') :: set m' k v
  end.

(** [record[key] || 0] for a key the record owns, or one under which no
    object inherits a member; [likeScore64] below has the other keys. *)
Definition count (m : t) (k : string) : Z := default 0%Z (get m k).

(** [record[key] = (record[key] || 0) + 1]. *)
Definition bump (m : t) (k : string) : t := set m k (count m k + 1)%Z.
End Counters.

Module Profile.
Record t := mk {
  cuisinesLiked : Counters.t;
  vibePrefs : Counters.t;
  budgetDefault : option Budget;
  dietary : option (list string);
  lastArea : option string;
}.
End Profile.

Module Booking.
(** The [id] and [ts] properties are read off the wall clock and are left
    out. *)
Record t := mk {
  restaurantId : option string;
  date : string;
  time : string;
  partySize : Z;
  notes : option string;
}.
End Booking.

Inductive Role := User | Assistant.

Module Message.
(** As for bookings, [id] and [ts] come from the wall clock and are left
    out. *)
Record t := mk {
  role : Role;
  text : string;
}.
End Message.

Inductive ConversationState :=
  WELCOME | DISCOVERY | RECOMMEND | BOOKING_COLLECT | BOOKING_CONFIRM | REFINE.

Inductive RequestMode := Collecting | Recommending | Confirming.

Inductive PendingSlot :=
  PendingArea | PendingCuisine | PendingBudget | PendingDate | PendingTime
| PendingPartySize.

Module BudgetRange.
(** [{ range: 1 | 2 | 3 | 4; label: string }]. *)
Inductive Range := R1 | R2 | R3 | R4.
Record t := mk {
  range : Range;
  label : string;
}.
End BudgetRange.

Module ActiveRequest.
Record t := mk {
  area : option string;
  cuisine : option string;
  budget : option BudgetRange.t;
  partySize : option Z;
  date : option string;
  time : option string;
  notes : option string;
}.

Definition empty : t := mk None None None None None None None.
End ActiveRequest.

Module RestaurantRecommendation.
Record t := mk {
  restaurant : Restaurant.t;
  reasons : list string;
}.
End RestaurantRecommendation.

(** [answerAnalyzer.ts] *)
Inductive QuestionType :=
  QArea | QMealTime | QPartySize | QBudget | QCuisine | QVibe | QDietary.

(** A scored catalog entry, [{ restaurant, score }]. *)
Module Scored.
Record t := mk {
  restaurant : Restaurant.t;
  score : Q;
}.
End Scored.

(** The same entry with its score as the engine holds it, a double. *)
Module Scored64.
Record t := mk {
  restaurant : Restaurant.t;
  score : float;
}.
End Scored64.

(** The option digit of a selection, [1 | 2 | 3]. *)
Inductive OptionNumber := One | Two | Three.

Definition optionDigit (n : OptionNumber) : string :=
  match n with
  | One => "1"
  | Two => "2"
  | Three => "3"
  end.

(** [parser.ts]: the intents of [parseUserMessage]. *)
Inductive Intent :=
  SelectOption | BookOption | More | Reject | Confirm | Change | Reset
| ProfileCommand | Unknown.

Module Parsed.
(** The controller reads [intent] and [optionNumber] only; the
    [slotUpdates] property, which it never reads, is left out. *)
Record t := mk {
  intent : Intent;
  optionNumber : option OptionNumber;
}.
End Parsed.

Module RecommendationMapping.
(** [{ 1: Restaurant; 2?: Restaurant; 3?: Restaurant }]. *)
Record t := mk {
  first : Restaurant.t;
  second : option Restaurant.t;
  third : option Restaurant.t;
}.

(** [mapping[n]]. *)
Definition get (m : t) (n : OptionNumber) : option Restaurant.t :=
  match n with
  | One => Some (first m)
  | Two => second m
  | Three => third m
  end.
End RecommendationMapping.

Module Recommendations.
Record t := mk {
  topPick : RestaurantRecommendation.t;
  alternatives : list RestaurantRecommendation.t;
  mapping : RecommendationMapping.t;
  previousTopPickIds : option (list string);
}.
End Recommendations.

Module ConversationContext.
Record t := mk {
  state : ConversationState;
  slots : Slots.t;
  bookingDraft : option BookingDraft.t;
  recommendations : option Recommendations.t;
  lastQuestion : option string;
  lastQuestionType : option QuestionType;
}.

Definition set_state (v : ConversationState) (c : t) : t :=
  mk v (slots c) (bookingDraft c) (recommendations c) (lastQuestion c)
     (lastQuestionType c).
Definition set_slots (v : Slots.t) (c : t) : t :=
  mk (state c) v (bookingDraft c) (recommendations c) (lastQuestion c)
     (lastQuestionType c).
Definition set_bookingDraft (v : option BookingDraft.t) (c : t) : t :=
  mk (state c) (slots c) v (recommendations c) (lastQuestion c)
     (lastQuestionType c).
Definition set_recommendations (v : option Recommendations.t) (c : t) : t :=
  mk (state c) (slots c) (bookingDraft c) v (lastQuestion c)
     (lastQuestionType c).
(** The two assignments [lastQuestion = q; lastQuestionType = ty] always
    come together. *)
Definition set_question (q : option string) (ty : option QuestionType)
  (c : t) : t :=
  mk (state c) (slots c) (bookingDraft c) (recommendations c) q ty.
End ConversationContext.

(** [storage.ts]: the keys of [localStorage] the two flows use, each holding
    what the matching [save...] wrote; [None] is a key never written. The
    controller runs in the browser, so the guards for a missing [window]
    are left out. *)
Module Storage.
Record t := mk {
  profile : option Profile.t;
  history : list Message.t;
  bookings : list Booking.t;
  activeRequest : option ActiveRequest.t;
  mode : option RequestMode;
  pendingSlot : option PendingSlot;
  selectedRestaurantId : option string;
}.

Definition empty : t := mk None [] [] None None None None.

Definition getHistory (st : t) : list Message.t := history st.
Definition saveHistory (messages : list Message.t) (st : t) : t :=
  mk (profile st) messages (bookings st) (activeRequest st) (mode st)
     (pendingSlot st) (selectedRestaurantId st).
Definition saveProfile (p : Profile.t) (st : t) : t :=
  mk (Some p) (history st) (bookings st) (activeRequest st) (mode st)
     (pendingSlot st) (selectedRestaurantId st).
Definition addBooking (b : Booking.t) (st : t) : t :=
  mk (profile st) (history st) (bookings st ++ [b]) (activeRequest st)
     (mode st) (pendingSlot st) (selectedRestaurantId st).
Definition getActiveRequest (st : t) : ActiveRequest.t :=
  default ActiveRequest.empty (activeRequest st).
Definition saveActiveRequest (r : ActiveRequest.t) (st : t) : t :=
  mk (profile st) (history st) (bookings st) (Some r) (mode st)
     (pendingSlot st) (selectedRestaurantId st).
Definition getMode (st : t) : RequestMode := default Collecting (mode st).
Definition saveMode (m : RequestMode) (st : t) : t :=
  mk (profile st) (history st) (bookings st) (activeRequest st) (Some m)
     (pendingSlot st) (selectedRestaurantId st).
Definition getPendingSlot (st : t) : option PendingSlot := pendingSlot st.
(** [savePendingSlot(null)] removes the key. *)
Definition savePendingSlot (s : option PendingSlot) (st : t) : t :=
  mk (profile st) (history st) (bookings st) (activeRequest st) (mode st)
     s (selectedRestaurantId st).
Definition getSelectedRestaurantId (st : t) : option string :=
  selectedRestaurantId st.
(** [saveSelectedRestaurantId(null)] removes the key. *)
Definition saveSelectedRestaurantId (id : option string) (st : t) : t :=
  mk (profile st) (history st) (bookings st) (activeRequest st) (mode st)
     (pendingSlot st) id.
End Storage.

(** The capabilities the Slots flow awaits: [extractSlots]
    ([slotExtractor.ts], which answers [{ slots: {} }] on any failure and so
    never throws; the model keeps the [slots] property of its answer) and
    [parseRelativeDate]. *)
Module Interpreter.
Record t := mk {
  extractSlots :
    string -> Slots.t -> option string -> option QuestionType -> Slots.t;
  parseRelativeDate : string -> string;
}.
End Interpreter.

(** What [processMessage] resolves to. *)
Module Turn.
Record t := mk {
  context : ConversationContext.t;
  response : string;
  messages : list Message.t;
}.
End Turn.

(** A call of [processMessage] seen from its caller: the resolved value
    ([None] when the promise is rejected), the caller's [profile] object
    after the call (the controller writes through to the two counter
    records it shares with its copy) and [localStorage] after the call. *)
Module Outcome.
Record t := mk {
  turn : option Turn.t;
  profile : Profile.t;
  storage : Storage.t;
}.
End Outcome.

(** ** Sample data for the closed examples *)

Definition sampleWalkIn : Restaurant.t :=
  Restaurant.mk "r-walkin" "Falafel Corner" "Hamra" "Beirut" ["Lebanese"]
    PriceMid ["casual"] ["vegetarian"] (42 # 10) ["Street-side counter"]
    false (Some "VIDA10").

Definition sampleBistro : Restaurant.t :=
  Restaurant.mk "r-bistro" "Bistro Lume" "Hamra" "Beirut" ["Italian"]
    PriceMid ["romantic"; "intimate"] ["vegetarian"; "gluten-free"] (47 # 10)
    ["Candle-lit terrace"] true None.

Definition sampleGrill : Restaurant.t :=
  Restaurant.mk "r-grill" "Marina Grill" "Dubai Marina" "Dubai"
    ["Steakhouse"; "American"] PriceHigh ["upscale"; "lively"] [] (45 # 10)
    ["Harbour view"] true None.

Definition sampleCatalog : list Restaurant.t :=
  [sampleWalkIn; sampleBistro; sampleGrill].

(** A rendering of ratings with one decimal, enough for the samples. *)
Definition sampleNumberToString (q : Q) : string :=
  let tenths := (Qnum q * 10 / Zpos (Qden q))%Z in
  pretty (tenths / 10)%Z +:+ "." +:+ pretty (tenths mod 10)%Z.

Definition sampleRequest : string := "lebanese for 2 in Hamra, mid budget".

Definition sampleSlots : Slots.t :=
  Slots.mk None (Some "Hamra") (Some 2%Z) (Some BudgetMid) (Some ["Lebanese"])
    None None None.

(** An interpreter that understands the sample request, moves the area on
    hearing of the marina, and passes dates through the way the manual date
    parser does with a text it cannot read. *)
Definition sampleInterpreter : Interpreter.t :=
  Interpreter.mk
    (fun userText _ _ _ =>
       if String.eqb userText sampleRequest then sampleSlots
       else if JS.includes (JS.toLowerCase userText) "marina"
            then Slots.mk (Some Dinner) (Some "Dubai Marina") None None None
                   None None None
            else Slots.empty)
    (fun dateString => dateString).

Definition sampleProfile : Profile.t := Profile.mk [] [] None None None.

(** Area, party size, budget and vibe: enough to recommend, no meal time. *)
Definition sampleReadySlots : Slots.t :=
  Slots.mk None (Some "Hamra") (Some 2%Z) (Some BudgetMid) None (Some Romantic)
    None None.

(** The slots of the specification's priority example, [{ budget: "mid" }]. *)
Definition sampleBudgetOnly : Slots.t :=
  Slots.mk None None None (Some BudgetMid) None None None None.

(** A discovery turn in progress: the area is known, the meal time was
    asked for. *)
Definition sampleDiscoveryContext : ConversationContext.t :=
  ConversationContext.mk DISCOVERY
    (Slots.mk None (Some "Hamra") None None None None None None)
    None None
    (Some "What meal time are you planning for? Options: breakfast, lunch, dinner, coffee, drinks, or late-night.")
    (Some QMealTime).


(** A complete booking draft waiting for its confirmation. *)
Definition sampleDraft : BookingDraft.t :=
  BookingDraft.mk (Some "r-bistro") (Some "2024-12-25") (Some "19:30")
    (Some 2%Z) (Some EmptyString).

Definition sampleConfirmContext : ConversationContext.t :=
  ConversationContext.mk BOOKING_CONFIRM sampleSlots (Some sampleDraft) None
    None None.


Definition sampleScored : list Scored.t :=
  [Scored.mk sampleWalkIn (61 # 10); Scored.mk sampleBistro (47 # 20)].

(** The two scores as doubles, 6.1 and 2.35. *)
Definition sampleScored64 : list Scored64.t :=
  [Scored64.mk sampleWalkIn 6.1%float; Scored64.mk sampleBistro 2.35%float].

(** A restaurant rated with two decimals. *)
Definition sampleDiner : Restaurant.t :=
  Restaurant.mk "r-diner" "Cedar Diner" "Hamra" "Beirut" ["Lebanese"]
    PriceLow ["family"] [] (412 # 100) ["Open late"] true None.

(** A request for a cuisine whose name every object has a member under. *)
Definition sampleInheritedSlots : Slots.t :=
  Slots.mk None (Some "Hamra") (Some 2%Z) (Some BudgetMid)
    (Some ["constructor"]) None None None.

Definition sampleActiveRequest : ActiveRequest.t :=
  ActiveRequest.mk (Some "Hamra") (Some "Lebanese") None (Some 2%Z)
    (Some "2024-12-25") (Some "19:30") None.

(** The recommendations the sample request leads to, and the context that
    shows them. *)
Definition sampleRecommendations : Recommendations.t :=
  Recommendations.mk
    (RestaurantRecommendation.mk sampleWalkIn
       ["great Lebanese cuisine"; "matches your mid budget";
        "Street-side counter"])
    [RestaurantRecommendation.mk sampleBistro
       ["matches your mid budget"; "highly rated (4.7 stars)";
        "Candle-lit terrace"]]
    (RecommendationMapping.mk sampleWalkIn (Some sampleBistro) None)
    (Some ["r-walkin"]).

Definition sampleRecommendContext : ConversationContext.t :=
  ConversationContext.mk RECOMMEND sampleSlots None
    (Some sampleRecommendations) None None.

(** A dialogue that is refining its criteria. *)
Definition sampleRefineContext : ConversationContext.t :=
  ConversationContext.mk REFINE sampleSlots None (Some sampleRecommendations)
    (Some "I'd love to help you find something better! Is it too far, too expensive, or the wrong vibe?")
    None.

(** What a turn of [processMessageNew] comes to. [Answered]: one of the
    command branches replied. [Interpreted]: no command branch applies and
    the turn goes on to [classifyAndExtractClient]; that remainder of the
    function, which merges interpreter answers into the request, is outside
    the embedding. *)
Inductive NewOutcome :=
| Answered (response : string) (messages : list Message.t) (st : Storage.t)
| Interpreted.

(** The pair [{ topPick, alternatives }] of [recommendRestaurants]. *)
Module Recommended.
Record t := mk {
  topPick : RestaurantRecommendation.t;
  alternatives : list RestaurantRecommendation.t;
}.
End Recommended.

(** The pair [{ top, alternatives }] of [getTopRestaurants]; [top] is
    [undefined] when the catalog has no entry at all. *)
Module TopRestaurants.
Record t := mk {
  top : option Restaurant.t;
  alternatives : list Restaurant.t;
}.
End TopRestaurants.

(** ** The answers of the new flow's interpreter ([gptClient.ts]) *)

(** [{ value: string | null; confidence: number }]. *)
Module Confident.
Record t := mk {
  value : option string;
  confidence : Q;
}.
End Confident.

(** [{ label: string | null; range: 1 | 2 | 3 | 4 | null }]. *)
Module ExtractedBudget.
Record t := mk {
  label : option string;
  range : option BudgetRange.Range;
}.
End ExtractedBudget.

(** The [extracted] property of what [classifyAndExtractClient] resolves
    to. *)
Module Extracted.
Record t := mk {
  area : Confident.t;
  cuisine : Confident.t;
  budget : ExtractedBudget.t;
  partySize : option Z;
  date : Confident.t;
  time : Confident.t;
  notes : option string;
}.
End Extracted.

(** [{ input, matched, confidence }]. *)
Module DbMatch.
Record t := mk {
  input : option string;
  matched : option string;
  confidence : Q;
}.
End DbMatch.

(** What [normalizeToDBClient] resolves to; [unavailableArea] and
    [unavailableCuisine] are the two properties of its [unavailable]
    object. *)
Module DbNormalization.
Record t := mk {
  areaMatch : DbMatch.t;
  cuisineMatch : DbMatch.t;
  unavailableArea : bool;
  unavailableCuisine : bool;
}.
End DbNormalization.

(** ** [newRecommender.ts]: the reasons of the new flow *)

Module NewRecommender.
Definition generateReasons (restaurant : Restaurant.t)
  (activeRequest : ActiveRequest.t) : list string :=
  let reasons := [] in
  let reasons :=
    match ActiveRequest.cuisine activeRequest with
    | Some cuisine =>
        if JS.truthyStr (Some cuisine) then
          let cuisineLower := JS.toLowerCase cuisine in
          let hasCuisineMatch :=
            existsb
              (fun c =>
                 String.eqb (JS.toLowerCase c) cuisineLower
                 || JS.includes (JS.toLowerCase c) cuisineLower)
              (Restaurant.cuisines restaurant) in
          if hasCuisineMatch
          then reasons ++ ["Great " +:+ cuisine +:+ " cuisine"]
          else reasons
        else reasons
    | None => reasons
    end in
  let reasons :=
    if Qle_bool (9 # 2) (Restaurant.rating restaurant)
    then reasons ++ ["Highly rated"]
    else reasons in
  let reasons :=
    match Restaurant.highlights restaurant with
    | h :: _ => reasons ++ [h]
    | [] => reasons
    end in
  take 3 reasons.
End NewRecommender.

(** ** [bookingMock.ts] *)

Module BookingMock.

(** [{ restaurantId, partySize, time }]. *)
Module BookingInput.
Record t := mk {
  restaurantId : string;
  partySize : Z;
  time : string;
}.
End BookingInput.

(** [{ confirmationId, restaurantId, partySize, time }]. *)
Module BookingResult.
Record t := mk {
  confirmationId : string;
  restaurantId : string;
  partySize : Z;
  time : string;
}.
End BookingResult.

(** The conversion to a signed 32-bit integer that the bit operators
    apply to their operands and that [hash & hash] is there for. *)
Definition toInt32 (x : Z) : Z := ((x + 2 ^ 31) mod 2 ^ 32 - 2 ^ 31)%Z.

(** The alphabet of the identifier, without the characters that are easy
    to confuse. *)
Definition chars : string := "ABCDEFGHJKLMNPQRSTUVWXYZ23456789".

(** One round of the hash loop; [c] is the character at the index. *)
Definition hashStep (hash : Z) (c : ascii) : Z :=
  let char := Z.of_nat (Ascii.nat_of_ascii c) in
  let hash := (toInt32 (Z.shiftl (toInt32 hash) 5) - hash + char)%Z in
  toInt32 hash.

(** The loop that draws [n] characters of the alphabet from [num]. An
    index outside the alphabet would append the text [undefined]. *)
Fixpoint draw (n : nat) (num : Z) (result : string) : string :=
  match n with
  | O => result
  | S n' =>
      let idx := Z.rem num (Z.of_nat (String.length chars)) in
      let picked :=
        match (if (idx <? 0)%Z then None else String.get (Z.to_nat idx) chars)
        with
        | Some c => String c EmptyString
        | None => "undefined"
        end in
      draw n' (num / Z.of_nat (String.length chars))%Z (result +:+ picked)
  end.

Definition generateConfirmationId (restaurantId time : string) : string :=
  let input := restaurantId +:+ "-" +:+ time in
  let hash := fold_left hashStep (list_ascii_of_string input) 0%Z in
  (* Convert to positive and create 6-char alphanumeric string *)
  let absHash := Z.abs hash in
  draw 6 absHash "BK-".

(** The timer of [bookMock] only delays the answer. *)
Definition bookMock (input : BookingInput.t) : BookingResult.t :=
  let confirmationId :=
    generateConfirmationId (BookingInput.restaurantId input)
      (BookingInput.time input) in
  BookingResult.mk confirmationId (BookingInput.restaurantId input)
    (BookingInput.partySize input) (BookingInput.time input).

End BookingMock.

(** ** [api/extract-slots/route.ts] and [slotExtractor.ts] *)

Module ExtractSlots.

(** [s.split(/\s+/).filter(w => w.length > 0)]: the maximal runs of
    characters that are not white space; [cur] is the run being read. *)
Fixpoint splitWords (s : string) (cur : string) : list string :=
  match s with
  | EmptyString => if String.eqb cur EmptyString then [] else [cur]
  | String c s' =>
      if JS.isSpace c then
        if String.eqb cur EmptyString then splitWords s' EmptyString
        else cur :: splitWords s' EmptyString
      else splitWords s' (cur +:+ String c EmptyString)
  end.

Definition words (s : string) : list string := splitWords s EmptyString.

Definition greetings : list string :=
  ["hello"; "hi"; "hey"; "hiya"; "hola"; "greetings"].

Definition casualResponses : list string :=
  ["ok"; "okay"; "sure"; "thanks"; "thank you"; "cool"; "yeah"; "yep"; "nah";
   "nope"; "yes"; "no"].

Definition isGreetingOrCasualResponse (message : string) : bool :=
  let normalized := JS.trim (JS.toLowerCase message) in
  (* Check if message is just a greeting or casual response *)
  if JS.arrayIncludes greetings normalized then true
  else if JS.arrayIncludes casualResponses normalized then true
  else
    (* Check if message is very short (1-2 words) and matches common patterns *)
    let words := words normalized in
    if (length words <=? 2)%nat
       && (existsb (fun g => JS.includes normalized g) greetings
           || existsb (fun r => JS.includes normalized r) casualResponses)
    then true
    else false.

Definition timeKeywords : list string :=
  ["breakfast"; "lunch"; "dinner"; "coffee"; "drinks"; "morning"; "afternoon";
   "evening"; "night"; "noon"; "pm"; "am"; "time"].

(** The alternatives of [numberPattern] other than the digit run. *)
Definition numberNames : list string :=
  ["one"; "two"; "three"; "four"; "five"; "six"; "seven"; "eight"; "nine";
   "ten"].

Definition peopleKeywords : list string :=
  ["people"; "person"; "party"; "guests"; "group"].

Definition budgetKeywords : list string :=
  ["budget"; "price"; "cheap"; "expensive"; "affordable"; "upscale"; "premium";
   "mid"; "medium"; "moderate"; "high"; "low"].

Definition vibeKeywords : list string :=
  ["romantic"; "lively"; "quiet"; "outdoor"; "family"; "business"; "casual";
   "intimate"; "fun"; "peaceful"; "atmosphere"; "vibe"].

Definition dietaryKeywords : list string :=
  ["vegetarian"; "vegan"; "gluten"; "halal"; "kosher"; "dietary"; "allergy";
   "allergies"; "restriction"].

(** [keywords.some(kw => normalized.includes(kw))]. *)
Definition mentions (normalized : string) (keywords : list string) : bool :=
  existsb (fun kw => JS.includes normalized kw) keywords.

(** [numberPattern.test(normalized)]: a digit, or the name of a number from
    one to ten, anywhere in the text. *)
Definition numberPattern (normalized : string) : bool :=
  existsb JS.isDigit (list_ascii_of_string normalized)
  || mentions normalized numberNames.

(** The guard [xs && xs.length > 0]. *)
Definition filled {A : Type} (o : option (list A)) : bool :=
  match o with
  | Some (_ :: _) => true
  | _ => false
  end.

Definition validateExtraction (userMessage : string)
  (extractedSlots : Slots.t) : bool :=
  let normalized := JS.toLowerCase userMessage in
  (* If only area is extracted, that's fine *)
  let hasOnlyArea :=
    JS.truthyStr (Slots.area extractedSlots)
    && negb (JS.truthyObj (Slots.mealTime extractedSlots))
    && negb (JS.truthyNum (Slots.partySize extractedSlots))
    && negb (JS.truthyObj (Slots.budget extractedSlots))
    && negb (filled (Slots.cravingCuisines extractedSlots))
    && negb (JS.truthyObj (Slots.vibe extractedSlots))
    && negb (filled (Slots.dietary extractedSlots)) in
  if hasOnlyArea then true
  (* mealTime extracted: should have time-related keywords *)
  else if JS.truthyObj (Slots.mealTime extractedSlots)
          && negb (mentions normalized timeKeywords)
  then false
  (* partySize extracted: should have number or people-related keywords *)
  else if JS.truthyNum (Slots.partySize extractedSlots)
          && negb (numberPattern normalized)
          && negb (mentions normalized peopleKeywords)
  then false
  (* budget extracted: should have budget-related keywords *)
  else if JS.truthyObj (Slots.budget extractedSlots)
          && negb (mentions normalized budgetKeywords)
  then false
  (* cuisines extracted: rejected when the message is very short *)
  else if filled (Slots.cravingCuisines extractedSlots)
          && (length (words normalized) <=? 3)%nat
  then false
  (* vibe extracted: should have vibe-related keywords *)
  else if JS.truthyObj (Slots.vibe extractedSlots)
          && negb (mentions normalized vibeKeywords)
  then false
  (* dietary extracted: should have dietary-related keywords *)
  else if filled (Slots.dietary extractedSlots)
          && negb (mentions normalized dietaryKeywords)
  then false
  else true.

(** The body of a [200] answer, [{ slots, confidence }]. *)
Module Response.
Record t := mk {
  slots : Slots.t;
  confidence : Q;
}.
End Response.

(** The handler of the route. [completion] stands for the call of the
    language model together with the lines that build [slots] from its
    answer; it is [None] when that part throws. The handler's answer is
    [None] for a status other than [200]. *)
Definition POST
  (completion :
     string -> Slots.t -> option string -> option QuestionType
     -> option Slots.t)
  (userMessage : string) (currentSlots : Slots.t) (question : option string)
  (questionType : option QuestionType) : option Response.t :=
  if String.eqb userMessage EmptyString then None
  (* A greeting or casual response: empty slots immediately *)
  else if isGreetingOrCasualResponse userMessage
  then Some (Response.mk Slots.empty 0%Q)
  else
    match completion userMessage currentSlots question questionType with
    | None => None
    | Some slots =>
        if negb (validateExtraction userMessage slots) then
          (* only keep area if it was extracted, clear everything else *)
          let validatedSlots :=
            if JS.truthyStr (Slots.area slots)
            then Slots.set_area (Slots.area slots) Slots.empty
            else Slots.empty in
          Some (Response.mk validatedSlots (1 # 2)%Q)
        else Some (Response.mk slots (9 # 10)%Q)
    end.

(** [extractSlots] of [slotExtractor.ts]: the answer of the route, or the
    empty extraction when the request fails. *)
Definition extractSlots
  (completion :
     string -> Slots.t -> option string -> option QuestionType
     -> option Slots.t)
  (userMessage : string) (currentSlots : Slots.t) (question : option string)
  (questionType : option QuestionType) : Response.t :=
  match POST completion userMessage currentSlots question questionType with
  | Some response => response
  | None => Response.mk Slots.empty 0%Q
  end.

(** The interpreter the Slots flow runs with: the slots of [extractSlots]
    and a date resolver. *)
Definition interpreter
  (completion :
     string -> Slots.t -> option string -> option QuestionType
     -> option Slots.t)
  (parseRelativeDate : string -> string) : Interpreter.t :=
  Interpreter.mk
    (fun userMessage currentSlots question questionType =>
       Response.slots
         (extractSlots completion userMessage currentSlots question
            questionType))
    parseRelativeDate.

End ExtractSlots.

(** ** Sample data of the new flow *)

(** The sample request of the new flow with its budget filled in, what an
    interpreter may extract from a later message, and a confirmation that
    waits for its note. *)
Definition sampleCompleteRequest : ActiveRequest.t :=
  ActiveRequest.mk (Some "Hamra") (Some "Lebanese")
    (Some (BudgetRange.mk BudgetRange.R2 "medium")) (Some 2%Z)
    (Some "2024-12-25") (Some "19:30") None.

Definition sampleExtracted : Extracted.t :=
  Extracted.mk (Confident.mk (Some "Dubai Marina") (9 # 10))
    (Confident.mk None 0)
    (ExtractedBudget.mk (Some "medium") (Some BudgetRange.R2))
    (Some 4%Z)
    (Confident.mk (Some "2025-01-10") (2 # 5))
    (Confident.mk None 0)
    None.

Definition sampleNormalization : DbNormalization.t :=
  DbNormalization.mk
    (DbMatch.mk (Some "Dubai Marina") (Some "Dubai Marina") (9 # 10))
    (DbMatch.mk None None 0)
    false false.

Definition sampleConfirmingStorage : Storage.t :=
  Storage.mk None [] [] (Some sampleCompleteRequest) (Some Confirming) None
    (Some "r-bistro").

(** A language model that reads more into a message than it says: it
    hears Chinese food where the word occurs, and otherwise a cheap
    dinner in Hamra. *)
Definition sampleCompletion (userMessage : string) (currentSlots : Slots.t)
  (question : option string) (questionType : option QuestionType)
  : option Slots.t :=
  if JS.includes (JS.toLowerCase userMessage) "chinese"
  then Some (Slots.mk None None None None (Some ["Chinese"]) None None None)
  else Some (Slots.mk (Some Dinner) (Some "Hamra") None (Some BudgetCheap)
               None None None None).

Section Butler.

(** The catalog ([restaurants.ts]), static data loaded once. *)
Variable RESTAURANTS : list Restaurant.t.

(** [Number.prototype.toString] on a rating, as template strings call it. *)
Variable numberToString : Q -> string.

(** *** [recommender.ts] *)

Definition mapBudgetToPrice (budget : Budget) : Price :=
  match budget with
  | BudgetCheap => PriceLow
  | BudgetMid => PriceMid
  | BudgetHigh => PriceHigh
  end.

(** [a.toLowerCase().includes(b.toLowerCase())]. *)
Definition lowerIncludes (a b : string) : bool :=
  JS.includes (JS.toLowerCase a) (JS.toLowerCase b).

(** The guard [xs && xs.length > 0]: the array when it is there and not
    empty. *)
Definition nonEmpty {A : Type} (o : option (list A)) : option (list A) :=
  match o with
  | Some (x :: l) => Some (x :: l)
  | _ => None
  end.

Definition filterRestaurants (slots : Slots.t) (profile : Profile.t)
  : list Restaurant.t :=
  let filtered := RESTAURANTS in
  (* Filter by area *)
  let filtered :=
    match Slots.area slots with
    | Some area =>
        if JS.truthyStr (Some area) then
          List.filter
            (fun r => lowerIncludes (Restaurant.area r) area
                      || lowerIncludes area (Restaurant.area r))
            filtered
        else filtered
    | None => filtered
    end in
  (* Filter by budget, only if the user gave one *)
  let filtered :=
    match Slots.budget slots with
    | Some budget =>
        let price := mapBudgetToPrice budget in
        List.filter (fun r => Price_eqb (Restaurant.price r) price) filtered
    | None => filtered
    end in
  (* Filter by dietary requirements *)
  let filtered :=
    match nonEmpty (Slots.dietary slots) with
    | Some dietary =>
        List.filter
          (fun r =>
             existsb
               (fun req => existsb (fun d => lowerIncludes d req)
                                   (Restaurant.dietary r))
               dietary)
          filtered
    | None => filtered
    end in
  (* Filter out avoided cuisines *)
  let filtered :=
    match nonEmpty (Slots.avoid slots ≫= Avoid.cuisines) with
    | Some avoided =>
        List.filter
          (fun r =>
             negb (existsb
                     (fun avoidCuisine =>
                        existsb (fun c => lowerIncludes c avoidCuisine)
                                (Restaurant.cuisines r))
                     avoided))
          filtered
    | None => filtered
    end in
  (* Filter out avoided tags *)
  let filtered :=
    match nonEmpty (Slots.avoid slots ≫= Avoid.tags) with
    | Some avoided =>
        List.filter
          (fun r =>
             negb (existsb
                     (fun avoidTag =>
                        existsb (fun v => lowerIncludes v avoidTag)
                                (Restaurant.vibe r)
                        || existsb (fun h => lowerIncludes h avoidTag)
                                   (Restaurant.highlights r))
                     avoided))
          filtered
    | None => filtered
    end in
  filtered.

(** The table [vibeMap] of [scoreRestaurant] and [generateReasons]. *)
Definition vibeMap (v : Vibe) : list string :=
  match v with
  | Romantic => ["romantic"; "intimate"; "elegant"]
  | Lively => ["lively"; "casual"; "fun"]
  | Quiet => ["quiet"; "peaceful"; "calm"]
  | Outdoor => ["outdoor"; "patio"; "garden"]
  | Family => ["family-friendly"; "family"]
  | Business => ["business"; "professional"; "upscale"]
  end.

(** The requested cuisines that match a catalog cuisine, either string
    containing the other. *)
Definition cuisineMatches (restaurant : Restaurant.t) (cs : list string)
  : list string :=
  List.filter
    (fun c =>
       existsb (fun rc => lowerIncludes rc c || lowerIncludes c rc)
               (Restaurant.cuisines restaurant))
    cs.

Definition vibeMatch (restaurant : Restaurant.t) (v : Vibe) : bool :=
  existsb
    (fun tag => existsb (fun m => lowerIncludes tag m) (vibeMap v))
    (Restaurant.vibe restaurant).

Definition dietaryMatches (restaurant : Restaurant.t) (ds : list string)
  : list string :=
  List.filter
    (fun d => existsb (fun rd => lowerIncludes rd d)
                      (Restaurant.dietary restaurant))
    ds.

Definition ofNat (n : nat) : Q := inject_Z (Z.of_nat n).

Definition scoreRestaurant
  (restaurant : Restaurant.t) (slots : Slots.t) (profile : Profile.t) : Q :=
  let score : Q := 0%Q in
  (* Cuisine match (+3 per match) *)
  let score :=
    match nonEmpty (Slots.cravingCuisines slots) with
    | Some cs => (score + ofNat (length (cuisineMatches restaurant cs)) * 3)%Q
    | None => score
    end in
  (* Vibe match (+2) *)
  let score :=
    match Slots.vibe slots with
    | Some v => if vibeMatch restaurant v then (score + 2)%Q else score
    | None => score
    end in
  (* Budget match (+1) *)
  let score :=
    match Slots.budget slots with
    | Some budget =>
        if Price_eqb (Restaurant.price restaurant) (mapBudgetToPrice budget)
        then (score + 1)%Q else score
    | None => score
    end in
  (* Dietary match (+1 per match) *)
  let score :=
    match nonEmpty (Slots.dietary slots) with
    | Some ds => (score + ofNat (length (dietaryMatches restaurant ds)))%Q
    | None => score
    end in
  (* Profile cuisine boosts *)
  let score :=
    match Slots.cravingCuisines slots with
    | Some cs =>
        fold_left
          (fun score cuisine =>
             let likeScore :=
               Counters.count (Profile.cuisinesLiked profile) cuisine in
             (score + inject_Z likeScore * (1 # 2))%Q)
          cs score
    | None => score
    end in
  (* Profile vibe boosts *)
  let score :=
    match Slots.vibe slots with
    | Some v =>
        let vibeScore :=
          Counters.count (Profile.vibePrefs profile) (vibeName v) in
        (score + inject_Z vibeScore * (1 # 2))%Q
    | None => score
    end in
  (* Rating boost *)
  (score + Restaurant.rating restaurant * (1 # 2))%Q.

(** [(a, b) => b.score - a.score]. *)
Definition byScoreDesc (a b : Scored.t) : Q :=
  (Scored.score b - Scored.score a)%Q.

Definition demote (previousTopPickIds : list string) (item : Scored.t)
  : Scored.t :=
  if JS.arrayIncludes previousTopPickIds
       (Restaurant.id (Scored.restaurant item))
  then Scored.mk (Scored.restaurant item) (Scored.score item * (3 # 10))%Q
  else item.

Definition diversifyRecommendations
  (scored : list Scored.t) (previousTopPickIds : option (list string))
  : list Scored.t :=
  match nonEmpty previousTopPickIds with
  | None => scored
  | Some ids =>
      let diversified := List.map (demote ids) scored in
      JS.sort byScoreDesc diversified
  end.

Definition generateReasons
  (restaurant : Restaurant.t) (slots : Slots.t) (profile : Profile.t)
  : list string :=
  let reasons := [] in
  let reasons :=
    match nonEmpty (Slots.cravingCuisines slots) with
    | Some cs =>
        match cuisineMatches restaurant cs with
        | [] => reasons
        | matches =>
            reasons ++ ["great " +:+ JS.join " and " matches +:+ " cuisine"]
        end
    | None => reasons
    end in
  let reasons :=
    match Slots.vibe slots with
    | Some v =>
        if vibeMatch restaurant v
        then reasons ++ ["perfect " +:+ vibeName v +:+ " vibe"]
        else reasons
    | None => reasons
    end in
  let reasons :=
    match Slots.budget slots with
    | Some budget =>
        if Price_eqb (Restaurant.price restaurant) (mapBudgetToPrice budget)
        then reasons ++ ["matches your " +:+ budgetName budget +:+ " budget"]
        else reasons
    | None => reasons
    end in
  let reasons :=
    if Qle_bool (9 # 2) (Restaurant.rating restaurant)
    then reasons ++ ["highly rated ("
                       +:+ numberToString (Restaurant.rating restaurant)
                       +:+ " stars)"]
    else reasons in
  let reasons :=
    match Restaurant.highlights restaurant with
    | h :: _ => reasons ++ [h]
    | [] => reasons
    end in
  take 3 reasons.

Definition scoreAll (slots : Slots.t) (profile : Profile.t)
  (rs : list Restaurant.t) : list Scored.t :=
  List.map (fun r => Scored.mk r (scoreRestaurant r slots profile)) rs.

Definition recommendationOf (slots : Slots.t) (profile : Profile.t)
  (item : Scored.t) : RestaurantRecommendation.t :=
  RestaurantRecommendation.mk (Scored.restaurant item)
    (generateReasons (Scored.restaurant item) slots profile).

(** [None] is the [TypeError] raised by [top.restaurant] when the list
    whose head is taken is empty. *)
Definition recommendRestaurants
  (slots : Slots.t) (profile : Profile.t)
  (previousTopPickIds : option (list string)) : option Recommended.t :=
  let filtered := filterRestaurants slots profile in
  match filtered with
  | [] =>
      (* Fallback: use all restaurants if filtered is empty *)
      let allScored := JS.sort byScoreDesc (scoreAll slots profile RESTAURANTS) in
      match allScored with
      | [] => None
      | top :: _ =>
          Some (Recommended.mk (recommendationOf slots profile top) [])
      end
  | _ :: _ =>
      let scored := JS.sort byScoreDesc (scoreAll slots profile filtered) in
      let diversified := diversifyRecommendations scored previousTopPickIds in
      match diversified with
      | [] => None
      | top :: rest =>
          Some (Recommended.mk
                  (recommendationOf slots profile top)
                  (List.map (recommendationOf slots profile) (take 2 rest)))
      end
  end.

(** *** [recommender.ts] on doubles

    The scoring and ranking functions once more, on the doubles the engine
    computes with. *)

(** The property names every object literal inherits from
    [Object.prototype]. *)
Definition inheritedNames : list string :=
  ["constructor"; "__defineGetter__"; "__defineSetter__"; "hasOwnProperty";
   "__lookupGetter__"; "__lookupSetter__"; "isPrototypeOf";
   "propertyIsEnumerable"; "toString"; "valueOf"; "__proto__";
   "toLocaleString"].

(** [record[key] || 0] as the multiplication that follows reads it: the
    count the record owns under [key]; 0 when nothing is found under
    [key]; and, when the record owns nothing under [key] but inherits a
    member of that name, that member (a function or an object, which is
    truthy), whose value as a number is [NaN]. *)
Definition likeScore64 (record : Counters.t) (key : string) : float :=
  match Counters.get record key with
  | Some count => Double.ofZ count
  | None =>
      if JS.arrayIncludes inheritedNames key then PrimFloat.nan else 0%float
  end.

Definition scoreRestaurant64
  (restaurant : Restaurant.t) (slots : Slots.t) (profile : Profile.t)
  : float :=
  let score := 0%float in
  (* Cuisine match (+3 per match) *)
  let score :=
    match nonEmpty (Slots.cravingCuisines slots) with
    | Some cs =>
        (score + Double.ofNat (length (cuisineMatches restaurant cs)) * 3)%float
    | None => score
    end in
  (* Vibe match (+2) *)
  let score :=
    match Slots.vibe slots with
    | Some v => if vibeMatch restaurant v then (score + 2)%float else score
    | None => score
    end in
  (* Budget match (+1) *)
  let score :=
    match Slots.budget slots with
    | Some budget =>
        if Price_eqb (Restaurant.price restaurant) (mapBudgetToPrice budget)
        then (score + 1)%float else score
    | None => score
    end in
  (* Dietary match (+1 per match) *)
  let score :=
    match nonEmpty (Slots.dietary slots) with
    | Some ds =>
        (score + Double.ofNat (length (dietaryMatches restaurant ds)))%float
    | None => score
    end in
  (* Profile cuisine boosts *)
  let score :=
    match Slots.cravingCuisines slots with
    | Some cs =>
        fold_left
          (fun score cuisine =>
             let likeScore :=
               likeScore64 (Profile.cuisinesLiked profile) cuisine in
             (score + likeScore * 0.5)%float)
          cs score
    | None => score
    end in
  (* Profile vibe boosts *)
  let score :=
    match Slots.vibe slots with
    | Some v =>
        let vibeScore :=
          likeScore64 (Profile.vibePrefs profile) (vibeName v) in
        (score + vibeScore * 0.5)%float
    | None => score
    end in
  (* Rating boost *)
  (score + Double.ofQ (Restaurant.rating restaurant) * 0.5)%float.

(** [(a, b) => b.score - a.score]. *)
Definition byScoreDesc64 (a b : Scored64.t) : float :=
  (Scored64.score b - Scored64.score a)%float.

Definition demote64 (previousTopPickIds : list string) (item : Scored64.t)
  : Scored64.t :=
  if JS.arrayIncludes previousTopPickIds
       (Restaurant.id (Scored64.restaurant item))
  then Scored64.mk (Scored64.restaurant item)
         (Scored64.score item * 0.3)%float
  else item.

Definition diversifyRecommendations64
  (scored : list Scored64.t) (previousTopPickIds : option (list string))
  : list Scored64.t :=
  match nonEmpty previousTopPickIds with
  | None => scored
  | Some ids =>
      let diversified := List.map (demote64 ids) scored in
      Double.sort byScoreDesc64 diversified
  end.

Definition scoreAll64 (slots : Slots.t) (profile : Profile.t)
  (rs : list Restaurant.t) : list Scored64.t :=
  List.map (fun r => Scored64.mk r (scoreRestaurant64 r slots profile)) rs.

Definition recommendationOf64 (slots : Slots.t) (profile : Profile.t)
  (item : Scored64.t) : RestaurantRecommendation.t :=
  RestaurantRecommendation.mk (Scored64.restaurant item)
    (generateReasons (Scored64.restaurant item) slots profile).

(** [None] is the [TypeError] raised by [top.restaurant] when the list
    whose head is taken is empty. *)
Definition recommendRestaurants64
  (slots : Slots.t) (profile : Profile.t)
  (previousTopPickIds : option (list string)) : option Recommended.t :=
  let filtered := filterRestaurants slots profile in
  match filtered with
  | [] =>
      (* Fallback: use all restaurants if filtered is empty *)
      let allScored :=
        Double.sort byScoreDesc64 (scoreAll64 slots profile RESTAURANTS) in
      match allScored with
      | [] => None
      | top :: _ =>
          Some (Recommended.mk (recommendationOf64 slots profile top) [])
      end
  | _ :: _ =>
      let scored :=
        Double.sort byScoreDesc64 (scoreAll64 slots profile filtered) in
      let diversified := diversifyRecommendations64 scored previousTopPickIds in
      match diversified with
      | [] => None
      | top :: rest =>
          Some (Recommended.mk
                  (recommendationOf64 slots profile top)
                  (List.map (recommendationOf64 slots profile) (take 2 rest)))
      end
  end.

(** *** [newRecommender.ts] *)

Definition budgetMap (range : BudgetRange.Range) : Price :=
  match range with
  | BudgetRange.R1 => PriceLow
  | BudgetRange.R2 => PriceMid
  | BudgetRange.R3 => PriceHigh
  | BudgetRange.R4 => PriceHigh
  end.

Definition priceMap (price : Price) : Z :=
  match price with
  | PriceLow => 1
  | PriceMid => 2
  | PriceHigh => 3
  end.

(** The score [getTopRestaurants] gives one entry of the area-filtered
    catalog (the body of its [map] callback). *)
Definition activeScore (activeRequest : ActiveRequest.t)
  (restaurant : Restaurant.t) : Q :=
  let score : Q := 0%Q in
  (* Exact cuisine match (+10) *)
  let score :=
    match ActiveRequest.cuisine activeRequest with
    | Some cuisine =>
        if JS.truthyStr (Some cuisine) then
          let cuisineLower := JS.toLowerCase cuisine in
          let hasMatch :=
            existsb
              (fun c =>
                 String.eqb (JS.toLowerCase c) cuisineLower
                 || JS.includes (JS.toLowerCase c) cuisineLower
                 || JS.includes cuisineLower (JS.toLowerCase c))
              (Restaurant.cuisines restaurant) in
          if hasMatch then (score + 10)%Q else score
        else score
    | None => score
    end in
  (* Budget match: exact (+5), one tier away (+2) *)
  let score :=
    match ActiveRequest.budget activeRequest with
    | Some budget =>
        let targetPrice := budgetMap (BudgetRange.range budget) in
        let restaurantPriceNum := priceMap (Restaurant.price restaurant) in
        let targetPriceNum := priceMap targetPrice in
        if Price_eqb (Restaurant.price restaurant) targetPrice
        then (score + 5)%Q
        else if Z.eqb (Z.abs (restaurantPriceNum - targetPriceNum)) 1
             then (score + 2)%Q
             else score
    | None => score
    end in
  (* Tag matches from notes *)
  let score :=
    match ActiveRequest.notes activeRequest with
    | Some notes =>
        if JS.truthyStr (Some notes) then
          let notesLower := JS.toLowerCase notes in
          let tags :=
            ["romantic"; "lively"; "quiet"; "family"; "rooftop"; "view"] in
          fold_left
            (fun score tag =>
               if JS.includes notesLower tag then
                 let hasMatch :=
                   existsb (fun v => JS.includes (JS.toLowerCase v) tag)
                           (Restaurant.vibe restaurant)
                   || existsb (fun h => JS.includes (JS.toLowerCase h) tag)
                              (Restaurant.highlights restaurant) in
                 if hasMatch then (score + 3)%Q else score
               else score)
            tags score
        else score
    | None => score
    end in
  (* Rating boost *)
  (score + Restaurant.rating restaurant * (1 # 2))%Q.

(** [(a, b) => b.rating - a.rating]. *)
Definition byRatingDesc (a b : Restaurant.t) : Q :=
  (Restaurant.rating b - Restaurant.rating a)%Q.

(** The area filter of [getTopRestaurants] (the callback of its
    [filter]). *)
Definition inArea (activeRequest : ActiveRequest.t) (r : Restaurant.t)
  : bool :=
  match ActiveRequest.area activeRequest with
  | Some area =>
      if JS.truthyStr (Some area) then
        lowerIncludes (Restaurant.area r) area
        || lowerIncludes area (Restaurant.area r)
      else false
  | None => false
  end.

Definition getTopRestaurants (activeRequest : ActiveRequest.t)
  : TopRestaurants.t :=
  (* Filter by area (required) *)
  let filtered := List.filter (inArea activeRequest) RESTAURANTS in
  match filtered with
  | [] =>
      (* Fallback: if no area match, return top rated restaurants *)
      let filtered := take 3 (JS.sort byRatingDesc RESTAURANTS) in
      TopRestaurants.mk (head filtered) (take 2 (drop 1 filtered))
  | _ :: _ =>
      let scored :=
        List.map (fun r => Scored.mk r (activeScore activeRequest r))
                 filtered in
      let scored := JS.sort byScoreDesc scored in
      (* [scored] is as long as [filtered], so [scored[0]] is there *)
      TopRestaurants.mk
        (head (List.map Scored.restaurant scored))
        (List.map Scored.restaurant (take 2 (drop 1 scored)))
  end.

(** *** [parser.ts] *)

(** [lower.match(/^([123])$/)]. *)
Definition optionMatch (lower : string) : option OptionNumber :=
  if String.eqb lower "1" then Some One
  else if String.eqb lower "2" then Some Two
  else if String.eqb lower "3" then Some Three
  else None.

(** [lower.match(/^book\s+([123])$/)]: the word, at least one white space
    character, one option digit, the end of the text. *)
Definition bookMatch (lower : string) : option OptionNumber :=
  if JS.startsWith lower "book" then
    let rest := String.substring 4 (String.length lower - 4) lower in
    let digit := JS.trimStart rest in
    if (String.length digit <? String.length rest)%nat
    then optionMatch digit
    else None
  else None.

Definition rejectPatterns : list string :=
  ["no"; "not"; "don't"; "dont"; "wrong"; "not that"; "too"; "reject";
   "skip"].

(** The intent and option number [parseUserMessage] returns. The tail of
    the function fills [slotUpdates] and returns the intent [unknown]
    whatever it found. *)
Definition parseUserMessage (text : string) : Parsed.t :=
  let lower := JS.trim (JS.toLowerCase text) in
  if String.eqb lower "reset" || JS.startsWith lower "reset "
  then Parsed.mk Reset None
  else if String.eqb lower "profile" || JS.startsWith lower "profile "
  then Parsed.mk ProfileCommand None
  else if String.eqb lower "more" || JS.startsWith lower "more "
  then Parsed.mk More None
  else
    match bookMatch lower with
    | Some num => Parsed.mk BookOption (Some num)
    | None =>
        match optionMatch lower with
        | Some num => Parsed.mk SelectOption (Some num)
        | None =>
            if String.eqb lower "confirm" || String.eqb lower "yes"
               || String.eqb lower "y"
            then Parsed.mk Confirm None
            else if String.eqb lower "change" || String.eqb lower "no"
                    || String.eqb lower "n"
            then Parsed.mk Change None
            else
              let isReject :=
                existsb (fun p => JS.includes lower p) rejectPatterns in
              if isReject
                 && (JS.includes lower "far"
                     || JS.includes lower "expensive"
                     || JS.includes lower "vibe")
              then Parsed.mk Reject None
              else Parsed.mk Unknown None
        end
    end.

(** *** [conversation.ts] *)

Definition canRecommend (slots : Slots.t) (profile : Profile.t) : bool :=
  let hasArea := JS.truthyStr (Slots.area slots) in
  let hasPartySize := JS.truthyNum (Slots.partySize slots) in
  let hasBudget := JS.truthyObj (Slots.budget slots) in
  let hasCuisineOrVibeOrMealTime :=
    JS.truthyObj (nonEmpty (Slots.cravingCuisines slots))
    || JS.truthyObj (Slots.vibe slots)
    || JS.truthyObj (Slots.mealTime slots) in
  hasArea && hasPartySize && hasBudget && hasCuisineOrVibeOrMealTime.

Definition getNextDiscoveryQuestion (slots : Slots.t) (profile : Profile.t)
  : string * QuestionType :=
  (* Ask for area first *)
  if negb (JS.truthyStr (Slots.area slots)) then
    ("What area or neighborhood are you thinking? I can help you find great spots in different locations.",
     QArea)
  (* Ask for meal time second *)
  else if negb (JS.truthyObj (Slots.mealTime slots)) then
    ("What meal time are you planning for? Options: breakfast, lunch, dinner, coffee, drinks, or late-night.",
     QMealTime)
  (* Ask for party size third *)
  else if negb (JS.truthyNum (Slots.partySize slots)) then
    ("How many people will be joining you? Just let me know the number.",
     QPartySize)
  (* Ask for budget fourth *)
  else if negb (JS.truthyObj (Slots.budget slots)) then
    ("What's your budget preference? You can choose: cheap, mid, or high. I'll find the perfect match for you!",
     QBudget)
  (* Ask for cuisine or vibe fifth: an array, even empty, is truthy *)
  else if negb (JS.truthyObj (Slots.cravingCuisines slots))
          && negb (JS.truthyObj (Slots.vibe slots)) then
    ("What type of cuisine are you in the mood for, or what kind of atmosphere are you looking for? I'm here to help you find something perfect!",
     QCuisine)
  (* Ask for dietary last *)
  else if negb (JS.truthyObj (Slots.dietary slots)) then
    ("Do you have any dietary requirements or preferences? Just let me know if you have any restrictions or preferences.",
     QDietary)
  else (EmptyString, QCuisine).

Definition formatPrice (price : Price) : string :=
  match price with
  | PriceLow => "$"
  | PriceMid => "$$"
  | PriceHigh => "$$$"
  end.

(** One numbered entry of the recommendation message, with its [Why] line. *)
Definition formatEntry (optionNum : nat) (rec : RestaurantRecommendation.t)
  : string :=
  let r := RestaurantRecommendation.restaurant rec in
  pretty optionNum +:+ ") " +:+ Restaurant.name r
    +:+ " (" +:+ Restaurant.area r +:+ ") price: "
    +:+ formatPrice (Restaurant.price r)
    +:+ " | " +:+ JS.join ", " (Restaurant.cuisines r)
    +:+ " | " +:+ JS.join ", " (Restaurant.vibe r) +:+ JS.newline
    +:+ "   Why: " +:+ JS.join "; " (RestaurantRecommendation.reasons rec)
    +:+ JS.newline.

Definition formatRecommendationMessage
  (recommendations : option Recommendations.t) (slots : Slots.t) : string :=
  match recommendations with
  | None => EmptyString
  | Some recs =>
      let topPick := Recommendations.topPick recs in
      let alternatives := Recommendations.alternatives recs in
      let topRestaurant := RestaurantRecommendation.restaurant topPick in
      let message := EmptyString in
      (* Check if requested cuisine wasn't found *)
      let message :=
        match nonEmpty (Slots.cravingCuisines slots) with
        | Some requestedCuisines =>
            let hasMatch :=
              existsb
                (fun reqCuisine =>
                   existsb
                     (fun rCuisine =>
                        lowerIncludes rCuisine reqCuisine
                        || lowerIncludes reqCuisine rCuisine)
                     (Restaurant.cuisines topRestaurant))
                requestedCuisines in
            if negb hasMatch then
              message +:+ "I couldn't find "
                +:+ JS.join " or " requestedCuisines
                +:+ " restaurants matching your criteria. Here are some great alternatives:"
                +:+ JS.newline +:+ JS.newline
            else message
        | None => message
        end in
      let message := message +:+ "Top pick:" +:+ JS.newline in
      let message := message +:+ formatEntry 1 topPick in
      let message :=
        match alternatives with
        | [] => message
        | _ :: _ =>
            let message :=
              message +:+ JS.newline +:+ "Alternatives:" +:+ JS.newline in
            fold_left
              (fun message '(idx, alt) => message +:+ formatEntry (idx + 2) alt)
              (imap (fun idx alt => (idx, alt)) alternatives)
              message
        end in
      message +:+ JS.newline
        +:+ "Reply 1/2/3 to pick. Reply 'book 1' to book. Reply 'more' for other options."
  end.

(** The reply to the [profile] command. *)
Definition byCountDesc (a b : string * Z) : Q := inject_Z (snd b - snd a).

Definition topNames (record : Counters.t) : string :=
  JS.join ", " (List.map fst (take 5 (JS.sort byCountDesc record))).

Definition profileSummary (profile : Profile.t) : string :=
  let profileLines := ["Here's what I remember about your preferences:"] in
  let profileLines :=
    match Profile.cuisinesLiked profile with
    | [] => profileLines
    | _ :: _ =>
        profileLines
          ++ ["Cuisines you like: " +:+ topNames (Profile.cuisinesLiked profile)]
    end in
  let profileLines :=
    match Profile.vibePrefs profile with
    | [] => profileLines
    | _ :: _ =>
        profileLines
          ++ ["Vibe preferences: " +:+ topNames (Profile.vibePrefs profile)]
    end in
  let profileLines :=
    match Profile.budgetDefault profile with
    | Some b => profileLines ++ ["Your usual budget: " +:+ budgetName b]
    | None => profileLines
    end in
  let profileLines :=
    match nonEmpty (Profile.dietary profile) with
    | Some ds => profileLines ++ ["Dietary preferences: " +:+ JS.join ", " ds]
    | None => profileLines
    end in
  let profileLines :=
    match Profile.lastArea profile with
    | Some a =>
        if JS.truthyStr (Some a)
        then profileLines ++ ["Last area you visited: " +:+ a]
        else profileLines
    | None => profileLines
    end in
  JS.join JS.newline profileLines.

(** [question || fallback]. *)
Definition orElse (s fallback : string) : string :=
  if String.eqb s EmptyString then fallback else s.

(** A template hole holding an optional string. *)
Definition shown (o : option string) : string := default "undefined" o.

Definition previousIdsOf (c : ConversationContext.t) : option (list string) :=
  ConversationContext.recommendations c ≫= Recommendations.previousTopPickIds.

(** The block that stores a fresh recommendation in the context: the
    option mapping, the remembered top picks, no pending question, and the
    formatted message as the reply. *)
Definition showRecommendations (newContext : ConversationContext.t)
  (recommendations : Recommended.t) (previousTopPickIds : list string)
  : ConversationContext.t * string :=
  let topPick := Recommended.topPick recommendations in
  let alternatives := Recommended.alternatives recommendations in
  let mapping :=
    RecommendationMapping.mk
      (RestaurantRecommendation.restaurant topPick)
      (RestaurantRecommendation.restaurant <$> alternatives !! 0%nat)
      (RestaurantRecommendation.restaurant <$> alternatives !! 1%nat) in
  let newContext :=
    ConversationContext.set_recommendations
      (Some (Recommendations.mk topPick alternatives mapping
               (Some previousTopPickIds)))
      newContext in
  let newContext := ConversationContext.set_question None None newContext in
  (newContext,
   formatRecommendationMessage
     (ConversationContext.recommendations newContext)
     (ConversationContext.slots newContext)).

(** The recommendation step shared by [WELCOME] and [DISCOVERY]; [None]
    is the exception of [recommendRestaurants]. *)
Definition recommendNow (newContext : ConversationContext.t)
  (profile : Profile.t) : option (ConversationContext.t * string) :=
  recommendations ←
    recommendRestaurants (ConversationContext.slots newContext) profile
      (previousIdsOf newContext);
  let topId :=
    Restaurant.id
      (RestaurantRecommendation.restaurant
         (Recommended.topPick recommendations)) in
  let '(newContext, response) :=
    showRecommendations newContext recommendations [topId] in
  Some (ConversationContext.set_state RECOMMEND newContext, response).

(** The step that asks the next discovery question. *)
Definition askNext (newContext : ConversationContext.t) (profile : Profile.t)
  : ConversationContext.t * string :=
  let questionInfo :=
    getNextDiscoveryQuestion (ConversationContext.slots newContext) profile in
  (ConversationContext.set_question
     (Some (fst questionInfo)) (Some (snd questionInfo)) newContext,
   orElse (fst questionInfo)
     "What else can you tell me to help you find the perfect restaurant?").

(** [case "WELCOME"]. *)
Definition onWelcome (gpt : Interpreter.t) (userText : string)
  (newContext : ConversationContext.t) (profile : Profile.t)
  : option (ConversationContext.t * string) :=
  let newContext := ConversationContext.set_state DISCOVERY newContext in
  let extraction :=
    Interpreter.extractSlots gpt userText
      (ConversationContext.slots newContext) None None in
  (* Merge extracted slots with existing slots (extraction takes precedence) *)
  let newContext :=
    ConversationContext.set_slots
      (Slots.spread (ConversationContext.slots newContext) extraction)
      newContext in
  if canRecommend (ConversationContext.slots newContext) profile
  then recommendNow newContext profile
  else Some (askNext newContext profile).

(** [case "DISCOVERY"]. *)
Definition onDiscovery (gpt : Interpreter.t) (userText : string)
  (newContext : ConversationContext.t) (profile : Profile.t)
  : option (ConversationContext.t * string) :=
  if canRecommend (ConversationContext.slots newContext) profile
  then recommendNow newContext profile
  else
    let extraction :=
      Interpreter.extractSlots gpt userText
        (ConversationContext.slots newContext)
        (ConversationContext.lastQuestion newContext)
        (ConversationContext.lastQuestionType newContext) in
    (* Merge extracted slots with existing slots (extraction takes precedence) *)
    let newContext :=
      ConversationContext.set_slots
        (Slots.spread (ConversationContext.slots newContext) extraction)
        newContext in
    if canRecommend (ConversationContext.slots newContext) profile
    then recommendNow newContext profile
    else Some (askNext newContext profile).

Definition optionOf (newContext : ConversationContext.t) (n : OptionNumber)
  : option Restaurant.t :=
  recs ← ConversationContext.recommendations newContext;
  RecommendationMapping.get (Recommendations.mapping recs) n.

(** [case "RECOMMEND"]. *)
Definition onRecommend (parsed : Parsed.t)
  (newContext : ConversationContext.t) (profile : Profile.t)
  : option (ConversationContext.t * string) :=
  match Parsed.intent parsed, Parsed.optionNumber parsed with
  | SelectOption, Some n =>
      match optionOf newContext n with
      | Some selectedRestaurant =>
          Some (newContext,
                "Great choice! " +:+ Restaurant.name selectedRestaurant
                  +:+ " looks perfect. Would you like me to book it? Just reply 'book "
                  +:+ optionDigit n
                  +:+ "' to start, or 'more' to see other options.")
      | None =>
          Some (newContext,
                "I don't have that option. Please reply with 1, 2, or 3 to pick a restaurant.")
      end
  | BookOption, Some n =>
      match optionOf newContext n with
      | Some selectedRestaurant =>
          let newContext :=
            ConversationContext.set_bookingDraft
              (Some (BookingDraft.mk
                       (Some (Restaurant.id selectedRestaurant))
                       None None
                       (Slots.partySize (ConversationContext.slots newContext))
                       None))
              newContext in
          let newContext :=
            ConversationContext.set_state BOOKING_COLLECT newContext in
          let question :=
            "What date would you like to book for? You can say things like 'tomorrow', 'Friday', or a specific date like '2024-12-25'." in
          Some (ConversationContext.set_question (Some question) None newContext,
                question)
      | None =>
          Some (newContext,
                "I don't have that option. Please reply 'book 1', 'book 2', or 'book 3' to book a restaurant.")
      end
  | More, _ =>
      (* Re-recommend with diversification *)
      recommendations ←
        recommendRestaurants (ConversationContext.slots newContext) profile
          (previousIdsOf newContext);
      let topId :=
        Restaurant.id
          (RestaurantRecommendation.restaurant
             (Recommended.topPick recommendations)) in
      let totalOptions :=
        (1 + length (Recommended.alternatives recommendations))%nat in
      let allRestaurantIds :=
        topId
          :: List.map
               (fun alt =>
                  Restaurant.id (RestaurantRecommendation.restaurant alt))
               (Recommended.alternatives recommendations) in
      let previousIds := default [] (previousIdsOf newContext) in
      let isStuck :=
        (totalOptions <=? 1)%nat
        || forallb (JS.arrayIncludes previousIds) allRestaurantIds in
      if isStuck then
        let question :=
          "I don't have many other options with your current criteria. What would you like to change? You can say 'area', 'budget', or 'cuisine', or just tell me the new value (like 'downtown' for area)." in
        Some (ConversationContext.set_question (Some question) None
                (ConversationContext.set_state REFINE newContext),
              question)
      else
        Some (showRecommendations newContext recommendations
                (JS.sliceLast 3 (previousIds ++ [topId])))
  | Reject, _ =>
      let question :=
        "I'd love to help you find something better! Is it too far, too expensive, or the wrong vibe?" in
      Some (ConversationContext.set_question (Some question) None
              (ConversationContext.set_state REFINE newContext),
            question)
  | _, _ =>
      (* Continue slot filling *)
      let questionInfo :=
        getNextDiscoveryQuestion (ConversationContext.slots newContext)
          profile in
      if negb (String.eqb (fst questionInfo) EmptyString) then
        Some (ConversationContext.set_question
                (Some (fst questionInfo)) (Some (snd questionInfo))
                (ConversationContext.set_state DISCOVERY newContext),
              fst questionInfo)
      else
        Some (newContext,
              "Reply 1/2/3 to pick. Reply 'book 1' to book. Reply 'more' for other options.")
  end.

(** One of the three [REFINE] branches that clear a slot and go back to
    asking. *)
Definition clearAndAsk (newContext : ConversationContext.t)
  (profile : Profile.t) (slots : Slots.t) (lead : string)
  : ConversationContext.t * string :=
  let newContext := ConversationContext.set_state DISCOVERY newContext in
  let newContext := ConversationContext.set_slots slots newContext in
  let questionInfo :=
    getNextDiscoveryQuestion (ConversationContext.slots newContext) profile in
  (ConversationContext.set_question
     (Some (fst questionInfo)) (Some (snd questionInfo)) newContext,
   lead +:+ fst questionInfo).

(** [case "REFINE"]. *)
Definition onRefine (gpt : Interpreter.t) (userText : string)
  (newContext : ConversationContext.t) (profile : Profile.t)
  : ConversationContext.t * string :=
  let lowerText := JS.trim (JS.toLowerCase userText) in
  let slots := ConversationContext.slots newContext in
  if String.eqb lowerText "area" || JS.includes lowerText "area"
     || JS.includes lowerText "location"
     || JS.includes lowerText "neighborhood"
  then clearAndAsk newContext profile (Slots.set_area None slots)
         "Sure! Let's change the area. "
  else if String.eqb lowerText "budget" || String.eqb lowerText "price"
          || JS.includes lowerText "budget" || JS.includes lowerText "price"
  then clearAndAsk newContext profile (Slots.set_budget None slots)
         "Sure! Let's change the budget. "
  else if String.eqb lowerText "cuisine" || String.eqb lowerText "food"
          || JS.includes lowerText "cuisine"
          || JS.includes lowerText "food type"
  then clearAndAsk newContext profile (Slots.set_cravingCuisines None slots)
         "Sure! Let's change the cuisine. "
  else
    let extraction := Interpreter.extractSlots gpt userText slots None None in
    if JS.truthyStr (Slots.area extraction)
    then clearAndAsk newContext profile
           (Slots.set_area (Slots.area extraction) slots)
           "Got it! I've updated the area. "
    else if JS.truthyObj (Slots.budget extraction)
    then clearAndAsk newContext profile
           (Slots.set_budget (Slots.budget extraction) slots)
           "Got it! I've updated the budget. "
    else if JS.truthyObj (nonEmpty (Slots.cravingCuisines extraction))
    then clearAndAsk newContext profile
           (Slots.set_cravingCuisines (Slots.cravingCuisines extraction) slots)
           "Got it! I've updated the cuisine. "
    else if JS.truthyObj (Slots.vibe extraction)
    then clearAndAsk newContext profile
           (Slots.set_vibe (Slots.vibe extraction) slots)
           "Got it! I've updated the vibe. "
    else
      (newContext,
       "I'd love to help you adjust your preferences! You can change the area, budget, cuisine, or vibe. What would you like to change?").

(** [userText.match(/(\d{1,2}):?(\d{2})?\s*(am|pm|AM|PM)?/)]. Every part
    after the first digit is optional, so the match starts at the first
    digit of the text and each part takes what it can. The three groups. *)
Fixpoint fromFirstDigit (s : list ascii) : option (list ascii) :=
  match s with
  | [] => None
  | c :: rest => if JS.isDigit c then Some s else fromFirstDigit rest
  end.

Fixpoint skipSpaces (s : list ascii) : list ascii :=
  match s with
  | [] => []
  | c :: rest => if JS.isSpace c then skipSpaces rest else s
  end.

Definition timeMatch (userText : string)
  : option (list ascii * option (list ascii) * option string) :=
  match fromFirstDigit (list_ascii_of_string userText) with
  | Some (h :: rest) =>
      let '(hours, rest) :=
        match rest with
        | d :: rest' => if JS.isDigit d then ([h; d], rest') else ([h], rest)
        | [] => ([h], rest)
        end in
      let rest :=
        match rest with
        | c :: rest' => if Ascii.eqb c ":" then rest' else rest
        | [] => rest
        end in
      let '(minutes, rest) :=
        match rest with
        | a :: b :: rest' =>
            if JS.isDigit a && JS.isDigit b
            then (Some [a; b], rest') else (None, rest)
        | _ => (None, rest)
        end in
      let rest := skipSpaces rest in
      let ampm :=
        match rest with
        | x :: y :: _ =>
            let w := string_of_list_ascii [x; y] in
            if JS.arrayIncludes ["am"; "pm"; "AM"; "PM"] w
            then Some w else None
        | _ => None
        end in
      Some (hours, minutes, ampm)
  | _ => None
  end.

(** The time the booking draft stores for a reply. *)
Definition parseTime (userText : string) : string :=
  match timeMatch userText with
  | Some (g1, g2, g3) =>
      let hours := JS.parseDigits g1 in
      let minutes :=
        match g2 with
        | Some ds => JS.parseDigits ds
        | None => 0%nat
        end in
      let ampm := JS.toLowerCase <$> g3 in
      let hours :=
        if bool_decide (ampm = Some "pm") && (hours <? 12)%nat
        then (hours + 12)%nat else hours in
      let hours :=
        if bool_decide (ampm = Some "am") && (hours =? 12)%nat
        then 0%nat else hours in
      JS.padStart2 (pretty hours) +:+ ":" +:+ JS.padStart2 (pretty minutes)
  | None => JS.trim userText
  end.

(** [userText.match(/\b(\d{1,2})\b/)]: the first run of one or two digits
    with no word character on either side. [prevWord] tells whether the
    character before the current position is a word character. *)
Fixpoint partyScan (prevWord : bool) (s : list ascii) : option (list ascii) :=
  match s with
  | [] => None
  | c :: rest =>
      let next := partyScan (JS.isWordChar c) rest in
      if negb prevWord && JS.isDigit c then
        match rest with
        | [] => Some [c]
        | d :: rest' =>
            if JS.isDigit d
               && match rest' with
                  | [] => true
                  | e :: _ => negb (JS.isWordChar e)
                  end
            then Some [c; d]
            else if negb (JS.isWordChar d) then Some [c]
            else next
        end
      else next
  end.

Definition partyMatch (userText : string) : option Z :=
  (fun ds => Z.of_nat (JS.parseDigits ds))
    <$> partyScan false (list_ascii_of_string userText).

Definition findRestaurant (id : option string) : option Restaurant.t :=
  match id with
  | Some id => List.find (fun r => String.eqb (Restaurant.id r) id) RESTAURANTS
  | None => None
  end.

(** [case "BOOKING_COLLECT"]. *)
Definition onBookingCollect (gpt : Interpreter.t) (userText : string)
  (newContext : ConversationContext.t) : ConversationContext.t * string :=
  match ConversationContext.bookingDraft newContext with
  | None =>
      (ConversationContext.set_question None None
         (ConversationContext.set_state DISCOVERY newContext),
       "Booking cancelled. What are you looking for?")
  | Some draft =>
      let notesQuestion :=
        "Any special notes or requests for the restaurant? If not, just say 'no'." in
      (* Collect booking info sequentially *)
      if negb (JS.truthyStr (BookingDraft.date draft)) then
        let draft :=
          BookingDraft.set_date
            (Some (Interpreter.parseRelativeDate gpt userText)) draft in
        let question :=
          "Perfect! What time would you like? You can say things like '7pm', '19:00', or '7:30 PM'." in
        (ConversationContext.set_question (Some question) None
           (ConversationContext.set_bookingDraft (Some draft) newContext),
         question)
      else if negb (JS.truthyStr (BookingDraft.time draft)) then
        let draft := BookingDraft.set_time (Some (parseTime userText)) draft in
        let newContext :=
          ConversationContext.set_bookingDraft (Some draft) newContext in
        if negb (JS.truthyNum (BookingDraft.partySize draft)) then
          let question := "How many people will be joining?" in
          (ConversationContext.set_question (Some question) (Some QPartySize)
             newContext,
           question)
        else
          (ConversationContext.set_question (Some notesQuestion) None
             newContext,
           notesQuestion)
      else if negb (JS.truthyObj (BookingDraft.partySize draft)) then
        let partySize :=
          match partyMatch userText with
          | Some n => n
          | None =>
              let fromSlots :=
                Slots.partySize (ConversationContext.slots newContext) in
              if JS.truthyNum fromSlots then default 2%Z fromSlots else 2%Z
          end in
        let draft := BookingDraft.set_partySize (Some partySize) draft in
        (ConversationContext.set_question (Some notesQuestion) None
           (ConversationContext.set_bookingDraft (Some draft) newContext),
         notesQuestion)
      else if negb (JS.truthyObj (BookingDraft.notes draft)) then
        let lowerText := JS.toLowerCase userText in
        let notes :=
          if String.eqb lowerText "no" || String.eqb lowerText "n"
             || String.eqb (JS.trim lowerText) EmptyString
          then EmptyString else JS.trim userText in
        let draft := BookingDraft.set_notes (Some notes) draft in
        let newContext :=
          ConversationContext.set_bookingDraft (Some draft) newContext in
        let newContext :=
          ConversationContext.set_state BOOKING_CONFIRM newContext in
        let restaurant := findRestaurant (BookingDraft.restaurantId draft) in
        let summary :=
          "Here's your booking summary:" +:+ JS.newline
            +:+ "Restaurant: "
            +:+ orElse (default EmptyString (Restaurant.name <$> restaurant))
                       "Unknown"
            +:+ JS.newline
            +:+ "Date: " +:+ shown (BookingDraft.date draft) +:+ JS.newline
            +:+ "Time: " +:+ shown (BookingDraft.time draft) +:+ JS.newline
            +:+ "Party: "
            +:+ shown (pretty <$> BookingDraft.partySize draft)
            +:+ " people" +:+ JS.newline
            +:+ "Notes: " +:+ orElse notes "None" +:+ JS.newline
            +:+ JS.newline
            +:+ "Does this look good? Reply 'confirm' to book or 'change' to modify." in
        (ConversationContext.set_question (Some summary) None newContext,
         summary)
      else (newContext, EmptyString)
  end.

(** The vibe counter a catalog vibe tag feeds on confirmation. *)
Definition slotVibeOf (vibe : string) : option string :=
  if JS.arrayIncludes ["romantic"; "intimate"; "elegant"] vibe
  then Some "romantic"
  else if JS.arrayIncludes ["lively"; "casual"; "fun"] vibe
  then Some "lively"
  else if JS.arrayIncludes ["quiet"; "peaceful"; "calm"] vibe
  then Some "quiet"
  else if JS.arrayIncludes ["outdoor"; "patio"; "garden"] vibe
  then Some "outdoor"
  else if JS.arrayIncludes ["family-friendly"; "family"] vibe
  then Some "family"
  else if JS.arrayIncludes ["business"; "professional"; "upscale"] vibe
  then Some "business"
  else None.

Definition likeCuisines (restaurant : Restaurant.t) (liked : Counters.t)
  : Counters.t :=
  fold_left Counters.bump (Restaurant.cuisines restaurant) liked.

Definition likeVibes (restaurant : Restaurant.t) (prefs : Counters.t)
  : Counters.t :=
  fold_left
    (fun prefs vibe =>
       match slotVibeOf vibe with
       | Some slotVibe => Counters.bump prefs slotVibe
       | None => prefs
       end)
    (Restaurant.vibe restaurant) prefs.

(** [case "BOOKING_CONFIRM"]. Besides the context and the reply, the
    caller's profile object and the storage after the branch. *)
Definition onBookingConfirm (parsed : Parsed.t)
  (newContext : ConversationContext.t) (profile : Profile.t)
  (st : Storage.t)
  : ConversationContext.t * string * Profile.t * Storage.t :=
  match Parsed.intent parsed with
  | Confirm =>
      let done (response : string) (profile : Profile.t) (st : Storage.t) :=
        (ConversationContext.set_question None None
           (ConversationContext.set_bookingDraft None
              (ConversationContext.set_state DISCOVERY newContext)),
         response, profile, st) in
      let missing :=
        "I'm sorry, there seems to be some missing information. Let's try again." in
      match ConversationContext.bookingDraft newContext with
      | Some draft =>
          match BookingDraft.date draft, BookingDraft.time draft,
                BookingDraft.partySize draft with
          | Some date, Some time, Some partySize =>
              if JS.truthyStr (Some date) && JS.truthyStr (Some time)
                 && JS.truthyNum (Some partySize)
              then
                (* Save booking *)
                let booking :=
                  Booking.mk (BookingDraft.restaurantId draft) date time
                    partySize (BookingDraft.notes draft) in
                let st := Storage.addBooking booking st in
                (* Update profile *)
                let restaurant := findRestaurant (Booking.restaurantId booking) in
                let '(profile, st) :=
                  match restaurant with
                  | Some restaurant =>
                      let cuisinesLiked :=
                        likeCuisines restaurant (Profile.cuisinesLiked profile) in
                      let vibePrefs :=
                        likeVibes restaurant (Profile.vibePrefs profile) in
                      let updatedProfile :=
                        Profile.mk cuisinesLiked vibePrefs
                          (Profile.budgetDefault profile)
                          (Profile.dietary profile)
                          (Some (Restaurant.area restaurant)) in
                      (* the two counter records are shared with [profile] *)
                      (Profile.mk cuisinesLiked vibePrefs
                         (Profile.budgetDefault profile)
                         (Profile.dietary profile)
                         (Profile.lastArea profile),
                       Storage.saveProfile updatedProfile st)
                  | None => (profile, st)
                  end in
                let response :=
                  "Perfect! Your booking is confirmed at "
                    +:+ orElse (default EmptyString (Restaurant.name <$> restaurant))
                               "the restaurant"
                    +:+ " for " +:+ pretty (Booking.partySize booking)
                    +:+ " people on " +:+ Booking.date booking
                    +:+ " at " +:+ Booking.time booking +:+ "."
                    +:+ match Booking.notes booking with
                        | Some notes =>
                            if JS.truthyStr (Some notes)
                            then " I've noted: " +:+ notes
                            else EmptyString
                        | None => EmptyString
                        end
                    +:+ " Enjoy your meal!" in
                done response profile st
              else done missing profile st
          | _, _, _ => done missing profile st
          end
      | None => done missing profile st
      end
  | Change =>
      let draft :=
        match ConversationContext.bookingDraft newContext with
        | Some draft =>
            BookingDraft.mk (BookingDraft.restaurantId draft) None None
              (BookingDraft.partySize draft) None
        | None => BookingDraft.mk None None None None None
        end in
      let question :=
        "No problem! Let's adjust that. What date would you like?" in
      (ConversationContext.set_question (Some question) None
         (ConversationContext.set_bookingDraft (Some draft)
            (ConversationContext.set_state BOOKING_COLLECT newContext)),
       question, profile, st)
  | _ =>
      (newContext,
       "Please reply 'confirm' to book or 'change' to modify your booking.",
       profile, st)
  end.

(** The two history entries of a turn and the resolved value. *)
Definition finish (messages : list Message.t) (userText : string)
  (newContext : ConversationContext.t) (response : string)
  (profile : Profile.t) (st : Storage.t) : Outcome.t :=
  let userMessage := Message.mk User userText in
  let assistantMessage := Message.mk Assistant response in
  let updatedMessages := messages ++ [userMessage; assistantMessage] in
  Outcome.mk (Some (Turn.mk newContext response updatedMessages)) profile
    (Storage.saveHistory updatedMessages st).

(** The [switch] on the state. *)
Definition stateMachine (gpt : Interpreter.t) (userText : string)
  (parsed : Parsed.t) (messages : list Message.t)
  (newContext : ConversationContext.t) (profile : Profile.t) (st : Storage.t)
  : Outcome.t :=
  let plain (r : option (ConversationContext.t * string)) : Outcome.t :=
    match r with
    | Some (newContext, response) =>
        finish messages userText newContext response profile st
    | None => Outcome.mk None profile st
    end in
  match ConversationContext.state newContext with
  | WELCOME => plain (onWelcome gpt userText newContext profile)
  | DISCOVERY => plain (onDiscovery gpt userText newContext profile)
  | RECOMMEND => plain (onRecommend parsed newContext profile)
  | REFINE => plain (Some (onRefine gpt userText newContext profile))
  | BOOKING_COLLECT => plain (Some (onBookingCollect gpt userText newContext))
  | BOOKING_CONFIRM =>
      let '(newContext, response, profile, st) :=
        onBookingConfirm parsed newContext profile st in
      finish messages userText newContext response profile st
  end.

Definition processMessage (gpt : Interpreter.t) (userText : string)
  (context : ConversationContext.t) (profile : Profile.t) (st : Storage.t)
  : Outcome.t :=
  let messages := Storage.getHistory st in
  let newContext := context in
  let lower := JS.trim (JS.toLowerCase userText) in
  (* Handle reset *)
  if String.eqb lower "reset" || JS.startsWith lower "reset " then
    let newContext :=
      ConversationContext.mk DISCOVERY Slots.empty None None None None in
    finish messages userText newContext
      "No problem! Let's start fresh. What are you in the mood for and what area are you thinking?"
      profile st
  (* Handle profile *)
  else if String.eqb lower "profile" || JS.startsWith lower "profile " then
    finish messages userText newContext (profileSummary profile) profile st
  else
    (* Parse user message, then the state machine *)
    let parsed := parseUserMessage userText in
    stateMachine gpt userText parsed messages newContext profile st.

Definition initializeConversation (profile : Profile.t) (st : Storage.t)
  : ConversationContext.t :=
  let history := Storage.getHistory st in
  let hasHistory := (0 <? length history)%nat in
  ConversationContext.mk (if hasHistory then DISCOVERY else WELCOME)
    Slots.empty None None None None.

(** *** [newConversation.ts], up to the first interpreter call *)

(** The pick pattern of the recommending mode: an optional [pick], white
    space, an optional [#], white space, then one option digit and the end
    of the text. [afterPick] is what follows the optional part. *)
Definition afterPick (lower : string) : option string :=
  if JS.startsWith lower "pick" then
    let rest :=
      skipSpaces (list_ascii_of_string
                    (String.substring 4 (String.length lower - 4) lower)) in
    let rest :=
      match rest with
      | c :: rest' => if Ascii.eqb c "#" then rest' else rest
      | [] => rest
      end in
    Some (string_of_list_ascii (skipSpaces rest))
  else None.

Definition pickMatch (lower : string) : option OptionNumber :=
  match optionMatch lower with
  | Some n => Some n
  | None => afterPick lower ≫= optionMatch
  end.

(** The command pattern of the confirming mode, case-insensitive: a pick
    with the word [pick] written out, [continue chat], or [reset]. *)
Definition isCommand (trimmed : string) : bool :=
  let t := JS.toLowerCase trimmed in
  JS.truthyObj (afterPick t ≫= optionMatch)
  || (JS.startsWith t "continue"
      && let rest := String.substring 8 (String.length t - 8) t in
         (String.length (JS.trimStart rest) <? String.length rest)%nat
         && String.eqb (JS.trimStart rest) "chat")
  || String.eqb t "reset".

Definition optionIndex (n : OptionNumber) : nat :=
  match n with
  | One => 0
  | Two => 1
  | Three => 2
  end.

Definition answer (messages : list Message.t) (userText text : string)
  (st : Storage.t) : NewOutcome :=
  let userMsg := Message.mk User userText in
  let assistantMsg := Message.mk Assistant text in
  let updatedMessages := messages ++ [userMsg; assistantMsg] in
  Answered text updatedMessages (Storage.saveHistory updatedMessages st).

(** The pick branch: [Some] when the text is a pick of an option that
    exists. *)
Definition onPick (messages : list Message.t) (userText lower : string)
  (activeRequest : ActiveRequest.t) (st : Storage.t) : option NewOutcome :=
  num ← pickMatch lower;
  let recs := getTopRestaurants activeRequest in
  let restaurants :=
    TopRestaurants.top recs :: List.map Some (TopRestaurants.alternatives recs) in
  selected ← mjoin (restaurants !! optionIndex num);
  if negb (Restaurant.bookingAvailable selected) then
    (* Walk-in only: no booking, show the discount code *)
    let st := Storage.saveSelectedRestaurantId None st in
    let st := Storage.saveMode Collecting st in
    let assistantText :=
      "You can just head over—no booking needed."
        +:+ match Restaurant.discountCode selected with
            | Some code =>
                if JS.truthyStr (Some code)
                then " Present this code at the door for a discount: **"
                       +:+ code +:+ "**"
                else EmptyString
            | None => EmptyString
            end in
    Some (answer messages userText assistantText st)
  else
    let st := Storage.saveSelectedRestaurantId (Some (Restaurant.id selected)) st in
    let st := Storage.saveMode Confirming st in
    let dateStr :=
      if JS.truthyStr (ActiveRequest.date activeRequest)
      then shown (ActiveRequest.date activeRequest) else "your date" in
    let timeStr :=
      if JS.truthyStr (ActiveRequest.time activeRequest)
      then shown (ActiveRequest.time activeRequest) else "your time" in
    let partyStr :=
      if JS.truthyNum (ActiveRequest.partySize activeRequest)
      then shown (pretty <$> ActiveRequest.partySize activeRequest)
      else "your party" in
    Some (answer messages userText
            ("Cool. Confirming " +:+ Restaurant.name selected +:+ " for "
               +:+ partyStr +:+ " on " +:+ dateStr +:+ " at " +:+ timeStr
               +:+ ". Reply 'Skip' to skip, or type your note.")
            st).

(** The confirming branch: the reply is the note, unless it is a command
    or empty. *)
Definition onConfirming (messages : list Message.t) (userText lower : string)
  (activeRequest : ActiveRequest.t) (st : Storage.t) : NewOutcome :=
  let trimmed := JS.trim userText in
  let isSkip :=
    String.eqb lower "skip" || String.eqb lower "no" || String.eqb lower "n" in
  let isEmpty := (String.length trimmed =? 0)%nat in
  if isCommand trimmed then
    answer messages userText
      "Please reply 'Skip' to skip notes, or type your note." st
  else if isEmpty && negb isSkip then
    answer messages userText
      "Please reply 'Skip' to skip notes, or type your note." st
  else
    let notes := if isSkip then None else Some trimmed in
    let st :=
      match Storage.getSelectedRestaurantId st with
      | Some selectedId =>
          if JS.truthyStr (Some selectedId) then
            match findRestaurant (Some selectedId),
                  ActiveRequest.date activeRequest,
                  ActiveRequest.time activeRequest,
                  ActiveRequest.partySize activeRequest with
            | Some restaurant, Some date, Some time, Some partySize =>
                if JS.truthyStr (Some date) && JS.truthyStr (Some time)
                   && JS.truthyNum (Some partySize)
                then
                  Storage.addBooking
                    (Booking.mk (Some selectedId) date time partySize
                       (if JS.truthyStr notes then notes else None))
                    st
                else st
            | _, _, _, _ => st
            end
          else st
      | None => st
      end in
    (* Reset for next request *)
    let st := Storage.saveActiveRequest ActiveRequest.empty st in
    let st := Storage.saveMode Collecting st in
    let st := Storage.savePendingSlot (Some PendingArea) st in
    let st := Storage.saveSelectedRestaurantId None st in
    answer messages userText "Done. Saved. (POC)" st.

Definition processMessageNew (userText : string) (st : Storage.t)
  : NewOutcome :=
  let messages := Storage.getHistory st in
  let activeRequest := Storage.getActiveRequest st in
  let mode := Storage.getMode st in
  let lower := JS.trim (JS.toLowerCase userText) in
  (* Handle reset *)
  if String.eqb lower "reset" then
    let st := Storage.saveActiveRequest ActiveRequest.empty st in
    let st := Storage.saveMode Collecting st in
    let st := Storage.savePendingSlot (Some PendingArea) st in
    let st := Storage.saveSelectedRestaurantId None st in
    answer messages userText
      "Starting fresh. Which area do you want to eat in?" st
  else
    match mode with
    | Recommending =>
        if String.eqb lower "continue chat" || String.eqb lower "continue"
        then
          answer messages userText "What would you like to change?"
            (Storage.saveMode Collecting st)
        else
          match onPick messages userText lower activeRequest st with
          | Some outcome => outcome
          | None => Interpreted
          end
    | Confirming => onConfirming messages userText lower activeRequest st
    | Collecting => Interpreted
    end.

(** *** [newConversation.ts], after the interpreter calls *)

(** [null] is [None]. *)
Definition getNextMissingSlot (request : ActiveRequest.t)
  : option PendingSlot :=
  if negb (JS.truthyStr (ActiveRequest.area request)) then Some PendingArea
  else if negb (JS.truthyStr (ActiveRequest.cuisine request))
  then Some PendingCuisine
  else if negb (JS.truthyObj (ActiveRequest.budget request))
  then Some PendingBudget
  else if negb (JS.truthyStr (ActiveRequest.date request))
  then Some PendingDate
  else if negb (JS.truthyStr (ActiveRequest.time request))
  then Some PendingTime
  else if negb (JS.truthyNum (ActiveRequest.partySize request))
  then Some PendingPartySize
  else None.

Definition getSlotQuestion (slot : option PendingSlot) : string :=
  match slot with
  | Some PendingArea => "Which area do you want to eat in?"
  | Some PendingCuisine => "What are you in the mood for?"
  | Some PendingBudget => "What budget are we aiming for?"
  | Some PendingDate => "Which day?"
  | Some PendingTime => "What time?"
  | Some PendingPartySize => "How many people?"
  | None => EmptyString
  end.

(** [labels[range]] with
    [labels = ["", "low", "medium", "high", "luxury"]]. *)
Definition budgetLabel (range : BudgetRange.Range) : string :=
  match range with
  | BudgetRange.R1 => "low"
  | BudgetRange.R2 => "medium"
  | BudgetRange.R3 => "high"
  | BudgetRange.R4 => "luxury"
  end.

(** [confidence > 0.5]. *)
Definition confidentEnough (confidence : Q) : bool :=
  negb (Qle_bool confidence (1 # 2)).

(** The block of [processMessageNew] that merges the extracted values
    into the request: only where the slot is not already set, and for
    area, cuisine, date and time only on a confidence above one half. *)
Definition mergeExtracted (newRequest : ActiveRequest.t)
  (extracted : Extracted.t) (dbNormalization : DbNormalization.t)
  : ActiveRequest.t :=
  let areaMatch := DbNormalization.areaMatch dbNormalization in
  let cuisineMatch := DbNormalization.cuisineMatch dbNormalization in
  let area :=
    if negb (JS.truthyStr (ActiveRequest.area newRequest))
       && JS.truthyStr (DbMatch.matched areaMatch)
       && confidentEnough (DbMatch.confidence areaMatch)
    then DbMatch.matched areaMatch
    else ActiveRequest.area newRequest in
  let cuisine :=
    if negb (JS.truthyStr (ActiveRequest.cuisine newRequest))
       && JS.truthyStr (DbMatch.matched cuisineMatch)
       && confidentEnough (DbMatch.confidence cuisineMatch)
    then DbMatch.matched cuisineMatch
    else ActiveRequest.cuisine newRequest in
  let budget :=
    match ExtractedBudget.range (Extracted.budget extracted) with
    | Some range =>
        if negb (JS.truthyObj (ActiveRequest.budget newRequest))
        then Some (BudgetRange.mk range (budgetLabel range))
        else ActiveRequest.budget newRequest
    | None => ActiveRequest.budget newRequest
    end in
  let partySize :=
    if negb (JS.truthyNum (ActiveRequest.partySize newRequest))
       && JS.truthyNum (Extracted.partySize extracted)
    then Extracted.partySize extracted
    else ActiveRequest.partySize newRequest in
  let date :=
    if negb (JS.truthyStr (ActiveRequest.date newRequest))
       && JS.truthyStr (Confident.value (Extracted.date extracted))
       && confidentEnough (Confident.confidence (Extracted.date extracted))
    then Confident.value (Extracted.date extracted)
    else ActiveRequest.date newRequest in
  let time :=
    if negb (JS.truthyStr (ActiveRequest.time newRequest))
       && JS.truthyStr (Confident.value (Extracted.time extracted))
       && confidentEnough (Confident.confidence (Extracted.time extracted))
    then Confident.value (Extracted.time extracted)
    else ActiveRequest.time newRequest in
  ActiveRequest.mk area cuisine budget partySize date time
    (ActiveRequest.notes newRequest).

(** One numbered entry of the new flow's recommendation text. *)
Definition entryText (optionNum : string) (r : Restaurant.t)
  (activeRequest : ActiveRequest.t) : string :=
  optionNum +:+ ") " +:+ Restaurant.name r
    +:+ " (" +:+ Restaurant.area r +:+ ") price: "
    +:+ formatPrice (Restaurant.price r)
    +:+ " | " +:+ JS.join ", " (Restaurant.cuisines r) +:+ JS.newline
    +:+ "   Why: "
    +:+ JS.join "; " (NewRecommender.generateReasons r activeRequest)
    +:+ JS.newline.

(** The end of [processMessageNew], from [saveActiveRequest(newRequest)]
    on: recommend when no slot is missing, ask for the next one
    otherwise. On an empty catalog [recs.top] is [undefined], the first
    [generateReasons] throws and the [catch] block answers, after the
    request, the mode and the pending slot have been saved. *)
Definition recommendOrAsk (messages : list Message.t) (userText : string)
  (newRequest : ActiveRequest.t) (st : Storage.t) : NewOutcome :=
  let st := Storage.saveActiveRequest newRequest st in
  (* Check if all slots are filled *)
  match getNextMissingSlot newRequest with
  | None =>
      (* All slots filled - generate recommendations *)
      let recs := getTopRestaurants newRequest in
      let st := Storage.saveMode Recommending st in
      let st := Storage.savePendingSlot None st in
      match TopRestaurants.top recs with
      | None =>
          answer messages userText
            "Sorry, I encountered an error. Please try again." st
      | Some top =>
          let recText :=
            "Top pick:" +:+ JS.newline +:+ entryText "1" top newRequest in
          let recText :=
            match TopRestaurants.alternatives recs !! 0%nat with
            | Some alt =>
                recText +:+ JS.newline +:+ "Alternatives:" +:+ JS.newline
                  +:+ entryText "2" alt newRequest
            | None => recText
            end in
          let recText :=
            match TopRestaurants.alternatives recs !! 1%nat with
            | Some alt => recText +:+ entryText "3" alt newRequest
            | None => recText
            end in
          answer messages userText recText st
      end
  | Some nextSlot =>
      (* Ask for next slot *)
      let st := Storage.savePendingSlot (Some nextSlot) st in
      answer messages userText (getSlotQuestion (Some nextSlot)) st
  end.

(** *** [parser.ts]: the areas of the catalog *)

(** [(a, b) => b.length - a.length]. *)
Definition byLengthDesc (a b : string) : Q :=
  (inject_Z (Z.of_nat (String.length b))
   - inject_Z (Z.of_nat (String.length a)))%Q.

(** [areas.add(area)] on a [Set], which keeps the order of first
    insertion. *)
Definition setAdd (areas : list string) (area : string) : list string :=
  if JS.arrayIncludes areas area then areas else areas ++ [area].

Definition getAvailableAreas : list string :=
  let areas := fold_left (fun areas r => setAdd areas (Restaurant.area r))
                 RESTAURANTS [] in
  (* Sort by length descending *)
  JS.sort byLengthDesc areas.

(** *** [conversation.ts]: the greeting *)

Definition getWelcomeMessage (profile : Profile.t) (st : Storage.t)
  : string :=
  let hasHistory := (0 <? length (Storage.getHistory st))%nat in
  if hasHistory
  then "Welcome back! I'm here to help you find the perfect restaurant. What are you in the mood for and what area are you thinking?"
  else "Hey there! I'm your restaurant butler, and I'm excited to help you find the perfect spot. What are you in the mood for and what area are you thinking?".

(** *** Vocabulary of the properties *)

(** The comparator [(a, b) => key(b) - key(a)] of every sort of the two
    recommenders, and the order it leaves a list in. *)
Definition comparingDesc {A : Type} (key : A -> Q) (a b : A) : Q :=
  (key b - key a)%Q.

Definition descending {A : Type} (key : A -> Q) (a b : A) : Prop :=
  (key b <= key a)%Q.

(** The comparator [(a, b) => key(b) - key(a)] on doubles, and the order a
    descending sort leaves a list of doubles in. *)
Definition comparingDesc64 {A : Type} (key : A -> float) (a b : A) : float :=
  (key b - key a)%float.

Definition descending64 {A : Type} (key : A -> float) (a b : A) : Prop :=
  (key b <=? key a)%float = true.

(** How the score of one item stands after diversification against the
    ids [ids]: same restaurant, the product of score and 0.3 when its id
    is among them, score untouched when it is not. *)
Definition adjustedBy64 (ids : list string) (before after : Scored64.t)
  : Prop :=
  Scored64.restaurant after = Scored64.restaurant before
  /\ (In (Restaurant.id (Scored64.restaurant before)) ids ->
      Scored64.score after = (Scored64.score before * 0.3)%float)
  /\ (~ In (Restaurant.id (Scored64.restaurant before)) ids ->
      Scored64.score after = Scored64.score before).

(** A double that is not the negative zero; a sum is the negative zero
    only when both its terms are. *)
Definition notNegZero (x : float) : Prop := Prim2SF x <> S754_zero true.

(** A double that is finite and not zero, or an infinity, of sign [s]. *)
Inductive signed (s : bool) : spec_float -> Prop :=
| signed_finite m e : signed s (S754_finite s m e)
| signed_infinity : signed s (S754_infinity s).

(** The order in which the discovery policy asks. *)
Definition priority : list QuestionType :=
  [QArea; QMealTime; QPartySize; QBudget; QCuisine; QDietary].

(** What the policy counts as a slot still to ask for. The cuisine question
    stands for cuisine and vibe together and is due when both are absent;
    vibe has no question of its own. *)
Definition missing (slots : Slots.t) (q : QuestionType) : bool :=
  match q with
  | QArea => negb (JS.truthyStr (Slots.area slots))
  | QMealTime => negb (JS.truthyObj (Slots.mealTime slots))
  | QPartySize => negb (JS.truthyNum (Slots.partySize slots))
  | QBudget => negb (JS.truthyObj (Slots.budget slots))
  | QCuisine =>
      negb (JS.truthyObj (Slots.cravingCuisines slots))
      && negb (JS.truthyObj (Slots.vibe slots))
  | QDietary => negb (JS.truthyObj (Slots.dietary slots))
  | QVibe => false
  end.

(** The score of a catalog entry as the specification words it: a sum of
    contributions, each with a condition of its own. None of the
    definitions below uses a table or a helper of [scoreRestaurant]. *)
Definition sumQ (l : list Q) : Q := fold_right Qplus 0%Q l.

Definition eitherContains (a b : string) : bool :=
  JS.includes (JS.toLowerCase a) (JS.toLowerCase b)
  || JS.includes (JS.toLowerCase b) (JS.toLowerCase a).

Definition Vibe_eqb (a b : Vibe) : bool :=
  match a, b with
  | Romantic, Romantic | Lively, Lively | Quiet, Quiet | Outdoor, Outdoor
  | Family, Family | Business, Business => true
  | _, _ => false
  end.

(** The fixed category map: the keywords of a vibe tag and the category
    each stands for. *)
Definition categoryMap : list (string * Vibe) :=
  [("romantic", Romantic); ("intimate", Romantic); ("elegant", Romantic);
   ("lively", Lively); ("casual", Lively); ("fun", Lively);
   ("quiet", Quiet); ("peaceful", Quiet); ("calm", Quiet);
   ("outdoor", Outdoor); ("patio", Outdoor); ("garden", Outdoor);
   ("family-friendly", Family); ("family", Family);
   ("business", Business); ("professional", Business);
   ("upscale", Business)].

(** A catalog vibe tag maps to a category when it contains one of the
    category's keywords. *)
Definition mapsTo (tag : string) (v : Vibe) : bool :=
  existsb
    (fun entry =>
       Vibe_eqb (snd entry) v
       && JS.includes (JS.toLowerCase tag) (JS.toLowerCase (fst entry)))
    categoryMap.

(** The price of a restaurant equals a budget: cheap is low, mid is mid,
    high is high. *)
Definition sameTier (price : Price) (budget : Budget) : bool :=
  match price, budget with
  | PriceLow, BudgetCheap | PriceMid, BudgetMid | PriceHigh, BudgetHigh =>
      true
  | _, _ => false
  end.

(** The historical like-count of a name: what the profile has counted
    under it, 0 when it has counted nothing. *)
Definition likeCount (counters : Counters.t) (name : string) : Z :=
  match List.find (fun entry => String.eqb (fst entry) name) counters with
  | Some entry => snd entry
  | None => 0%Z
  end.

Definition requestedCuisines (slots : Slots.t) : list string :=
  default [] (Slots.cravingCuisines slots).

(** The requested cuisines that match a catalog cuisine, either
    containing the other. *)
Definition matchingCuisines (restaurant : Restaurant.t) (slots : Slots.t)
  : list string :=
  List.filter
    (fun c => existsb (fun rc => eitherContains rc c)
                      (Restaurant.cuisines restaurant))
    (requestedCuisines slots).

(** The requested dietary tags found in a dietary tag of the
    restaurant. *)
Definition matchingDietary (restaurant : Restaurant.t) (slots : Slots.t)
  : list string :=
  List.filter
    (fun d =>
       existsb
         (fun rd => JS.includes (JS.toLowerCase rd) (JS.toLowerCase d))
         (Restaurant.dietary restaurant))
    (default [] (Slots.dietary slots)).

Definition vibeHit (restaurant : Restaurant.t) (slots : Slots.t) : bool :=
  match Slots.vibe slots with
  | Some v => existsb (fun tag => mapsTo tag v) (Restaurant.vibe restaurant)
  | None => false
  end.

Definition budgetHit (restaurant : Restaurant.t) (slots : Slots.t) : bool :=
  match Slots.budget slots with
  | Some budget => sameTier (Restaurant.price restaurant) budget
  | None => false
  end.

(** The sum in exact arithmetic. *)
Definition scoreBySpec
  (restaurant : Restaurant.t) (slots : Slots.t) (profile : Profile.t) : Q :=
  let cuisineLikes :=
    sumQ (List.map
            (fun c => inject_Z (likeCount (Profile.cuisinesLiked profile) c))
            (requestedCuisines slots)) in
  let vibeLikes : Q :=
    match Slots.vibe slots with
    | Some v => inject_Z (likeCount (Profile.vibePrefs profile) (vibeName v))
    | None => 0%Q
    end in
  (3 * ofNat (length (matchingCuisines restaurant slots))
   + (if vibeHit restaurant slots then 2 else 0)
   + (if budgetHit restaurant slots then 1 else 0)
   + 1 * ofNat (length (matchingDietary restaurant slots))
   + (1 # 2) * cuisineLikes
   + (1 # 2) * vibeLikes
   + (1 # 2) * Restaurant.rating restaurant)%Q.

(** The same contributions as doubles, in the order of the sum: the
    matching cuisines, the vibe, the budget, the dietary tags, the
    like-count of each requested cuisine in turn, the like-count of the
    requested vibe, the rating. *)
Definition contributions64
  (restaurant : Restaurant.t) (slots : Slots.t) (profile : Profile.t)
  : list float :=
  [(3 * Double.ofNat (length (matchingCuisines restaurant slots)))%float;
   if vibeHit restaurant slots then 2%float else 0%float;
   if budgetHit restaurant slots then 1%float else 0%float;
   Double.ofNat (length (matchingDietary restaurant slots))]
  ++ List.map
       (fun c =>
          (0.5 * Double.ofZ (likeCount (Profile.cuisinesLiked profile) c))%float)
       (requestedCuisines slots)
  ++ [match Slots.vibe slots with
      | Some v =>
          (0.5 * Double.ofZ (likeCount (Profile.vibePrefs profile)
                               (vibeName v)))%float
      | None => 0%float
      end;
      (0.5 * Double.ofQ (Restaurant.rating restaurant))%float].

(** The sum in double precision: the contributions added one after the
    other, each addition rounded. *)
Definition scoreBySpec64
  (restaurant : Restaurant.t) (slots : Slots.t) (profile : Profile.t)
  : float :=
  fold_left PrimFloat.add (contributions64 restaurant slots profile) 0%float.

(** A name under which the lookup [record[name]] finds what the record
    owns or nothing: the record has a count under it, or no object
    inherits a member of that name. *)
Definition plainName (record : Counters.t) (name : string) : Prop :=
  is_Some (Counters.get record name) \/ ~ In name inheritedNames.

(** How one slot stands after a merge of an extraction: the value the
    extraction carries, or else the previous one. *)
Definition mergedSlot {A : Type} (slot : Slots.t -> option A)
  (previous extraction merged : Slots.t) : Prop :=
  (forall v, slot extraction = Some v -> slot merged = Some v)
  /\ (slot extraction = None -> slot merged = slot previous).






(** A [REFINE] turn that changes a slot: it goes back to [DISCOVERY] with
    the slots [slots], records the next discovery question for them and
    replies with [lead] followed by that question. *)
Definition refinesTo (o : Outcome.t) (profile : Profile.t) (slots : Slots.t)
  (lead : string) : Prop :=
  exists turn,
    Outcome.turn o = Some turn
    /\ ConversationContext.state (Turn.context turn) = DISCOVERY
    /\ ConversationContext.slots (Turn.context turn) = slots
    /\ ConversationContext.lastQuestion (Turn.context turn)
       = Some (fst (getNextDiscoveryQuestion slots profile))
    /\ ConversationContext.lastQuestionType (Turn.context turn)
       = Some (snd (getNextDiscoveryQuestion slots profile))
    /\ Turn.response turn
       = lead +:+ fst (getNextDiscoveryQuestion slots profile).

(** A number that stands on its own in a text cut as
    [before ++ digits ++ rest]: one or two digits with no word character
    next to them. [prevWord] tells whether a word character comes before
    the text. *)
Definition standsAloneAfter (prevWord : bool)
  (before digits rest : list ascii) : Prop :=
  (length digits = 1 \/ length digits = 2)%nat
  /\ Forall (fun c => JS.isDigit c = true) digits
  /\ match last before with
     | Some c => JS.isWordChar c
     | None => prevWord
     end = false
  /\ match head rest with
     | Some c => JS.isWordChar c
     | None => false
     end = false.

Definition standsAlone (before digits rest : list ascii) : Prop :=
  standsAloneAfter false before digits rest.

(** [found] is the first number that stands on its own in [s]: it stands
    alone at some cut of [s], and every other cut at which a number stands
    alone starts further right. No [found] means that no number stands
    alone in [s]. *)
Definition firstAlone (prevWord : bool) (s : list ascii)
  (found : option (list ascii)) : Prop :=
  match found with
  | Some digits =>
      exists before rest,
        s = before ++ digits ++ rest
        /\ standsAloneAfter prevWord before digits rest
        /\ forall before' digits' rest',
             s = before' ++ digits' ++ rest' ->
             standsAloneAfter prevWord before' digits' rest' ->
             (length before < length before')%nat
             \/ (before' = before /\ digits' = digits)
  | None =>
      forall before digits rest,
        s = before ++ digits ++ rest ->
        ~ standsAloneAfter prevWord before digits rest
  end.


(** What holds of every stored recommendation: the option numbers point at
    what was shown (1 at the top pick, 2 and 3 at the alternatives in
    order), there are at most two alternatives, and the remembered top
    picks are at most three with the current top pick last. *)
Definition numbered (recs : Recommendations.t) : Prop :=
  RecommendationMapping.first (Recommendations.mapping recs)
  = RestaurantRecommendation.restaurant (Recommendations.topPick recs)
  /\ RecommendationMapping.second (Recommendations.mapping recs)
     = RestaurantRecommendation.restaurant
         <$> Recommendations.alternatives recs !! 0%nat
  /\ RecommendationMapping.third (Recommendations.mapping recs)
     = RestaurantRecommendation.restaurant
         <$> Recommendations.alternatives recs !! 1%nat
  /\ (length (Recommendations.alternatives recs) <= 2)%nat
  /\ exists ids,
       Recommendations.previousTopPickIds recs = Some ids
       /\ (length ids <= 3)%nat
       /\ last ids
          = Some (Restaurant.id
                    (RestaurantRecommendation.restaurant
                       (Recommendations.topPick recs))).

Definition wellNumbered (c : ConversationContext.t) : Prop :=
  forall recs,
    ConversationContext.recommendations c = Some recs -> numbered recs.

(** The order in which the new flow asks for the slots of a request, and
    what it counts as a slot that has its value. *)
Definition slotOrder : list PendingSlot :=
  [PendingArea; PendingCuisine; PendingBudget; PendingDate; PendingTime;
   PendingPartySize].

Definition filledIn (request : ActiveRequest.t) (slot : PendingSlot) : bool :=
  match slot with
  | PendingArea => JS.truthyStr (ActiveRequest.area request)
  | PendingCuisine => JS.truthyStr (ActiveRequest.cuisine request)
  | PendingBudget => JS.truthyObj (ActiveRequest.budget request)
  | PendingDate => JS.truthyStr (ActiveRequest.date request)
  | PendingTime => JS.truthyStr (ActiveRequest.time request)
  | PendingPartySize => JS.truthyNum (ActiveRequest.partySize request)
  end.

(** A dialogue as the page drives it: each text is one turn, run on the
    context the turn before resolved to and on the profile and storage it
    left; [None] when a turn is rejected. *)
Fixpoint converse (gpt : Interpreter.t) (texts : list string)
  (context : ConversationContext.t) (profile : Profile.t) (st : Storage.t)
  : option (ConversationContext.t * Profile.t * Storage.t) :=
  match texts with
  | [] => Some (context, profile, st)
  | text :: rest =>
      let outcome := processMessage gpt text context profile st in
      match Outcome.turn outcome with
      | Some turn =>
          converse gpt rest (Turn.context turn) (Outcome.profile outcome)
            (Outcome.storage outcome)
      | None => None
      end
  end.

(** ** Properties *)

(** *** The sort *)

Section SortFacts.
Context {A : Type} (key : A -> Q).

Lemma after_spec (c : Q) : JS.after c = true <-> (0 < c)%Q.
Proof.
  unfold JS.after. rewrite negb_true_iff.
  destruct (Qle_bool c 0) eqn:E.
  - apply Qle_bool_iff in E. split; [discriminate | intros H; lra].
  - split; [intros _ | reflexivity].
    destruct (Qlt_le_dec 0 c) as [H | H]; [exact H |].
    apply Qle_bool_iff in H. congruence.
Qed.

Lemma sortInsert_Permutation (c : A -> A -> Q) (x : A) (l : list A) :
  Permutation (JS.sortInsert c x l) (x :: l).
Proof.
  induction l as [| y l IH]; simpl; [reflexivity |].
  destruct (JS.after (c x y)); [| reflexivity].
  rewrite IH. apply perm_swap.
Qed.

Lemma sort_Permutation (c : A -> A -> Q) (l : list A) :
  Permutation (JS.sort c l) l.
Proof.
  induction l as [| x l IH]; simpl; [reflexivity |].
  rewrite sortInsert_Permutation. now constructor.
Qed.

Lemma after_false (x y : A) :
  JS.after (comparingDesc key x y) = false -> (key y <= key x)%Q.
Proof.
  intros E.
  destruct (Qlt_le_dec (key x) (key y)) as [H | H]; [| exact H].
  assert (JS.after (comparingDesc key x y) = true) as F
      by (apply after_spec; unfold comparingDesc; lra).
  congruence.
Qed.

Lemma sortInsert_sorted (x : A) (l : list A) :
  StronglySorted (descending key) l ->
  StronglySorted (descending key) (JS.sortInsert (comparingDesc key) x l).
Proof.
  induction 1 as [| y l Hl IH Hy]; simpl.
  - repeat constructor.
  - destruct (JS.after (comparingDesc key x y)) eqn:E.
    + apply after_spec in E. unfold comparingDesc in E.
      constructor; [exact IH |].
      rewrite sortInsert_Permutation.
      constructor; [unfold descending; lra | exact Hy].
    + apply after_false in E.
      constructor; [constructor; assumption |].
      constructor; [exact E |].
      eapply List.Forall_impl; [| exact Hy].
      unfold descending. intros z Hz. lra.
Qed.

Lemma sort_sorted (l : list A) :
  StronglySorted (descending key) (JS.sort (comparingDesc key) l).
Proof.
  induction l as [| x l IH]; simpl; [constructor |].
  now apply sortInsert_sorted.
Qed.

(** A list already in descending order comes back as it is: the sort is
    stable. *)
Lemma sort_sorted_id (l : list A) :
  StronglySorted (descending key) l -> JS.sort (comparingDesc key) l = l.
Proof.
  induction 1 as [| x l Hl IH Hx]; simpl; [reflexivity |].
  rewrite IH. destruct l as [| y l]; simpl; [reflexivity |].
  inversion Hx as [| ? ? Hxy _]; subst.
  destruct (JS.after (comparingDesc key x y)) eqn:E; [| reflexivity].
  apply after_spec in E. unfold comparingDesc, descending in *. lra.
Qed.
(** Entries with the same key keep the order they came in. *)
Lemma sortInsert_stable (k : Q) (x : A) (l : list A) :
  List.filter (fun y => Qeq_bool (key y) k)
    (JS.sortInsert (comparingDesc key) x l)
  = List.filter (fun y => Qeq_bool (key y) k) (x :: l).
Proof.
  induction l as [| y l IH]; [reflexivity |].
  cbn [JS.sortInsert].
  destruct (JS.after (comparingDesc key x y)) eqn:E; [| reflexivity].
  apply after_spec in E. unfold comparingDesc in E.
  cbn [List.filter] in *. rewrite IH.
  destruct (Qeq_bool (key x) k) eqn:Ex, (Qeq_bool (key y) k) eqn:Ey;
    try reflexivity.
  apply Qeq_bool_iff in Ex, Ey. lra.
Qed.

Lemma sort_stable (k : Q) (l : list A) :
  List.filter (fun y => Qeq_bool (key y) k) (JS.sort (comparingDesc key) l)
  = List.filter (fun y => Qeq_bool (key y) k) l.
Proof.
  induction l as [| x l IH]; [reflexivity |].
  cbn [JS.sort]. rewrite sortInsert_stable. cbn [List.filter].
  now rewrite IH.
Qed.
End SortFacts.

Lemma arrayIncludes_In (xs : list string) (x : string) :
  JS.arrayIncludes xs x = true <-> In x xs.
Proof.
  unfold JS.arrayIncludes. rewrite existsb_exists. split.
  - intros (y & Hy & E). apply String.eqb_eq in E. now subst.
  - intros H. exists x. split; [exact H | apply String.eqb_refl].
Qed.

Lemma nonEmpty_Some {A : Type} (o : option (list A)) (l : list A) :
  nonEmpty o = Some l -> o = Some l /\ l <> [].
Proof.
  destruct o as [[| x l'] |]; simpl; intros H; inversion H; subst.
  split; [reflexivity | discriminate].
Qed.

Lemma nonEmpty_cons {A : Type} (l : list A) :
  l <> [] -> nonEmpty (Some l) = Some l.
Proof. destruct l; [congruence | reflexivity]. Qed.

(** *** Doubles

    The order of the doubles and the sign of a difference, from the
    specification of the primitive operations. *)

Lemma digits2_pos_bounds (m : positive) :
  (2 ^ (Zpos (digits2_pos m) - 1) <= Zpos m < 2 ^ Zpos (digits2_pos m))%Z.
Proof.
  induction m as [m IH | m IH |]; cbn [digits2_pos].
  - rewrite Pos2Z.inj_succ.
    replace (Z.succ (Zpos (digits2_pos m)) - 1)%Z
      with (Z.succ (Zpos (digits2_pos m) - 1))%Z by lia.
    rewrite !Z.pow_succ_r by lia. lia.
  - rewrite Pos2Z.inj_succ.
    replace (Z.succ (Zpos (digits2_pos m)) - 1)%Z
      with (Z.succ (Zpos (digits2_pos m) - 1))%Z by lia.
    rewrite !Z.pow_succ_r by lia. lia.
  - simpl. lia.
Qed.

Lemma shr_1_m (r : shr_record) :
  (0 <= shr_m r)%Z -> shr_m (shr_1 r) = (shr_m r / 2)%Z.
Proof.
  destruct r as [m r s]. cbn [shr_m]. intros Hm.
  destruct m as [| p | p]; [reflexivity | | lia].
  destruct p as [p | p |]; cbn [shr_1 shr_m].
  - rewrite Pos2Z.inj_xI. apply Z.div_unique with (r := 1%Z); lia.
  - rewrite Pos2Z.inj_xO. apply Z.div_unique with (r := 0%Z); lia.
  - reflexivity.
Qed.

Lemma iter_shr_1_m (p : positive) (r : shr_record) :
  (0 <= shr_m r)%Z ->
  shr_m (SpecFloat.iter_pos shr_1 p r) = (shr_m r / 2 ^ Zpos p)%Z.
Proof.
  revert r. induction p as [p IH | p IH |]; intros r Hr; cbn [SpecFloat.iter_pos].
  - assert (0 <= shr_m (shr_1 r))%Z as H1.
    { rewrite shr_1_m by exact Hr. apply Z.div_pos; lia. }
    assert (0 <= shr_m (SpecFloat.iter_pos shr_1 p (shr_1 r)))%Z as H2.
    { rewrite IH by exact H1. apply Z.div_pos; [exact H1 | ].
      apply Z.pow_pos_nonneg; lia. }
    rewrite IH by exact H2. rewrite IH by exact H1.
    rewrite shr_1_m by exact Hr.
    rewrite !Z.div_div by (try apply Z.pow_pos_nonneg; lia).
    f_equal. rewrite (Pos2Z.inj_xI p).
    replace (2 * Zpos p + 1)%Z with (1 + (Zpos p + Zpos p))%Z by lia.
    rewrite Z.pow_add_r by lia. rewrite (Z.pow_add_r 2 (Zpos p)) by lia.
    change (2 ^ 1)%Z with 2%Z. lia.
  - assert (0 <= shr_m (SpecFloat.iter_pos shr_1 p r))%Z as H2.
    { rewrite IH by exact Hr. apply Z.div_pos; [exact Hr | ].
      apply Z.pow_pos_nonneg; lia. }
    rewrite IH by exact H2. rewrite IH by exact Hr.
    rewrite !Z.div_div by (try apply Z.pow_pos_nonneg; lia).
    f_equal. rewrite (Pos2Z.inj_xO p).
    replace (2 * Zpos p)%Z with (Zpos p + Zpos p)%Z by lia.
    rewrite (Z.pow_add_r 2 (Zpos p)) by lia. lia.
  - rewrite shr_1_m by exact Hr. reflexivity.
Qed.

Lemma bounded_inv (m : positive) (e : Z) :
  bounded FloatOps.prec FloatOps.emax m e = true ->
  (-1074 <= e <= 971)%Z
  /\ (Zpos (digits2_pos m) <= 53)%Z
  /\ (-1074 < e -> Zpos (digits2_pos m) = 53)%Z.
Proof.
  unfold bounded, canonical_mantissa, fexp, SpecFloat.emin, FloatOps.prec,
    FloatOps.emax.
  rewrite andb_true_iff, Z.eqb_eq, Z.leb_le. lia.
Qed.

Lemma finite_rank_bounds (m : positive) (e : Z) :
  bounded FloatOps.prec FloatOps.emax m e = true ->
  (0 < Zpos m * 2 ^ (e + 1074) < 2 ^ 2098)%Z.
Proof.
  intros H. apply bounded_inv in H as (He & Hd & _).
  pose proof (digits2_pos_bounds m) as [_ Hm].
  assert (Zpos m < 2 ^ 53)%Z as Hm53.
  { eapply Z.lt_le_trans; [exact Hm |]. apply Z.pow_le_mono_r; lia. }
  assert (0 < 2 ^ (e + 1074))%Z as Hp by (apply Z.pow_pos_nonneg; lia).
  assert (2 ^ (e + 1074) <= 2 ^ 2045)%Z as Hq
    by (apply Z.pow_le_mono_r; lia).
  split; [lia |].
  replace (2 ^ 2098)%Z with (2 ^ 53 * 2 ^ 2045)%Z
    by (rewrite <- Z.pow_add_r by lia; reflexivity).
  apply Z.le_lt_trans with (Zpos m * 2 ^ 2045)%Z.
  - apply Z.mul_le_mono_nonneg_l; lia.
  - apply Z.mul_lt_mono_pos_r; [apply Z.pow_pos_nonneg; lia | exact Hm53].
Qed.

Lemma finite_rank_lt (m1 m2 : positive) (e1 e2 : Z) :
  bounded FloatOps.prec FloatOps.emax m1 e1 = true ->
  bounded FloatOps.prec FloatOps.emax m2 e2 = true ->
  (e1 < e2)%Z ->
  (Zpos m1 * 2 ^ (e1 + 1074) < Zpos m2 * 2 ^ (e2 + 1074))%Z.
Proof.
  intros H1 H2 Hlt.
  apply bounded_inv in H1 as (He1 & Hd1 & _).
  apply bounded_inv in H2 as (He2 & _ & Hd2).
  specialize (Hd2 ltac:(lia)).
  pose proof (digits2_pos_bounds m1) as [_ Hm1].
  pose proof (digits2_pos_bounds m2) as [Hm2 _].
  rewrite Hd2 in Hm2. change (2 ^ (53 - 1))%Z with (2 ^ 52)%Z in Hm2.
  assert (Zpos m1 < 2 ^ 53)%Z as Hm53.
  { eapply Z.lt_le_trans; [exact Hm1 |]. apply Z.pow_le_mono_r; lia. }
  replace (e2 + 1074)%Z with ((e1 + 1074) + (e2 - e1))%Z by lia.
  rewrite (Z.pow_add_r 2 (e1 + 1074) (e2 - e1)) by lia.
  assert (0 < 2 ^ (e1 + 1074))%Z as Hp by (apply Z.pow_pos_nonneg; lia).
  assert (2 ^ 1 <= 2 ^ (e2 - e1))%Z as Hq by (apply Z.pow_le_mono_r; lia).
  change (2 ^ 1)%Z with 2%Z in Hq.
  change (2 ^ 53)%Z with (2 * 2 ^ 52)%Z in Hm53.
  set (a := (2 ^ (e1 + 1074))%Z) in *. set (b := (2 ^ (e2 - e1))%Z) in *.
  set (c := (2 ^ 52)%Z) in *.
  assert (Zpos m1 * a < 2 * c * a)%Z by (apply Z.mul_lt_mono_pos_r; lia).
  assert (2 * c * a <= Zpos m2 * 2 * a)%Z by nia.
  assert (Zpos m2 * 2 * a <= Zpos m2 * b * a)%Z by nia.
  lia.
Qed.

Lemma Zmul_compare_pos_r (n m p : Z) :
  (0 < p)%Z -> (n * p ?= m * p)%Z = (n ?= m)%Z.
Proof.
  intros Hp. destruct (Z.compare_spec n m) as [-> | H | H].
  - apply Z.compare_refl.
  - apply Z.compare_lt_iff. apply Z.mul_lt_mono_pos_r; assumption.
  - apply Z.compare_gt_iff. apply Z.mul_lt_mono_pos_r; assumption.
Qed.

Ltac rank_cmp :=
  cbn [cond_Zopp]; try reflexivity; f_equal; symmetry;
  first [ apply Z.compare_lt_iff; lia
        | apply Z.compare_gt_iff; lia
        | apply Z.compare_eq_iff; lia ].

Lemma SFcompare_rank (x y : spec_float) :
  valid_binary x = true -> valid_binary y = true ->
  x <> S754_nan -> y <> S754_nan ->
  SFcompare x y = Some (Double.place x ?= Double.place y)%Z.
Proof.
  intros Hx Hy Hnx Hny.
  assert (0 < 2 ^ 2098)%Z as Hbig by (apply Z.pow_pos_nonneg; lia).
  set (big := (2 ^ 2098)%Z) in *.
  destruct x as [sx | sx | | sx mx ex], y as [sy | sy | | sy my ey];
    try congruence; cbn [SFcompare Double.place valid_binary] in *;
    fold big.
  - reflexivity.
  - destruct sy; rank_cmp.
  - pose proof (finite_rank_bounds _ _ Hy).
    destruct sy; rank_cmp.
  - destruct sx; rank_cmp.
  - destruct sx, sy; rank_cmp.
  - pose proof (finite_rank_bounds _ _ Hy). fold big in H.
    destruct sx, sy; rank_cmp.
  - pose proof (finite_rank_bounds _ _ Hx).
    destruct sx; rank_cmp.
  - pose proof (finite_rank_bounds _ _ Hx). fold big in H.
    destruct sx, sy; rank_cmp.
  - pose proof (finite_rank_bounds _ _ Hx) as Bx.
    pose proof (finite_rank_bounds _ _ Hy) as By.
    assert (0 < 2 ^ (ex + 1074))%Z as Hp.
    { apply Z.pow_pos_nonneg; [lia |].
      apply bounded_inv in Hx. lia. }
    destruct sx, sy; cbn [cond_Zopp]; f_equal; symmetry.
    + destruct (Z.compare_spec ex ey) as [-> | Hlt | Hgt].
      * rewrite Z.compare_opp, Zmul_compare_pos_r by exact Hp.
        change (Pos.compare_cont Eq mx my) with (Pos.compare mx my).
        rewrite <- Pos.compare_antisym. reflexivity.
      * apply Z.compare_gt_iff.
        pose proof (finite_rank_lt _ _ _ _ Hx Hy Hlt). lia.
      * apply Z.compare_lt_iff.
        pose proof (finite_rank_lt _ _ _ _ Hy Hx Hgt). lia.
    + apply Z.compare_lt_iff. lia.
    + apply Z.compare_gt_iff. lia.
    + destruct (Z.compare_spec ex ey) as [-> | Hlt | Hgt].
      * rewrite Zmul_compare_pos_r by exact Hp. reflexivity.
      * apply Z.compare_lt_iff. exact (finite_rank_lt _ _ _ _ Hx Hy Hlt).
      * apply Z.compare_gt_iff. exact (finite_rank_lt _ _ _ _ Hy Hx Hgt).
Qed.

Lemma iter_xO_val (d m : positive) :
  Zpos (Pos.iter xO m d) = (Zpos m * 2 ^ Zpos d)%Z.
Proof.
  induction d as [| d IH] using Pos.peano_ind.
  - cbn [Pos.iter]. rewrite Pos2Z.inj_xO. change (2 ^ 1)%Z with 2%Z. lia.
  - rewrite Pos.iter_succ, Pos2Z.inj_xO, IH, Pos2Z.inj_succ,
      Z.pow_succ_r by lia. lia.
Qed.

Lemma shl_align_val (m : positive) (e e' : Z) :
  (e' <= e)%Z ->
  Zpos (fst (shl_align m e e')) = (Zpos m * 2 ^ (e - e'))%Z
  /\ snd (shl_align m e e') = e'.
Proof.
  intros He. unfold shl_align.
  destruct (e' - e)%Z as [| d | d] eqn:E; cbn [fst snd]; try lia.
  - replace (e - e')%Z with 0%Z by lia. split; lia.
  - replace (e - e')%Z with (Zpos d) by lia.
    split; [apply iter_xO_val | reflexivity].
Qed.

Lemma shl_align_exp (m : positive) (e e' : Z) :
  (Z.min e e' <= snd (shl_align m e e'))%Z.
Proof.
  unfold shl_align. destruct (e' - e)%Z eqn:E; cbn [snd]; lia.
Qed.

Lemma shr_record_of_loc_m (m : Z) (l : location) :
  shr_m (shr_record_of_loc m l) = m.
Proof. destruct l as [| []]; reflexivity. Qed.

(** Shifting a positive mantissa to its format keeps it positive as long as
    the exponent is not below the least one. *)
Lemma shr_fexp_pos (m : positive) (e : Z) (l : location) :
  (-1074 <= e)%Z ->
  exists m' : positive,
    shr_m (fst (shr_fexp FloatOps.prec FloatOps.emax (Zpos m) e l)) = Zpos m'
    /\ (e <= snd (shr_fexp FloatOps.prec FloatOps.emax (Zpos m) e l))%Z.
Proof.
  intros He. unfold shr_fexp, shr. cbn [Zdigits2].
  destruct (fexp FloatOps.prec FloatOps.emax (Zpos (digits2_pos m) + e) - e)%Z
    as [| p | p] eqn:E; cbn [fst snd].
  - exists m. rewrite shr_record_of_loc_m. split; [reflexivity | lia].
  - rewrite iter_shr_1_m by (rewrite shr_record_of_loc_m; lia).
    rewrite shr_record_of_loc_m.
    assert (Zpos p = Zpos (digits2_pos m) - 53)%Z as Hp.
    { revert E. unfold fexp, SpecFloat.emin, FloatOps.prec, FloatOps.emax.
      lia. }
    pose proof (digits2_pos_bounds m) as [Hm _].
    assert (2 ^ Zpos p <= 2 ^ (Zpos (digits2_pos m) - 1))%Z as Hq
      by (apply Z.pow_le_mono_r; lia).
    assert (0 < 2 ^ Zpos p)%Z as Hpos by (apply Z.pow_pos_nonneg; lia).
    assert (0 < Zpos m / 2 ^ Zpos p)%Z as Hdiv
      by (apply Z.div_str_pos; lia).
    destruct (Zpos m / 2 ^ Zpos p)%Z as [| q | q]; try lia.
    exists q. split; [reflexivity | lia].
  - exists m. rewrite shr_record_of_loc_m. split; [reflexivity | lia].
Qed.

Lemma round_nearest_even_pos (m : positive) (l : location) :
  exists m' : positive, round_nearest_even (Zpos m) l = Zpos m'.
Proof.
  destruct l as [| []]; cbn [round_nearest_even];
    try destruct (Z.even (Zpos m)); eexists; reflexivity.
Qed.

Lemma binary_round_aux_signed (s : bool) (m : positive) (e : Z)
  (l : location) :
  (-1074 <= e)%Z ->
  signed s (binary_round_aux FloatOps.prec FloatOps.emax s (Zpos m) e l).
Proof.
  intros He. unfold binary_round_aux.
  destruct (shr_fexp_pos m e l He) as (m1 & Hm1 & He1).
  destruct (shr_fexp FloatOps.prec FloatOps.emax (Zpos m) e l) as [r1 e1].
  cbn [fst snd] in Hm1, He1. rewrite Hm1.
  destruct (round_nearest_even_pos m1 (loc_of_shr_record r1)) as (m2 & ->).
  destruct (shr_fexp_pos m2 e1 loc_Exact ltac:(lia)) as (m3 & Hm3 & He3).
  destruct (shr_fexp FloatOps.prec FloatOps.emax (Zpos m2) e1 loc_Exact)
    as [r3 e3].
  cbn [fst snd] in Hm3, He3. rewrite Hm3.
  destruct (e3 <=? FloatOps.emax - FloatOps.prec)%Z; constructor.
Qed.

Lemma binary_round_signed (s : bool) (m : positive) (e : Z) :
  (-1074 <= e)%Z ->
  signed s (binary_round FloatOps.prec FloatOps.emax s m e).
Proof.
  intros He. unfold binary_round.
  pose proof (shl_align_exp m e
                (fexp FloatOps.prec FloatOps.emax (Zpos (digits2_pos m) + e)))
    as Hexp.
  destruct (shl_align m e _) as [mz ez]. cbn [snd] in Hexp.
  apply binary_round_aux_signed.
  revert Hexp. unfold fexp, SpecFloat.emin, FloatOps.prec, FloatOps.emax. lia.
Qed.

Lemma signed_ltb_zero (s : bool) (x : spec_float) :
  signed s x -> SFltb (S754_zero false) x = negb s.
Proof. intros []; destruct s; reflexivity. Qed.

Lemma binary_normalize_pos (d e : Z) :
  (-1074 <= e)%Z ->
  SFltb (S754_zero false)
    (binary_normalize FloatOps.prec FloatOps.emax d e false)
  = (0 <? d)%Z.
Proof.
  intros He. destruct d as [| p | p]; cbn [binary_normalize].
  - reflexivity.
  - rewrite (signed_ltb_zero false) by (apply binary_round_signed; exact He).
    reflexivity.
  - rewrite (signed_ltb_zero true) by (apply binary_round_signed; exact He).
    reflexivity.
Qed.

Lemma finite_rank_aligned (s : bool) (m : positive) (e ez : Z) :
  (-1074 <= ez <= e)%Z ->
  cond_Zopp s (Zpos m * 2 ^ (e + 1074))
  = (cond_Zopp s (Zpos (fst (shl_align m e ez))) * 2 ^ (ez + 1074))%Z.
Proof.
  intros He. destruct (shl_align_val m e ez) as [-> _]; [lia |].
  replace (e + 1074)%Z with ((e - ez) + (ez + 1074))%Z by lia.
  rewrite Z.pow_add_r by lia. destruct s; cbn [cond_Zopp]; lia.
Qed.

Lemma SFsub_pos (x y : spec_float) :
  valid_binary x = true -> valid_binary y = true ->
  x <> S754_nan -> y <> S754_nan ->
  SFltb (S754_zero false) (SF64sub y x) = (Double.place x <? Double.place y)%Z.
Proof.
  intros Hx Hy Hnx Hny.
  assert (0 < 2 ^ 2098)%Z as Hbig by (apply Z.pow_pos_nonneg; lia).
  set (big := (2 ^ 2098)%Z) in *.
  unfold SF64sub.
  destruct x as [sx | sx | | sx mx ex], y as [sy | sy | | sy my ey];
    try congruence; cbn [SFsub Double.place valid_binary] in *; fold big.
  - destruct sx, sy; reflexivity.
  - destruct sy; cbn [cond_Zopp SFltb SFcompare]; symmetry;
      [apply Z.ltb_ge | apply Z.ltb_lt]; lia.
  - pose proof (finite_rank_bounds _ _ Hy).
    destruct sy; cbn [cond_Zopp SFltb SFcompare]; symmetry;
      [apply Z.ltb_ge | apply Z.ltb_lt]; lia.
  - destruct sx; cbn [cond_Zopp SFltb SFcompare negb]; symmetry;
      [apply Z.ltb_lt | apply Z.ltb_ge]; lia.
  - destruct sx, sy; cbn [cond_Zopp SFltb SFcompare negb]; symmetry;
      first [apply Z.ltb_lt; lia | apply Z.ltb_ge; lia].
  - pose proof (finite_rank_bounds _ _ Hy). fold big in H.
    destruct sx; cbn [cond_Zopp SFltb SFcompare negb]; symmetry;
      first [apply Z.ltb_lt; destruct sy; cbn [cond_Zopp]; lia
            | apply Z.ltb_ge; destruct sy; cbn [cond_Zopp]; lia].
  - pose proof (finite_rank_bounds _ _ Hx).
    destruct sx; cbn [cond_Zopp SFltb SFcompare negb]; symmetry;
      [apply Z.ltb_lt | apply Z.ltb_ge]; lia.
  - pose proof (finite_rank_bounds _ _ Hx). fold big in H.
    destruct sy; cbn [cond_Zopp SFltb SFcompare negb]; symmetry;
      first [apply Z.ltb_lt; destruct sx; cbn [cond_Zopp]; lia
            | apply Z.ltb_ge; destruct sx; cbn [cond_Zopp]; lia].
  - pose proof (bounded_inv _ _ Hx) as (Hex & _).
    pose proof (bounded_inv _ _ Hy) as (Hey & _).
    cbv zeta. rewrite binary_normalize_pos by lia.
    rewrite (finite_rank_aligned sx mx ex (Z.min ey ex)) by lia.
    rewrite (finite_rank_aligned sy my ey (Z.min ey ex)) by lia.
    assert (0 < 2 ^ (Z.min ey ex + 1074))%Z as Hk
      by (apply Z.pow_pos_nonneg; lia).
    set (k := (2 ^ (Z.min ey ex + 1074))%Z) in *.
    set (vx := cond_Zopp sx _). set (vy := cond_Zopp sy _).
    destruct (Z.ltb_spec 0 (vy - vx)) as [H | H]; symmetry;
      [apply Z.ltb_lt | apply Z.ltb_ge]; nia.
Qed.

Lemma SFcompare_refl (x : spec_float) :
  valid_binary x = true -> x <> S754_nan -> SFcompare x x = Some Eq.
Proof.
  intros Hv Hn. rewrite (SFcompare_rank x x Hv Hv Hn Hn).
  now rewrite Z.compare_refl.
Qed.

Lemma is_nan_spec (x : float) :
  is_nan x = true <-> Prim2SF x = S754_nan.
Proof.
  unfold is_nan. rewrite FloatAxioms.eqb_spec. unfold SFeqb.
  pose proof (Prim2SF_valid x) as Hv.
  destruct (Prim2SF x) as [s | s | | s m e] eqn:E;
    try (rewrite SFcompare_refl by (try exact Hv; discriminate);
         cbn; split; [discriminate | discriminate]).
  cbn. tauto.
Qed.

Lemma is_nan_false (x : float) :
  is_nan x = false -> Prim2SF x <> S754_nan.
Proof.
  intros H E. apply is_nan_spec in E. congruence.
Qed.

Lemma ltb_rank (x y : float) :
  is_nan x = false -> is_nan y = false ->
  (x <? y)%float = (Double.rank x <? Double.rank y)%Z.
Proof.
  intros Hx Hy. rewrite FloatAxioms.ltb_spec. unfold SFltb, Double.rank.
  rewrite SFcompare_rank
    by (try apply Prim2SF_valid; apply is_nan_false; assumption).
  unfold Z.ltb. now destruct (_ ?= _)%Z.
Qed.

Lemma leb_rank (x y : float) :
  is_nan x = false -> is_nan y = false ->
  (x <=? y)%float = (Double.rank x <=? Double.rank y)%Z.
Proof.
  intros Hx Hy. rewrite FloatAxioms.leb_spec. unfold SFleb, Double.rank.
  rewrite SFcompare_rank
    by (try apply Prim2SF_valid; apply is_nan_false; assumption).
  unfold Z.leb. now destruct (_ ?= _)%Z.
Qed.

Lemma sub_pos (x y : float) :
  is_nan x = false -> is_nan y = false ->
  (0 <? y - x)%float = (Double.rank x <? Double.rank y)%Z.
Proof.
  intros Hx Hy. rewrite FloatAxioms.ltb_spec, FloatAxioms.sub_spec.
  change (Prim2SF 0) with (S754_zero false).
  apply SFsub_pos;
    try apply Prim2SF_valid; apply is_nan_false; assumption.
Qed.

Lemma shr_fexp_nonneg (m e : Z) (l : location) :
  (0 <= m)%Z ->
  (0 <= shr_m (fst (shr_fexp FloatOps.prec FloatOps.emax m e l)))%Z.
Proof.
  intros Hm. unfold shr_fexp, shr.
  destruct (fexp FloatOps.prec FloatOps.emax (Zdigits2 m + e) - e)%Z
    as [| p | p]; cbn [fst]; rewrite ?shr_record_of_loc_m; try exact Hm.
  rewrite iter_shr_1_m by (rewrite shr_record_of_loc_m; exact Hm).
  rewrite shr_record_of_loc_m. apply Z.div_pos; [exact Hm |].
  apply Z.pow_pos_nonneg; lia.
Qed.

Lemma round_nearest_even_nonneg (m : Z) (l : location) :
  (0 <= m)%Z -> (0 <= round_nearest_even m l)%Z.
Proof.
  intros Hm. destruct l as [| []]; cbn [round_nearest_even];
    try destruct (Z.even m); lia.
Qed.

Lemma binary_round_aux_not_nan (s : bool) (m : positive) (e : Z)
  (l : location) :
  binary_round_aux FloatOps.prec FloatOps.emax s (Zpos m) e l <> S754_nan.
Proof.
  unfold binary_round_aux.
  pose proof (shr_fexp_nonneg (Zpos m) e l ltac:(lia)) as H1.
  destruct (shr_fexp FloatOps.prec FloatOps.emax (Zpos m) e l) as [r1 e1].
  cbn [fst] in H1.
  pose proof (round_nearest_even_nonneg _ (loc_of_shr_record r1) H1) as H2.
  pose proof (shr_fexp_nonneg _ e1 loc_Exact H2) as H3.
  destruct (shr_fexp FloatOps.prec FloatOps.emax
              (round_nearest_even (shr_m r1) (loc_of_shr_record r1)) e1
              loc_Exact) as [r3 e3].
  cbn [fst] in H3.
  destruct (shr_m r3) as [| q | q]; try lia; try discriminate.
  destruct (e3 <=? FloatOps.emax - FloatOps.prec)%Z; discriminate.
Qed.

(** Multiplying by a finite constant other than zero gives [NaN] for [NaN]
    only. *)
Lemma mul_finite_is_nan (x c : float) (s : bool) (m : positive) (e : Z) :
  Prim2SF c = S754_finite s m e ->
  is_nan (x * c)%float = is_nan x.
Proof.
  intros Hc.
  destruct (is_nan x) eqn:Hx.
  - apply is_nan_spec. apply is_nan_spec in Hx.
    rewrite FloatAxioms.mul_spec, Hx. reflexivity.
  - apply is_nan_false in Hx.
    destruct (is_nan (x * c)%float) eqn:E; [| reflexivity].
    apply is_nan_spec in E. rewrite FloatAxioms.mul_spec, Hc in E.
    unfold SF64mul in E.
    destruct (Prim2SF x) as [sx | sx | | sx mx ex]; cbn [SFmul] in E;
      try discriminate; try congruence.
    exfalso. exact (binary_round_aux_not_nan _ _ _ _ E).
Qed.

(** The order of the doubles that are numbers: it is the order of their
    ranks. *)
Lemma leb_trans (x y z : float) :
  is_nan x = false -> is_nan y = false -> is_nan z = false ->
  (x <=? y)%float = true -> (y <=? z)%float = true -> (x <=? z)%float = true.
Proof.
  intros Hx Hy Hz. rewrite !leb_rank by assumption.
  rewrite !Z.leb_le. lia.
Qed.


Lemma mul_comm (x y : float) : (x * y)%float = (y * x)%float.
Proof.
  apply Prim2SF_inj. rewrite !FloatAxioms.mul_spec. unfold SF64mul.
  destruct (Prim2SF x) as [sx | sx | | sx mx ex],
    (Prim2SF y) as [sy | sy | | sy my ey]; cbn [SFmul];
    rewrite ?(xorb_comm sx sy); try reflexivity.
  now rewrite (Pos.mul_comm mx my), (Z.add_comm ex ey).
Qed.

Lemma signed_not_zero (s s' : bool) (x : spec_float) :
  signed s x -> x <> S754_zero s'.
Proof. intros [] E; discriminate. Qed.

Lemma add_notNegZero (x y : float) :
  notNegZero x -> notNegZero (x + y)%float.
Proof.
  unfold notNegZero. rewrite FloatAxioms.add_spec. unfold SF64add.
  pose proof (Prim2SF_valid x) as Hx. pose proof (Prim2SF_valid y) as Hy.
  destruct (Prim2SF x) as [sx | sx | | sx mx ex],
    (Prim2SF y) as [sy | sy | | sy my ey]; cbn [SFadd]; intros Hn;
    try discriminate; try (destruct sx, sy; congruence).
  cbn [valid_binary SpecFloat.valid_binary] in Hx, Hy.
  apply bounded_inv in Hx as (Hex & _), Hy as (Hey & _).
  cbv zeta.
  destruct (cond_Zopp sx _ + cond_Zopp sy _)%Z as [| p | p];
    cbn [binary_normalize]; [discriminate | |];
    (eapply signed_not_zero; apply binary_round_signed; lia).
Qed.

Lemma add_zero_r (x : float) : notNegZero x -> (x + 0)%float = x.
Proof.
  unfold notNegZero. intros Hn. apply Prim2SF_inj.
  rewrite FloatAxioms.add_spec.
  change (Prim2SF 0) with (S754_zero false). unfold SF64add.
  destruct (Prim2SF x) as [[] | [] | | s m e]; cbn [SFadd];
    congruence.
Qed.

Lemma notNegZero_zero : notNegZero 0%float.
Proof. unfold notNegZero. change (Prim2SF 0) with (S754_zero false). discriminate. Qed.

(** The sort on doubles *)

Section SortFacts64.
Context {A : Type} (key : A -> float).

Lemma sortInsert64_Permutation (c : A -> A -> float) (x : A) (l : list A) :
  Permutation (Double.sortInsert c x l) (x :: l).
Proof.
  induction l as [| y l IH]; simpl; [reflexivity |].
  destruct (Double.after (c x y)); [| reflexivity].
  rewrite IH. apply perm_swap.
Qed.

Lemma sort64_Permutation (c : A -> A -> float) (l : list A) :
  Permutation (Double.sort c l) l.
Proof.
  induction l as [| x l IH]; simpl; [reflexivity |].
  rewrite sortInsert64_Permutation. now constructor.
Qed.

Lemma after64_spec (x y : A) :
  Double.isNaN (key x) = false -> Double.isNaN (key y) = false ->
  Double.after (comparingDesc64 key x y)
  = (Double.rank (key x) <? Double.rank (key y))%Z.
Proof. intros Hx Hy. apply sub_pos; assumption. Qed.

(** The order by place, in which the sort is first shown to leave the
    list. *)
Lemma sortInsert64_ranked (x : A) (l : list A) :
  Forall (fun a => Double.isNaN (key a) = false) (x :: l) ->
  StronglySorted (fun a b => (Double.rank (key b) <= Double.rank (key a))%Z) l ->
  StronglySorted (fun a b => (Double.rank (key b) <= Double.rank (key a))%Z)
    (Double.sortInsert (comparingDesc64 key) x l).
Proof.
  intros Hnan Hsorted. induction Hsorted as [| y l Hl IH Hy]; simpl.
  - repeat constructor.
  - inversion Hnan as [| ? ? Hx Hrest]; subst.
    inversion Hrest as [| ? ? Hy' Hl']; subst.
    rewrite (after64_spec x y Hx Hy').
    destruct (Z.ltb_spec (Double.rank (key x)) (Double.rank (key y)))
      as [Hlt | Hge].
    + constructor; [apply IH; constructor; assumption |].
      rewrite sortInsert64_Permutation.
      constructor; [lia | exact Hy].
    + constructor; [constructor; assumption |].
      constructor; [exact Hge |].
      eapply List.Forall_impl; [| exact Hy].
      cbv beta. intros z Hz. lia.
Qed.

Lemma sort64_ranked (l : list A) :
  Forall (fun a => Double.isNaN (key a) = false) l ->
  StronglySorted (fun a b => (Double.rank (key b) <= Double.rank (key a))%Z)
    (Double.sort (comparingDesc64 key) l).
Proof.
  induction 1 as [| x l Hx Hl IH]; simpl; [constructor |].
  apply sortInsert64_ranked; [| exact IH].
  constructor; [exact Hx |].
  rewrite sort64_Permutation. exact Hl.
Qed.

Lemma ranked_descending64 (l : list A) :
  Forall (fun a => Double.isNaN (key a) = false) l ->
  StronglySorted (fun a b => (Double.rank (key b) <= Double.rank (key a))%Z) l ->
  StronglySorted (descending64 key) l.
Proof.
  intros Hnan Hsorted. induction Hsorted as [| x l Hl IH Hx];
    [constructor |].
  inversion Hnan as [| ? ? Hnx Hnl]; subst.
  constructor; [apply IH; exact Hnl |].
  rewrite List.Forall_forall in *. intros y Hy. unfold descending64.
  rewrite leb_rank by auto. apply Z.leb_le. exact (Hx y Hy).
Qed.

(** With no [NaN] among the keys the sort leaves the list in descending
    order. *)
Lemma sort64_sorted (l : list A) :
  Forall (fun a => Double.isNaN (key a) = false) l ->
  StronglySorted (descending64 key) (Double.sort (comparingDesc64 key) l).
Proof.
  intros Hnan. apply ranked_descending64.
  - rewrite sort64_Permutation. exact Hnan.
  - apply sort64_ranked. exact Hnan.
Qed.

(** A list with a [NaN] key and another entry has no descending
    arrangement. *)
Lemma nan_is_never_descending (l : list A) (x y : A) :
  In x l -> In y l -> x <> y -> Double.isNaN (key x) = true ->
  ~ StronglySorted (descending64 key) l.
Proof.
  intros Hx Hy Hxy Hnan Hsorted.
  assert (forall z, (key x <=? key z)%float = false
                    /\ (key z <=? key x)%float = false) as Hcmp.
  { intros z. apply is_nan_spec in Hnan.
    rewrite !FloatAxioms.leb_spec, Hnan. unfold SFleb.
    split; [reflexivity |]. cbn [SFcompare].
    now destruct (Prim2SF (key z)). }
  induction Hsorted as [| z l Hl IH Hz]; [inversion Hx |].
  rewrite List.Forall_forall in Hz. unfold descending64 in Hz.
  destruct Hx as [Ex | Hx], Hy as [Ey | Hy].
  - congruence.
  - subst z. specialize (Hz y Hy). destruct (Hcmp y). congruence.
  - specialize (Hz x Hx). destruct (Hcmp z). congruence.
  - now apply IH.
Qed.
End SortFacts64.

(** *** Diversification *)

Lemma demote64_adjustedBy (ids : list string) (item : Scored64.t) :
  adjustedBy64 ids item (demote64 ids item).
Proof.
  unfold adjustedBy64, demote64.
  destruct (JS.arrayIncludes ids (Restaurant.id (Scored64.restaurant item)))
    eqn:E.
  - apply arrayIncludes_In in E. simpl. tauto.
  - assert (~ In (Restaurant.id (Scored64.restaurant item)) ids) as N.
    { intros H. apply arrayIncludes_In in H. congruence. }
    tauto.
Qed.

(** A demoted score is [NaN] only if the score was. *)
Lemma demote64_isNaN (ids : list string) (item : Scored64.t) :
  Double.isNaN (Scored64.score (demote64 ids item))
  = Double.isNaN (Scored64.score item).
Proof.
  unfold demote64.
  destruct (JS.arrayIncludes ids _); [| reflexivity].
  cbn [Scored64.score]. unfold Double.isNaN.
  apply (mul_finite_is_nan _ _ false 5404319552844595 (-54)).
  reflexivity.
Qed.


(** C10. With no list of previously shown ids, or with an empty one,
    [diversifyRecommendations] returns the scored list it was given: same
    items, same scores, same order. *)
Theorem diversify_without_previous_is_identity (scored : list Scored.t) :
  diversifyRecommendations scored None = scored
  /\ diversifyRecommendations scored (Some []) = scored.
Proof. split; reflexivity. Qed.

(** C6, as the code has it. With a previously shown id supplied, the
    result of [diversifyRecommendations] is a rearrangement of the input
    in which every item whose id is in the list has the double-precision
    product of its score and 0.3 as its score and every other item has
    its score unchanged; when no score is [NaN], the scores run in
    descending order. *)
Theorem diversify_demotes_and_sorts
  (scored : list Scored64.t) (ids : list string) (id : string) :
  In id ids ->
  exists adjusted : list Scored64.t,
    Forall2 (adjustedBy64 ids) scored adjusted
    /\ Permutation (diversifyRecommendations64 scored (Some ids)) adjusted
    /\ (Forall (fun item => Double.isNaN (Scored64.score item) = false)
          scored ->
        StronglySorted (descending64 Scored64.score)
          (diversifyRecommendations64 scored (Some ids))).
Proof.
  intros Hid.
  assert (nonEmpty (Some ids) = Some ids) as E
      by (apply nonEmpty_cons; intros ->; inversion Hid).
  unfold diversifyRecommendations64. rewrite E.
  exists (List.map (demote64 ids) scored). repeat split.
  - induction scored as [| item scored IH]; simpl; constructor;
      [apply demote64_adjustedBy | exact IH].
  - apply sort64_Permutation.
  - intros Hnan.
    change byScoreDesc64 with (comparingDesc64 Scored64.score).
    apply sort64_sorted. rewrite List.Forall_map.
    eapply List.Forall_impl; [| exact Hnan].
    intros item Hitem. cbv beta. now rewrite demote64_isNaN.
Qed.

(** *** Discovery policy *)

(** The policy asks for the first slot of [priority] that is missing, and
    has no question when none is. *)
Lemma asked_is_first_missing (slots : Slots.t) (profile : Profile.t) :
  match List.find (missing slots) priority with
  | Some q =>
      snd (getNextDiscoveryQuestion slots profile) = q
      /\ fst (getNextDiscoveryQuestion slots profile) <> EmptyString
  | None => getNextDiscoveryQuestion slots profile = (EmptyString, QCuisine)
  end.
Proof.
  unfold getNextDiscoveryQuestion, priority, missing. simpl.
  repeat match goal with
         | |- context [if negb ?b then _ else _] => destruct b; simpl
         | |- context [if ?a && ?b then _ else _] => destruct a; simpl
         end;
    first [reflexivity | split; [reflexivity | discriminate]].
Qed.

Lemma find_first {A : Type} (f : A -> bool) (earlier later : list A) (q : A) :
  Forall (fun e => f e = false) earlier -> f q = true ->
  List.find f (earlier ++ q :: later) = Some q.
Proof.
  induction 1 as [| e earlier He _ IH]; simpl; intros Hq.
  - now rewrite Hq.
  - rewrite He. now apply IH.
Qed.

Lemma find_not_later {A : Type} (f : A -> bool) (l : list A)
  (i j : nat) (q1 q2 q : A) :
  NoDup l -> l !! i = Some q1 -> l !! j = Some q2 -> (i < j)%nat ->
  f q1 = true -> List.find f l = Some q -> q <> q2.
Proof.
  intros Hnd. revert i j.
  induction Hnd as [| x l Hx Hnd IH]; intros i j Hi Hj Hij H1 Hfind;
    [discriminate |].
  destruct j as [| j]; [lia |]. simpl in Hj, Hfind.
  destruct (f x) eqn:Hfx.
  - inversion Hfind; subst. intros ->.
    apply Hx. apply list_elem_of_lookup. eauto.
  - destruct i as [| i]; simpl in Hi.
    + inversion Hi; subst. congruence.
    + eapply IH; eauto. lia.
Qed.

Lemma priority_NoDup : NoDup priority.
Proof.
  unfold priority.
  repeat (apply NoDup_cons_2;
          [rewrite ?elem_of_cons, elem_of_nil; intuition discriminate |]).
  apply NoDup_nil_2.
Qed.

(** C8. The discovery policy asks in the order area, meal time, party
    size, budget, cuisine-or-vibe, dietary: the slot it asks for is the
    first missing one of that order, so of an earlier and a later missing
    slot it never asks for the later; with only the budget set it asks
    for the area. *)
Theorem discovery_asks_in_priority_order (profile : Profile.t) :
  (forall (slots : Slots.t) (earlier later : list QuestionType)
          (q : QuestionType),
      priority = earlier ++ q :: later ->
      Forall (fun e => missing slots e = false) earlier ->
      missing slots q = true ->
      snd (getNextDiscoveryQuestion slots profile) = q
      /\ fst (getNextDiscoveryQuestion slots profile) <> EmptyString)
  /\ (forall (slots : Slots.t) (i j : nat) (q1 q2 : QuestionType),
        priority !! i = Some q1 -> priority !! j = Some q2 -> (i < j)%nat ->
        missing slots q1 = true -> missing slots q2 = true ->
        fst (getNextDiscoveryQuestion slots profile) <> EmptyString
        /\ snd (getNextDiscoveryQuestion slots profile) <> q2)
  /\ (forall (slots : Slots.t) (i j : nat) (q1 q2 : QuestionType),
        priority !! i = Some q1 -> priority !! j = Some q2 -> (i < j)%nat ->
        missing slots q1 = true -> missing slots q2 = true ->
        (forall q, q <> q1 -> q <> q2 -> missing slots q = false) ->
        snd (getNextDiscoveryQuestion slots profile) = q1)
  /\ snd (getNextDiscoveryQuestion sampleBudgetOnly profile) = QArea.
Proof.
  assert (forall (slots : Slots.t) (i j : nat) (q1 q2 : QuestionType),
             priority !! i = Some q1 -> priority !! j = Some q2 ->
             (i < j)%nat ->
             missing slots q1 = true -> missing slots q2 = true ->
             exists q,
               List.find (missing slots) priority = Some q
               /\ snd (getNextDiscoveryQuestion slots profile) = q
               /\ fst (getNextDiscoveryQuestion slots profile) <> EmptyString
               /\ q <> q2) as Hfirst.
  { intros slots i j q1 q2 Hi Hj Hij H1 H2.
    pose proof (asked_is_first_missing slots profile) as Hasked.
    destruct (List.find (missing slots) priority) as [q |] eqn:Hf.
    - destruct Hasked as [Hq Hne]. exists q. repeat split; try assumption.
      exact (find_not_later _ _ _ _ _ _ _ priority_NoDup Hi Hj Hij H1 Hf).
    - assert (In q1 priority) as Hin
          by (apply list_elem_of_In, list_elem_of_lookup; eauto).
      pose proof (find_none _ _ Hf q1 Hin). congruence. }
  split; [| split; [| split]].
  - intros slots earlier later q Hsplit Hearlier Hq.
    pose proof (asked_is_first_missing slots profile) as Hasked.
    rewrite Hsplit, (find_first _ _ _ _ Hearlier Hq) in Hasked. exact Hasked.
  - intros slots i j q1 q2 Hi Hj Hij H1 H2.
    destruct (Hfirst slots i j q1 q2 Hi Hj Hij H1 H2)
      as (q & _ & Hq & Hne & Hq2).
    split; [exact Hne | now rewrite Hq].
  - intros slots i j q1 q2 Hi Hj Hij H1 H2 Hothers.
    destruct (Hfirst slots i j q1 q2 Hi Hj Hij H1 H2)
      as (q & Hf & Hq & _ & Hq2).
    rewrite Hq. apply find_some in Hf. destruct Hf as [_ Hmissing].
    assert ({q = q1} + {q <> q1}) as [E | N] by decide equality;
      [exact E |].
    rewrite (Hothers q N Hq2) in Hmissing. discriminate.
  - reflexivity.
Qed.

(** C1, as the code has it. When [canRecommend] holds, the discovery
    policy never asks for area, party size or budget; it has no question
    left exactly when the meal time is also set, cuisines are present or a
    vibe is set, and dietary is present; otherwise it still asks for meal
    time, cuisine or dietary. *)
Theorem complete_slots_may_still_be_asked
  (slots : Slots.t) (profile : Profile.t) :
  canRecommend slots profile = true ->
  (fst (getNextDiscoveryQuestion slots profile) = EmptyString
   <-> missing slots QMealTime = false
       /\ missing slots QCuisine = false
       /\ missing slots QDietary = false)
  /\ (fst (getNextDiscoveryQuestion slots profile) <> EmptyString ->
      snd (getNextDiscoveryQuestion slots profile) = QMealTime
      \/ snd (getNextDiscoveryQuestion slots profile) = QCuisine
      \/ snd (getNextDiscoveryQuestion slots profile) = QDietary).
Proof.
  unfold canRecommend, getNextDiscoveryQuestion, missing.
  destruct (JS.truthyStr (Slots.area slots)); simpl; [| discriminate].
  destruct (JS.truthyNum (Slots.partySize slots)); simpl; [| discriminate].
  destruct (JS.truthyObj (Slots.budget slots)); simpl; [| discriminate].
  intros _.
  destruct (JS.truthyObj (Slots.mealTime slots)),
    (JS.truthyObj (Slots.cravingCuisines slots)),
    (JS.truthyObj (Slots.vibe slots)),
    (JS.truthyObj (Slots.dietary slots)); simpl;
    (split; [split; [try discriminate; tauto | intros (? & ? & ?); try discriminate; reflexivity] | tauto]).
Qed.

(** *** Scoring *)

Lemma get_find (m : Counters.t) (k : string) :
  Counters.get m k
  = snd <$> List.find (fun entry => String.eqb (fst entry) k) m.
Proof.
  induction m as [| [k' v] m IH]; cbn [Counters.get List.find fst];
    [reflexivity |].
  destruct (String.eqb k' k); [reflexivity | exact IH].
Qed.

(** Under a plain name the lookup of [scoreRestaurant] finds the
    like-count. *)
Lemma likeScore64_plain (m : Counters.t) (k : string) :
  plainName m k -> likeScore64 m k = Double.ofZ (likeCount m k).
Proof.
  unfold plainName, likeScore64, likeCount. rewrite get_find.
  destruct (List.find _ m) as [entry |]; cbn [fmap option_fmap option_map];
    [reflexivity |].
  intros [[v Hv] | Hplain]; [discriminate |].
  destruct (JS.arrayIncludes inheritedNames k) eqn:E; [| reflexivity].
  apply arrayIncludes_In in E. contradiction.
Qed.

Lemma vibeName_plain (m : Counters.t) (v : Vibe) : plainName m (vibeName v).
Proof.
  right. destruct v; cbn; intuition discriminate.
Qed.

Lemma vibeMatch_mapsTo (restaurant : Restaurant.t) (v : Vibe) :
  vibeMatch restaurant v
  = existsb (fun tag => mapsTo tag v) (Restaurant.vibe restaurant).
Proof.
  unfold vibeMatch.
  induction (Restaurant.vibe restaurant) as [| tag tags IH];
    [reflexivity |].
  cbn [existsb]. rewrite IH. f_equal.
  destruct v; reflexivity.
Qed.

Lemma price_sameTier (price : Price) (budget : Budget) :
  Price_eqb price (mapBudgetToPrice budget) = sameTier price budget.
Proof. destruct price, budget; reflexivity. Qed.

Lemma fold_add_notNegZero (l : list float) (s : float) :
  notNegZero s -> notNegZero (fold_left PrimFloat.add l s).
Proof.
  revert s. induction l as [| x l IH]; intros s Hs; [exact Hs |].
  apply IH, add_notNegZero, Hs.
Qed.

Lemma fold_likes (f : string -> float) (g : string -> float)
  (cs : list string) (s : float) :
  Forall (fun c => f c = g c) cs ->
  fold_left (fun score c => (score + f c * 0.5)%float) cs s
  = fold_left PrimFloat.add (List.map (fun c => (0.5 * g c)%float) cs) s.
Proof.
  intros H. revert s. induction H as [| c cs Hc _ IH]; intros s;
    [reflexivity |].
  cbn [fold_left List.map]. rewrite IH, Hc, (mul_comm (g c)). reflexivity.
Qed.

(** C7, as the code has it. [scoreRestaurant] returns the sum of the
    specification accumulated in double precision, in the order of the
    specification: three times the number of requested cuisines matching
    a catalog cuisine (either containing the other), 2 for a vibe tag of
    the requested category, 1 for the price of the budget set, the number
    of requested dietary tags found, 0.5 times the like-count of each
    requested cuisine in turn and of the requested vibe, and 0.5 times the
    rating. This holds when no requested cuisine is a name the profile's
    counters inherit a member under without owning a count. *)
Theorem score_is_additive_sum
  (restaurant : Restaurant.t) (slots : Slots.t) (profile : Profile.t) :
  Forall (plainName (Profile.cuisinesLiked profile))
    (requestedCuisines slots) ->
  scoreRestaurant64 restaurant slots profile
  = scoreBySpec64 restaurant slots profile.
Proof.
  intros Hplain.
  unfold scoreBySpec64, contributions64.
  cbn [app fold_left]. rewrite !fold_left_app. cbn [fold_left].
  unfold scoreRestaurant64.
  (* the matching cuisines *)
  set (s1 := (0 + 3 * Double.ofNat (length (matchingCuisines restaurant slots)))%float).
  assert (match nonEmpty (Slots.cravingCuisines slots) with
          | Some cs =>
              (0 + Double.ofNat (length (cuisineMatches restaurant cs)) * 3)%float
          | None => 0%float
          end = s1) as ->.
  { unfold s1, matchingCuisines, requestedCuisines.
    destruct (Slots.cravingCuisines slots) as [[| c cs] |];
      cbn [nonEmpty default from_option id]; try reflexivity.
    rewrite mul_comm. reflexivity. }
  assert (notNegZero s1) as H1 by apply add_notNegZero, notNegZero_zero.
  (* the vibe *)
  set (s2 := (s1 + (if vibeHit restaurant slots then 2 else 0))%float).
  assert (match Slots.vibe slots with
          | Some v => if vibeMatch restaurant v then (s1 + 2)%float else s1
          | None => s1
          end = s2) as ->.
  { unfold s2, vibeHit. destruct (Slots.vibe slots) as [v |];
      [rewrite vibeMatch_mapsTo; destruct (existsb _ _) |];
      rewrite ?add_zero_r by exact H1; reflexivity. }
  assert (notNegZero s2) as H2 by apply add_notNegZero, H1.
  (* the budget *)
  set (s3 := (s2 + (if budgetHit restaurant slots then 1 else 0))%float).
  assert (match Slots.budget slots with
          | Some budget =>
              if Price_eqb (Restaurant.price restaurant)
                   (mapBudgetToPrice budget)
              then (s2 + 1)%float else s2
          | None => s2
          end = s3) as ->.
  { unfold s3, budgetHit. destruct (Slots.budget slots) as [b |];
      [rewrite price_sameTier; destruct (sameTier _ _) |];
      rewrite ?add_zero_r by exact H2; reflexivity. }
  assert (notNegZero s3) as H3 by apply add_notNegZero, H2.
  (* the dietary tags *)
  set (s4 := (s3 + Double.ofNat (length (matchingDietary restaurant slots)))%float).
  assert (match nonEmpty (Slots.dietary slots) with
          | Some ds =>
              (s3 + Double.ofNat (length (dietaryMatches restaurant ds)))%float
          | None => s3
          end = s4) as ->.
  { unfold s4, matchingDietary.
    destruct (Slots.dietary slots) as [[| d ds] |];
      cbn [nonEmpty default from_option id List.filter length];
      try reflexivity;
      change (Double.ofNat 0) with 0%float;
      rewrite add_zero_r by exact H3; reflexivity. }
  assert (notNegZero s4) as H4 by apply add_notNegZero, H3.
  (* the likes of the requested cuisines *)
  set (s5 := fold_left PrimFloat.add
               (List.map
                  (fun c =>
                     (0.5 * Double.ofZ
                              (likeCount (Profile.cuisinesLiked profile) c))%float)
                  (requestedCuisines slots))
               s4).
  assert (match Slots.cravingCuisines slots with
          | Some cs =>
              fold_left
                (fun score cuisine =>
                   (score
                    + likeScore64 (Profile.cuisinesLiked profile) cuisine
                      * 0.5)%float)
                cs s4
          | None => s4
          end = s5) as ->.
  { unfold s5. unfold requestedCuisines in *.
    destruct (Slots.cravingCuisines slots) as [cs |];
      cbn [default from_option id] in *; [| reflexivity].
    apply fold_likes.
    eapply List.Forall_impl; [| exact Hplain].
    intros c Hc. now apply likeScore64_plain. }
  assert (notNegZero s5) as H5 by apply fold_add_notNegZero, H4.
  (* the likes of the requested vibe *)
  destruct (Slots.vibe slots) as [v |].
  - cbv zeta. rewrite likeScore64_plain by apply vibeName_plain.
    rewrite (mul_comm (Double.ofZ _)), (mul_comm (Double.ofQ _)).
    reflexivity.
  - rewrite add_zero_r by exact H5.
    rewrite (mul_comm (Double.ofQ _)). reflexivity.
Qed.

(** *** Recommendations are never empty *)

Lemma sort_not_nil {A : Type} (c : A -> A -> Q) (l : list A) :
  l <> [] -> JS.sort c l <> [].
Proof.
  intros Hl E. apply Hl.
  apply Permutation_nil. rewrite <- E. apply sort_Permutation.
Qed.

Lemma sorted_head_is_greatest {A : Type} (key : A -> Q) (x y : A)
  (l : list A) :
  StronglySorted (descending key) (x :: l) -> In y (x :: l) ->
  (key y <= key x)%Q.
Proof.
  intros Hs Hy. inversion Hs as [| ? ? _ Hall]; subst.
  destruct Hy as [<- | Hy]; [apply Qle_refl |].
  rewrite List.Forall_forall in Hall. exact (Hall y Hy).
Qed.

Lemma scoreAll_restaurants (slots : Slots.t) (profile : Profile.t)
  (rs : list Restaurant.t) :
  List.map Scored.restaurant (scoreAll slots profile rs) = rs.
Proof.
  unfold scoreAll. rewrite List.map_map. simpl. apply List.map_id.
Qed.

Lemma scoreAll_score (slots : Slots.t) (profile : Profile.t)
  (rs : list Restaurant.t) (item : Scored.t) :
  In item (scoreAll slots profile rs) ->
  Scored.score item = scoreRestaurant (Scored.restaurant item) slots profile.
Proof.
  unfold scoreAll. rewrite in_map_iff. intros (r & <- & _). reflexivity.
Qed.

Lemma diversify_restaurants (scored : list Scored.t)
  (previousTopPickIds : option (list string)) :
  Permutation
    (List.map Scored.restaurant
       (diversifyRecommendations scored previousTopPickIds))
    (List.map Scored.restaurant scored).
Proof.
  unfold diversifyRecommendations.
  destruct (nonEmpty previousTopPickIds) as [ids |]; [| reflexivity].
  rewrite (sort_Permutation byScoreDesc), List.map_map.
  erewrite List.map_ext; [reflexivity |].
  intros item. unfold demote.
  now destruct (JS.arrayIncludes ids _).
Qed.

Lemma filter_incl {A : Type} (f : A -> bool) (l : list A) :
  incl (List.filter f l) l.
Proof. intros x Hx. apply filter_In in Hx. tauto. Qed.

Lemma filterRestaurants_incl (slots : Slots.t) (profile : Profile.t) :
  incl (filterRestaurants slots profile) RESTAURANTS.
Proof.
  unfold filterRestaurants.
  repeat match goal with
         | |- incl (match ?o with _ => _ end) _ => destruct o
         | |- incl (if ?c then _ else _) _ => destruct c
         | |- incl (List.filter _ _) _ =>
             eapply incl_tran; [apply filter_incl |]
         end;
    apply incl_refl.
Qed.

Lemma recommend_fallback :
  RESTAURANTS <> [] ->
  forall slots profile prev,
    filterRestaurants slots profile = [] ->
    exists rec,
      recommendRestaurants slots profile prev = Some rec
      /\ In (RestaurantRecommendation.restaurant (Recommended.topPick rec))
            RESTAURANTS
      /\ (forall r, In r RESTAURANTS ->
            (scoreRestaurant r slots profile
             <= scoreRestaurant
                  (RestaurantRecommendation.restaurant
                     (Recommended.topPick rec))
                  slots profile)%Q)
      /\ Recommended.alternatives rec = [].
Proof.
  intros Hcatalog slots profile prev Hnone.
  unfold recommendRestaurants. rewrite Hnone.
  pose proof (sort_Permutation byScoreDesc
                (scoreAll slots profile RESTAURANTS)) as Hperm.
  pose proof (sort_sorted Scored.score
                (scoreAll slots profile RESTAURANTS)) as Hsorted.
  change (comparingDesc Scored.score) with byScoreDesc in Hsorted.
  destruct (JS.sort byScoreDesc (scoreAll slots profile RESTAURANTS))
    as [| top rest] eqn:Es.
  { exfalso. apply Permutation_nil in Hperm.
    apply (f_equal (List.map Scored.restaurant)) in Hperm.
    rewrite scoreAll_restaurants in Hperm. now apply Hcatalog. }
  eexists. split; [reflexivity |]. simpl.
  assert (forall item, In item (top :: rest) ->
             In item (scoreAll slots profile RESTAURANTS)) as Hin.
  { intros item Hitem. eapply Permutation_in; eauto. }
  repeat split.
  - rewrite <- (scoreAll_restaurants slots profile RESTAURANTS).
    apply in_map, Hin. now left.
  - intros r Hr.
    rewrite <- (scoreAll_score slots profile RESTAURANTS top)
      by (apply Hin; now left).
    change (scoreRestaurant r slots profile)
      with (Scored.score (Scored.mk r (scoreRestaurant r slots profile))).
    apply (sorted_head_is_greatest Scored.score _ _ rest Hsorted).
    eapply Permutation_in; [symmetry; exact Hperm |].
    unfold scoreAll.
    exact (in_map (fun r0 => Scored.mk r0 (scoreRestaurant r0 slots profile))
             _ _ Hr).
Qed.

Lemma recommendRestaurants_returns :
  RESTAURANTS <> [] ->
  forall slots profile prev,
    exists rec,
      recommendRestaurants slots profile prev = Some rec
      /\ In (RestaurantRecommendation.restaurant (Recommended.topPick rec))
            RESTAURANTS.
Proof.
  intros Hcatalog slots profile prev.
    destruct (filterRestaurants slots profile) as [| r0 filtered] eqn:Ef.
    { destruct (recommend_fallback Hcatalog slots profile prev Ef) as (rec & H1 & H2 & _).
      eauto. }
    unfold recommendRestaurants. rewrite Ef.
    assert (Permutation
              (List.map Scored.restaurant
                 (diversifyRecommendations
                    (JS.sort byScoreDesc
                       (scoreAll slots profile (r0 :: filtered)))
                    prev))
              (r0 :: filtered)) as Hperm.
    { etransitivity; [apply diversify_restaurants |].
      etransitivity; [apply Permutation_map, sort_Permutation |].
      now rewrite scoreAll_restaurants. }
    destruct (diversifyRecommendations _ prev) as [| top rest].
    { simpl in Hperm. apply Permutation_nil in Hperm. discriminate. }
    eexists. split; [reflexivity |]. simpl.
    apply (filterRestaurants_incl slots profile). rewrite Ef.
    eapply Permutation_in; [exact Hperm |]. now left.
Qed.


(** *** The controller *)

(** A text whose intent is neither [reset] nor [profile] reaches the
    state machine. *)
Lemma processMessage_dispatch (gpt : Interpreter.t) (userText : string)
  (context : ConversationContext.t) (profile : Profile.t) (st : Storage.t) :
  Parsed.intent (parseUserMessage userText) <> Reset ->
  Parsed.intent (parseUserMessage userText) <> ProfileCommand ->
  processMessage gpt userText context profile st
  = stateMachine gpt userText (parseUserMessage userText)
      (Storage.getHistory st) context profile st.
Proof.
  unfold processMessage, parseUserMessage.
  destruct (String.eqb _ "reset" || JS.startsWith _ "reset "); simpl;
    [congruence |].
  destruct (String.eqb _ "profile" || JS.startsWith _ "profile "); simpl;
    [congruence |].
  reflexivity.
Qed.

Lemma recommendNow_returns (newContext : ConversationContext.t)
  (profile : Profile.t) :
  RESTAURANTS <> [] ->
  exists c response,
    recommendNow newContext profile = Some (c, response)
    /\ ConversationContext.slots c = ConversationContext.slots newContext
    /\ ConversationContext.state c = RECOMMEND.
Proof.
  intros Hcatalog. unfold recommendNow.
  destruct (recommendRestaurants_returns Hcatalog
              (ConversationContext.slots newContext) profile
              (previousIdsOf newContext)) as (rec & -> & _).
  simpl. eexists _, _. split; [reflexivity |]. split; reflexivity.
Qed.

Lemma spread_merges (previous extraction : Slots.t) :
  mergedSlot Slots.mealTime previous extraction
    (Slots.spread previous extraction)
  /\ mergedSlot Slots.area previous extraction
       (Slots.spread previous extraction)
  /\ mergedSlot Slots.partySize previous extraction
       (Slots.spread previous extraction)
  /\ mergedSlot Slots.budget previous extraction
       (Slots.spread previous extraction)
  /\ mergedSlot Slots.cravingCuisines previous extraction
       (Slots.spread previous extraction)
  /\ mergedSlot Slots.vibe previous extraction
       (Slots.spread previous extraction)
  /\ mergedSlot Slots.dietary previous extraction
       (Slots.spread previous extraction)
  /\ mergedSlot Slots.avoid previous extraction
       (Slots.spread previous extraction).
Proof.
  unfold mergedSlot, Slots.spread, Slots.over; simpl.
  repeat split; intros; subst;
    repeat match goal with
           | H : ?x = _ |- context [?x] => rewrite H
           end; reflexivity.
Qed.

(** C3, as the code has it. In the [WELCOME] branch, and in the
    [DISCOVERY] branch whenever it extracts, the slots after the turn are
    the spread of the extraction over the previous slots: a slot the
    extraction carries takes the extracted value, also when it was set
    before, and a slot the extraction does not carry keeps its previous
    value. *)
Theorem extraction_takes_precedence
  (gpt : Interpreter.t) (userText : string)
  (context : ConversationContext.t) (profile : Profile.t) (st : Storage.t) :
  RESTAURANTS <> [] ->
  Parsed.intent (parseUserMessage userText) <> Reset ->
  Parsed.intent (parseUserMessage userText) <> ProfileCommand ->
  ConversationContext.state context = WELCOME
  \/ (ConversationContext.state context = DISCOVERY
      /\ canRecommend (ConversationContext.slots context) profile = false) ->
  let previous := ConversationContext.slots context in
  let extraction :=
    match ConversationContext.state context with
    | WELCOME => Interpreter.extractSlots gpt userText previous None None
    | _ =>
        Interpreter.extractSlots gpt userText previous
          (ConversationContext.lastQuestion context)
          (ConversationContext.lastQuestionType context)
    end in
  exists turn,
    Outcome.turn (processMessage gpt userText context profile st) = Some turn
    /\ ConversationContext.slots (Turn.context turn)
       = Slots.spread previous extraction
    /\ mergedSlot Slots.mealTime previous extraction
         (ConversationContext.slots (Turn.context turn))
    /\ mergedSlot Slots.area previous extraction
         (ConversationContext.slots (Turn.context turn))
    /\ mergedSlot Slots.partySize previous extraction
         (ConversationContext.slots (Turn.context turn))
    /\ mergedSlot Slots.budget previous extraction
         (ConversationContext.slots (Turn.context turn))
    /\ mergedSlot Slots.cravingCuisines previous extraction
         (ConversationContext.slots (Turn.context turn))
    /\ mergedSlot Slots.vibe previous extraction
         (ConversationContext.slots (Turn.context turn))
    /\ mergedSlot Slots.dietary previous extraction
         (ConversationContext.slots (Turn.context turn))
    /\ mergedSlot Slots.avoid previous extraction
         (ConversationContext.slots (Turn.context turn)).
Proof.
  intros Hcatalog Hreset Hprofile Hstate previous extraction.
  rewrite (processMessage_dispatch _ _ _ _ _ Hreset Hprofile).
  assert (exists c response,
             (onWelcome gpt userText context profile = Some (c, response)
              /\ ConversationContext.state context = WELCOME
              \/ onDiscovery gpt userText context profile = Some (c, response)
                 /\ ConversationContext.state context = DISCOVERY)
             /\ ConversationContext.slots c = Slots.spread previous extraction)
    as (c & response & Hrun & Hslots).
  { subst previous extraction.
    destruct Hstate as [Hw | [Hd Hnot]].
    - rewrite Hw. unfold onWelcome.
      set (merged := ConversationContext.set_slots _ _).
      destruct (canRecommend (ConversationContext.slots merged) profile).
      + destruct (recommendNow_returns merged profile Hcatalog)
          as (c & response & E & Hs & _).
        exists c, response. rewrite E, Hs. split; [now left | reflexivity].
      + eexists _, _. split; [left; split; reflexivity |].
        reflexivity.
    - rewrite Hd. unfold onDiscovery. rewrite Hnot.
      set (merged := ConversationContext.set_slots _ _).
      destruct (canRecommend (ConversationContext.slots merged) profile).
      + destruct (recommendNow_returns merged profile Hcatalog)
          as (c & response & E & Hs & _).
        exists c, response. rewrite E, Hs. split; [now right | reflexivity].
      + eexists _, _. split; [right; split; reflexivity |].
        reflexivity. }
  exists (Turn.mk c response
            (Storage.getHistory st
               ++ [Message.mk User userText; Message.mk Assistant response])).
  split.
  - unfold stateMachine.
    destruct Hrun as [[E Hs] | [E Hs]]; rewrite Hs, E; reflexivity.
  - simpl. rewrite Hslots. split; [reflexivity |]. apply spread_merges.
Qed.




(** *** The profile *)














(** *** Walk-in-only venues *)

(** The [RECOMMEND] branch opens a booking draft for whatever restaurant
    the option maps to; it does not read [bookingAvailable]. *)
Lemma booking_ignores_availability
  (gpt : Interpreter.t) (userText : string)
  (context : ConversationContext.t) (profile : Profile.t) (st : Storage.t)
  (n : OptionNumber) (selected : Restaurant.t) :
  ConversationContext.state context = RECOMMEND ->
  parseUserMessage userText = Parsed.mk BookOption (Some n) ->
  optionOf context n = Some selected ->
  exists turn,
    Outcome.turn (processMessage gpt userText context profile st) = Some turn
    /\ ConversationContext.state (Turn.context turn) = BOOKING_COLLECT
    /\ ConversationContext.bookingDraft (Turn.context turn)
       = Some (BookingDraft.mk (Some (Restaurant.id selected)) None None
                 (Slots.partySize (ConversationContext.slots context)) None)
    /\ Turn.response turn
       = "What date would you like to book for? You can say things like 'tomorrow', 'Friday', or a specific date like '2024-12-25'.".
Proof.
  intros Hs Hp Ho.
  rewrite processMessage_dispatch by (rewrite Hp; discriminate).
  unfold stateMachine, onRecommend. rewrite Hs, Hp. simpl. rewrite Ho.
  eexists. repeat split.
Qed.

(** The pick branch of the other flow does read it: a walk-in-only pick
    goes back to collecting, selects nothing and shows the discount
    code. *)
Lemma onPick_walk_in
  (messages : list Message.t) (userText lower : string)
  (activeRequest : ActiveRequest.t) (st : Storage.t)
  (n : OptionNumber) (selected : Restaurant.t) (code : string) :
  pickMatch lower = Some n ->
  mjoin ((TopRestaurants.top (getTopRestaurants activeRequest)
            :: List.map Some
                 (TopRestaurants.alternatives (getTopRestaurants activeRequest)))
           !! optionIndex n) = Some selected ->
  Restaurant.bookingAvailable selected = false ->
  Restaurant.discountCode selected = Some code ->
  code <> EmptyString ->
  exists st',
    onPick messages userText lower activeRequest st
    = Some (Answered
              ("You can just head over—no booking needed."
                 +:+ " Present this code at the door for a discount: **"
                 +:+ code +:+ "**")
              (messages
                 ++ [Message.mk User userText;
                     Message.mk Assistant
                       ("You can just head over—no booking needed."
                          +:+ " Present this code at the door for a discount: **"
                          +:+ code +:+ "**")])
              st')
    /\ Storage.mode st' = Some Collecting
    /\ Storage.selectedRestaurantId st' = None.
Proof.
  intros Hpick Hsel Hwalk Hcode Hne.
  unfold onPick. rewrite Hpick. simpl. rewrite Hsel. simpl.
  rewrite Hwalk, Hcode. simpl.
  apply String.eqb_neq in Hne. rewrite Hne. simpl.
  eexists. repeat split.
Qed.

(** *** What the filters and the rankings guarantee *)

Lemma Price_eqb_eq (a b : Price) : Price_eqb a b = true <-> a = b.
Proof. destruct a, b; simpl; split; intros H; congruence. Qed.

Lemma existsb_none {A : Type} (f : A -> bool) (l : list A) (x : A) :
  existsb f l = false -> In x l -> f x = false.
Proof.
  intros Hex Hin. destruct (f x) eqn:Hf; [| reflexivity].
  assert (existsb f l = true) as Hyes by (apply existsb_exists; eauto).
  congruence.
Qed.

Lemma In_filter_when {A B : Type} (o : option B) (f : B -> A -> bool)
  (l : list A) (r : A) :
  In r (match o with Some x => List.filter (f x) l | None => l end) ->
  In r l /\ (forall x, o = Some x -> f x r = true).
Proof.
  destruct o as [x |]; intros Hin.
  - apply filter_In in Hin. destruct Hin as [Hl Hf].
    split; [exact Hl |]. intros y [= <-]. exact Hf.
  - split; [exact Hin |]. intros y Hy. discriminate.
Qed.


(** X1. Every restaurant [filterRestaurants] lets through is a catalog
    entry that meets each filter the slots switch on: its area contains
    the requested area or is contained in it, its price is the tier of
    the requested budget, it serves at least one of the requested
    diets, none of its cuisines contains an avoided cuisine, and none of
    its vibe tags or highlights contains an avoided tag. *)
Theorem filtered_meet_every_filter
  (slots : Slots.t) (profile : Profile.t) (r : Restaurant.t) :
  In r (filterRestaurants slots profile) ->
  In r RESTAURANTS
  /\ (forall area,
        Slots.area slots = Some area -> area <> EmptyString ->
        lowerIncludes (Restaurant.area r) area = true
        \/ lowerIncludes area (Restaurant.area r) = true)
  /\ (forall budget,
        Slots.budget slots = Some budget ->
        Restaurant.price r = mapBudgetToPrice budget)
  /\ (forall dietary,
        Slots.dietary slots = Some dietary -> dietary <> [] ->
        exists req d,
          In req dietary /\ In d (Restaurant.dietary r)
          /\ lowerIncludes d req = true)
  /\ (forall avoid avoided avoidCuisine c,
        Slots.avoid slots = Some avoid ->
        Avoid.cuisines avoid = Some avoided ->
        In avoidCuisine avoided -> In c (Restaurant.cuisines r) ->
        lowerIncludes c avoidCuisine = false)
  /\ (forall avoid avoided avoidTag t,
        Slots.avoid slots = Some avoid ->
        Avoid.tags avoid = Some avoided ->
        In avoidTag avoided ->
        In t (Restaurant.vibe r) \/ In t (Restaurant.highlights r) ->
        lowerIncludes t avoidTag = false).
Proof.
  unfold filterRestaurants. cbv zeta. intros Hin.
  apply In_filter_when in Hin. destruct Hin as [Hin Htags].
  apply In_filter_when in Hin. destruct Hin as [Hin Hcuisines].
  apply In_filter_when in Hin. destruct Hin as [Hin Hdietary].
  apply In_filter_when in Hin. destruct Hin as [Hin Hbudget].
  assert (In r RESTAURANTS
          /\ (forall area,
                Slots.area slots = Some area -> area <> EmptyString ->
                lowerIncludes (Restaurant.area r) area = true
                \/ lowerIncludes area (Restaurant.area r) = true))
    as [Hcatalog Harea].
  { destruct (Slots.area slots) as [area |].
    - destruct (JS.truthyStr (Some area)) eqn:Htruthy.
      + apply filter_In in Hin. destruct Hin as [Hl Hf].
        split; [exact Hl |]. intros a [= <-] _.
        apply orb_true_iff in Hf. exact Hf.
      + split; [exact Hin |]. intros a [= <-] Hne.
        simpl in Htruthy. apply negb_false_iff in Htruthy.
        apply String.eqb_eq in Htruthy. contradiction.
    - split; [exact Hin |]. intros a Ha. discriminate. }
  split; [exact Hcatalog |]. split; [exact Harea |].
  split.
  { intros budget Hb. apply Price_eqb_eq. apply Hbudget. exact Hb. }
  split.
  { intros dietary Hd Hne.
    specialize (Hdietary dietary).
    rewrite Hd, (nonEmpty_cons dietary Hne) in Hdietary.
    specialize (Hdietary eq_refl).
    apply existsb_exists in Hdietary. destruct Hdietary as [req [Hreq Hsome]].
    apply existsb_exists in Hsome. destruct Hsome as [d [Hd' Hinc]].
    exists req, d. auto. }
  split.
  { intros avoid avoided avoidCuisine c Ha Hc HinA HinC.
    assert (avoided <> []) as Hne by (intros ->; inversion HinA).
    specialize (Hcuisines avoided).
    rewrite Ha in Hcuisines. simpl in Hcuisines.
    rewrite Hc, (nonEmpty_cons avoided Hne) in Hcuisines.
    specialize (Hcuisines eq_refl). apply negb_true_iff in Hcuisines.
    pose proof (existsb_none _ _ avoidCuisine Hcuisines HinA) as Hnone.
    exact (existsb_none _ _ c Hnone HinC). }
  { intros avoid avoided avoidTag t Ha Ht HinA HinT.
    assert (avoided <> []) as Hne by (intros ->; inversion HinA).
    specialize (Htags avoided).
    rewrite Ha in Htags. simpl in Htags.
    rewrite Ht, (nonEmpty_cons avoided Hne) in Htags.
    specialize (Htags eq_refl). apply negb_true_iff in Htags.
    pose proof (existsb_none _ _ avoidTag Htags HinA) as Hnone.
    apply orb_false_iff in Hnone. destruct Hnone as [Hv Hh].
    destruct HinT as [HinT | HinT].
    - exact (existsb_none _ _ t Hv HinT).
    - exact (existsb_none _ _ t Hh HinT). }
Qed.

Lemma sorted_take {A : Type} (R : A -> A -> Prop) (n : nat) (l : list A) :
  StronglySorted R l -> StronglySorted R (take n l).
Proof.
  intros Hsorted. revert n.
  induction Hsorted as [| x l Hs IH Hall]; intros [| n]; simpl;
    try constructor.
  - apply IH.
  - apply Forall_take. exact Hall.
Qed.

(** X2. Whenever the filters leave something, the top pick and the
    alternatives of [recommendRestaurants] are the first three entries of
    one ranking of the filtered catalog: every recommended restaurant
    passed the filters, no filtered entry is recommended twice, there are
    at most two alternatives, and each recommendation carries the reasons
    [generateReasons] gives for its restaurant. *)
Theorem recommendations_head_a_ranking
  (slots : Slots.t) (profile : Profile.t)
  (previousTopPickIds : option (list string)) (rec : Recommended.t) :
  filterRestaurants slots profile <> [] ->
  recommendRestaurants slots profile previousTopPickIds = Some rec ->
  exists ranked : list Restaurant.t,
    Permutation ranked (filterRestaurants slots profile)
    /\ List.map RestaurantRecommendation.restaurant
         (Recommended.topPick rec :: Recommended.alternatives rec)
       = take 3 ranked
    /\ (length (Recommended.alternatives rec) <= 2)%nat
    /\ (forall item,
          In item (Recommended.topPick rec :: Recommended.alternatives rec) ->
          RestaurantRecommendation.reasons item
          = generateReasons (RestaurantRecommendation.restaurant item)
              slots profile).
Proof.
  intros Hne. unfold recommendRestaurants. cbv zeta.
  destruct (filterRestaurants slots profile) as [| r0 rs] eqn:Hf;
    [contradiction |].
  set (scored := JS.sort byScoreDesc (scoreAll slots profile (r0 :: rs))).
  pose proof (diversify_restaurants scored previousTopPickIds) as Hperm.
  destruct (diversifyRecommendations scored previousTopPickIds)
    as [| top rest] eqn:Hd; [discriminate |].
  intros [= <-].
  exists (List.map Scored.restaurant (top :: rest)).
  split.
  { etransitivity; [exact Hperm |].
    etransitivity;
      [apply Permutation_map; apply sort_Permutation |].
    rewrite scoreAll_restaurants. reflexivity. }
  split.
  { simpl. f_equal. rewrite List.map_map. simpl.
    change (take 2 (List.map Scored.restaurant rest))
      with (take 2 (Scored.restaurant <$> rest)).
    rewrite <- fmap_take. reflexivity. }
  split.
  { simpl. rewrite length_map, length_take. lia. }
  { simpl. intros item [<- | Hin]; [reflexivity |].
    apply in_map_iff in Hin. destruct Hin as [x [<- _]]. reflexivity. }
Qed.

Lemma sorted64_map_key {A B : Type} (g : A -> B) (keyA : A -> float)
  (keyB : B -> float) (l : list A) :
  (forall x, In x l -> keyA x = keyB (g x)) ->
  StronglySorted (descending64 keyA) l ->
  StronglySorted (descending64 keyB) (List.map g l).
Proof.
  intros Hkey Hsorted. induction Hsorted as [| x l Hs IH Hall]; simpl.
  - constructor.
  - constructor.
    + apply IH. intros y Hy. apply Hkey. right. exact Hy.
    + apply List.Forall_forall. intros y Hy.
      apply in_map_iff in Hy. destruct Hy as [z [<- Hz]].
      rewrite List.Forall_forall in Hall. specialize (Hall z Hz).
      unfold descending64 in *.
      rewrite <- (Hkey x (or_introl eq_refl)).
      rewrite <- (Hkey z (or_intror Hz)). exact Hall.
Qed.

Lemma scoreAll64_score (slots : Slots.t) (profile : Profile.t)
  (rs : list Restaurant.t) (item : Scored64.t) :
  In item (scoreAll64 slots profile rs) ->
  Scored64.score item
  = scoreRestaurant64 (Scored64.restaurant item) slots profile.
Proof.
  unfold scoreAll64. rewrite in_map_iff. intros (r & <- & _). reflexivity.
Qed.

(** X3. On a first recommendation (no previous top picks to demote), and
    when no score of the filtered catalog is [NaN], the top pick is a
    best-scoring entry of the filtered catalog, and the alternatives
    follow in descending score order. The scores are the doubles the
    engine computes. *)
Theorem first_recommendation_is_best
  (slots : Slots.t) (profile : Profile.t)
  (previousTopPickIds : option (list string)) (rec : Recommended.t) :
  nonEmpty previousTopPickIds = None ->
  filterRestaurants slots profile <> [] ->
  Forall
    (fun r => Double.isNaN (scoreRestaurant64 r slots profile) = false)
    (filterRestaurants slots profile) ->
  recommendRestaurants64 slots profile previousTopPickIds = Some rec ->
  (forall r,
      In r (filterRestaurants slots profile) ->
      (scoreRestaurant64 r slots profile
       <=? scoreRestaurant64
             (RestaurantRecommendation.restaurant (Recommended.topPick rec))
             slots profile)%float = true)
  /\ StronglySorted
       (descending64
          (fun item =>
             scoreRestaurant64 (RestaurantRecommendation.restaurant item)
               slots profile))
       (Recommended.topPick rec :: Recommended.alternatives rec).
Proof.
  intros Hprev Hne Hnan. unfold recommendRestaurants64. cbv zeta.
  destruct (filterRestaurants slots profile) as [| r0 rs] eqn:Hf;
    [contradiction |].
  unfold diversifyRecommendations64. rewrite Hprev.
  set (all := scoreAll64 slots profile (r0 :: rs)).
  assert (Forall (fun item => Double.isNaN (Scored64.score item) = false) all)
    as Hall_nan.
  { unfold all, scoreAll64. rewrite List.Forall_map. exact Hnan. }
  pose proof (sort64_sorted Scored64.score all Hall_nan) as Hsorted.
  change (comparingDesc64 Scored64.score) with byScoreDesc64 in Hsorted.
  pose proof (sort64_Permutation byScoreDesc64 all) as Hperm.
  assert (forall x, In x (Double.sort byScoreDesc64 all) ->
            Scored64.score x
            = scoreRestaurant64 (Scored64.restaurant x) slots profile)
    as Hscore.
  { intros x Hx. apply (scoreAll64_score slots profile (r0 :: rs)).
    apply (Permutation_in _ Hperm). exact Hx. }
  destruct (Double.sort byScoreDesc64 all) as [| top rest] eqn:Hs;
    [discriminate |].
  intros [= <-]. simpl.
  split.
  { intros r Hr.
    assert (In (Scored64.mk r (scoreRestaurant64 r slots profile))
              (top :: rest)) as Hin.
    { apply (Permutation_in _ (Permutation_sym Hperm)).
      unfold all, scoreAll64.
      apply (in_map
               (fun r => Scored64.mk r (scoreRestaurant64 r slots profile))).
      exact Hr. }
    rewrite <- (Hscore top (or_introl eq_refl)).
    destruct Hin as [E | Hin].
    - rewrite E. cbn [Scored64.score]. rewrite leb_rank.
      + apply Z.leb_refl.
      + rewrite List.Forall_forall in Hnan. now apply Hnan.
      + rewrite List.Forall_forall in Hnan. now apply Hnan.
    - inversion Hsorted as [| ? ? _ Hhead]; subst.
      rewrite List.Forall_forall in Hhead.
      exact (Hhead _ Hin). }
  { assert (StronglySorted
              (descending64
                 (fun item =>
                    scoreRestaurant64
                      (RestaurantRecommendation.restaurant item)
                      slots profile))
              (List.map (recommendationOf64 slots profile) (top :: rest)))
      as Hall.
    { apply (sorted64_map_key (recommendationOf64 slots profile)
               Scored64.score); [| exact Hsorted].
      intros x Hx. simpl. apply Hscore. exact Hx. }
    apply (sorted_take _ 3) in Hall. simpl in Hall.
    change (take 2 (List.map (recommendationOf64 slots profile) rest))
      with (take 2 (recommendationOf64 slots profile <$> rest)) in Hall.
    rewrite <- fmap_take in Hall. exact Hall. }
Qed.

(** X4. [generateReasons] gives at most three reasons, and the cut to
    three never drops a reason that comes from the request: the cuisine,
    vibe and budget reasons are there whenever their test passes; only
    the rating and the highlight can be cut. A restaurant with a
    highlight always has at least one reason. *)
Theorem reasons_keep_the_request
  (restaurant : Restaurant.t) (slots : Slots.t) (profile : Profile.t) :
  let reasons := generateReasons restaurant slots profile in
  (length reasons <= 3)%nat
  /\ (forall cs,
        Slots.cravingCuisines slots = Some cs ->
        cuisineMatches restaurant cs <> [] ->
        In ("great " +:+ JS.join " and " (cuisineMatches restaurant cs)
              +:+ " cuisine")
           reasons)
  /\ (forall v,
        Slots.vibe slots = Some v -> vibeMatch restaurant v = true ->
        In ("perfect " +:+ vibeName v +:+ " vibe") reasons)
  /\ (forall budget,
        Slots.budget slots = Some budget ->
        Restaurant.price restaurant = mapBudgetToPrice budget ->
        In ("matches your " +:+ budgetName budget +:+ " budget") reasons)
  /\ (Restaurant.highlights restaurant <> [] -> reasons <> []).
Proof.
  cbv zeta. unfold generateReasons. cbv zeta.
  split.
  { rewrite length_take. lia. }
  split.
  { intros cs Hcs Hmatch. rewrite Hcs.
    assert (cs <> []) as Hne.
    { intros ->. apply Hmatch. reflexivity. }
    rewrite (nonEmpty_cons cs Hne).
    destruct (cuisineMatches restaurant cs) as [| m ms] eqn:Hm;
      [contradiction |].
    destruct (Slots.vibe slots) as [v |]; [destruct (vibeMatch restaurant v) |];
      (destruct (Slots.budget slots) as [b |];
       [destruct (Price_eqb (Restaurant.price restaurant) (mapBudgetToPrice b)) |]);
      destruct (Qle_bool (9 # 2) (Restaurant.rating restaurant));
      destruct (Restaurant.highlights restaurant);
      cbn [app take]; left; reflexivity. }
  split.
  { intros v Hv Hmatch. rewrite Hv, Hmatch.
    destruct (nonEmpty (Slots.cravingCuisines slots)) as [cs |];
      [destruct (cuisineMatches restaurant cs) |];
      (destruct (Slots.budget slots) as [b |];
       [destruct (Price_eqb (Restaurant.price restaurant) (mapBudgetToPrice b)) |]);
      destruct (Qle_bool (9 # 2) (Restaurant.rating restaurant));
      destruct (Restaurant.highlights restaurant);
      cbn [app take]; auto using in_eq, in_cons. }
  split.
  { intros budget Hb Hprice. rewrite Hb.
    apply Price_eqb_eq in Hprice. rewrite Hprice.
    destruct (nonEmpty (Slots.cravingCuisines slots)) as [cs |];
      [destruct (cuisineMatches restaurant cs) |];
      (destruct (Slots.vibe slots) as [v |];
       [destruct (vibeMatch restaurant v) |]);
      destruct (Qle_bool (9 # 2) (Restaurant.rating restaurant));
      destruct (Restaurant.highlights restaurant);
      cbn [app take]; auto using in_eq, in_cons. }
  { intros Hh.
    destruct (Restaurant.highlights restaurant) as [| h hs];
      [contradiction |].
    destruct (nonEmpty (Slots.cravingCuisines slots)) as [cs |];
      [destruct (cuisineMatches restaurant cs) |];
      (destruct (Slots.vibe slots) as [v |];
       [destruct (vibeMatch restaurant v) |]);
      (destruct (Slots.budget slots) as [b |];
       [destruct (Price_eqb (Restaurant.price restaurant) (mapBudgetToPrice b)) |]);
      destruct (Qle_bool (9 # 2) (Restaurant.rating restaurant));
      cbn [app take]; discriminate. }
Qed.


(** *** Whole turns of the Slots flow *)

Lemma parse_reset_iff (userText : string) :
  Parsed.intent (parseUserMessage userText) = Reset
  <-> String.eqb (JS.trim (JS.toLowerCase userText)) "reset"
      || JS.startsWith (JS.trim (JS.toLowerCase userText)) "reset " = true.
Proof.
  unfold parseUserMessage. cbv zeta.
  destruct (String.eqb _ "reset" || JS.startsWith _ "reset ");
    [split; reflexivity |].
  split; [| discriminate].
  repeat match goal with
         | |- context [if ?b then _ else _] => destruct b
         | |- context [match ?x with _ => _ end] => destruct x
         end; simpl; discriminate.
Qed.

Lemma parse_profile_iff (userText : string) :
  Parsed.intent (parseUserMessage userText) = ProfileCommand
  <-> String.eqb (JS.trim (JS.toLowerCase userText)) "reset"
      || JS.startsWith (JS.trim (JS.toLowerCase userText)) "reset " = false
      /\ String.eqb (JS.trim (JS.toLowerCase userText)) "profile"
         || JS.startsWith (JS.trim (JS.toLowerCase userText)) "profile "
         = true.
Proof.
  unfold parseUserMessage. cbv zeta.
  destruct (String.eqb _ "reset" || JS.startsWith _ "reset ");
    [split; [discriminate | intros [? _]; discriminate] |].
  destruct (String.eqb _ "profile" || JS.startsWith _ "profile ");
    [split; [split; reflexivity | reflexivity] |].
  split; [| intros [_ ?]; discriminate].
  repeat match goal with
         | |- context [if ?b then _ else _] => destruct b
         | |- context [match ?x with _ => _ end] => destruct x
         end; simpl; discriminate.
Qed.



(** X6. [reset], in any letter case and with anything after it, starts
    over from every state, a booking in progress included: the turn
    resolves with state [DISCOVERY], empty slots, no booking draft, no
    recommendations and no pending question; the profile and the stored
    bookings are left as they are. *)
Theorem reset_starts_over (gpt : Interpreter.t) (userText : string)
  (context : ConversationContext.t) (profile : Profile.t) (st : Storage.t) :
  Parsed.intent (parseUserMessage userText) = Reset ->
  let outcome := processMessage gpt userText context profile st in
  exists turn,
    Outcome.turn outcome = Some turn
    /\ Turn.context turn
       = ConversationContext.mk DISCOVERY Slots.empty None None None None
    /\ Turn.response turn
       = "No problem! Let's start fresh. What are you in the mood for and what area are you thinking?"
    /\ Outcome.profile outcome = profile
    /\ Storage.profile (Outcome.storage outcome) = Storage.profile st
    /\ Storage.bookings (Outcome.storage outcome) = Storage.bookings st.
Proof.
  intros Hreset. apply parse_reset_iff in Hreset.
  cbv zeta. unfold processMessage. cbv zeta. rewrite Hreset.
  eexists. repeat split.
Qed.


(** X8. The stored bookings change on one path only: [confirm] in
    [BOOKING_CONFIRM] with a draft that has its date, time and party
    size. That turn appends exactly one booking, carrying the fields of
    the draft, whether or not the restaurant id is in the catalog. A
    [confirm] on an incomplete draft stores nothing and apologises. Either
    way the draft is dropped and the dialogue is back in [DISCOVERY] with
    the slots it had. *)
Theorem bookings_change_on_confirm_only
  (gpt : Interpreter.t) (userText : string)
  (context : ConversationContext.t) (profile : Profile.t) (st : Storage.t) :
  let parsed := parseUserMessage userText in
  let outcome := processMessage gpt userText context profile st in
  (~ (ConversationContext.state context = BOOKING_CONFIRM
      /\ Parsed.intent parsed = Confirm) ->
   Storage.bookings (Outcome.storage outcome) = Storage.bookings st)
  /\ (ConversationContext.state context = BOOKING_CONFIRM ->
      Parsed.intent parsed = Confirm ->
      exists turn,
        Outcome.turn outcome = Some turn
        /\ ConversationContext.state (Turn.context turn) = DISCOVERY
        /\ ConversationContext.bookingDraft (Turn.context turn) = None
        /\ ConversationContext.slots (Turn.context turn)
           = ConversationContext.slots context)
  /\ (forall draft date time partySize,
        ConversationContext.state context = BOOKING_CONFIRM ->
        Parsed.intent parsed = Confirm ->
        ConversationContext.bookingDraft context = Some draft ->
        BookingDraft.date draft = Some date ->
        BookingDraft.time draft = Some time ->
        BookingDraft.partySize draft = Some partySize ->
        date <> EmptyString -> time <> EmptyString -> partySize <> 0%Z ->
        Storage.bookings (Outcome.storage outcome)
        = Storage.bookings st
            ++ [Booking.mk (BookingDraft.restaurantId draft) date time
                  partySize (BookingDraft.notes draft)])
  /\ (ConversationContext.state context = BOOKING_CONFIRM ->
      Parsed.intent parsed = Confirm ->
      match ConversationContext.bookingDraft context with
      | Some draft =>
          JS.truthyStr (BookingDraft.date draft)
          && JS.truthyStr (BookingDraft.time draft)
          && JS.truthyNum (BookingDraft.partySize draft) = false
      | None => True
      end ->
      Storage.bookings (Outcome.storage outcome) = Storage.bookings st
      /\ exists turn,
           Outcome.turn outcome = Some turn
           /\ Turn.response turn
              = "I'm sorry, there seems to be some missing information. Let's try again.").
Proof.
  intros parsed outcome.
  assert (forall c, Parsed.intent parsed = Confirm ->
            processMessage gpt userText c profile st
            = stateMachine gpt userText parsed (Storage.getHistory st) c
                profile st) as Hdispatch.
  { intros c Hi. apply processMessage_dispatch; fold parsed; congruence. }
  split; [| split; [| split]].
  - intros Hnot. subst outcome. unfold processMessage. cbv zeta.
    destruct (String.eqb _ "reset" || JS.startsWith _ "reset ");
      [reflexivity |].
    destruct (String.eqb _ "profile" || JS.startsWith _ "profile ");
      [reflexivity |].
    fold parsed. unfold stateMachine.
    destruct (ConversationContext.state context) eqn:Hstate; cbv zeta.
    1: destruct (onWelcome gpt userText context profile) as [[? ?] |].
    3: destruct (onDiscovery gpt userText context profile) as [[? ?] |].
    5: destruct (onRecommend parsed context profile) as [[? ?] |].
    7: destruct (onBookingCollect gpt userText context) as [? ?].
    9: destruct (onRefine gpt userText context profile) as [? ?].
    1-7, 9: reflexivity.
    unfold onBookingConfirm.
    destruct (Parsed.intent parsed) eqn:Hi; try reflexivity.
    exfalso. apply Hnot. split; reflexivity.
  - intros Hs Hi. subst outcome. rewrite (Hdispatch context Hi).
    unfold stateMachine. rewrite Hs. unfold onBookingConfirm. rewrite Hi.
    cbv zeta.
    destruct (ConversationContext.bookingDraft context) as [draft |];
      [| eexists; repeat split].
    destruct (BookingDraft.date draft) as [date |];
      [| eexists; repeat split].
    destruct (BookingDraft.time draft) as [time |];
      [| eexists; repeat split].
    destruct (BookingDraft.partySize draft) as [partySize |];
      [| eexists; repeat split].
    destruct (JS.truthyStr (Some date) && JS.truthyStr (Some time)
              && JS.truthyNum (Some partySize));
      [| eexists; repeat split].
    cbn [Booking.restaurantId].
    destruct (findRestaurant (BookingDraft.restaurantId draft));
      eexists; repeat split.
  - intros draft date time partySize Hs Hi Hd Hdate Htime Hparty
      Hdne Htne Hpne.
    subst outcome. rewrite (Hdispatch context Hi).
    unfold stateMachine. rewrite Hs. unfold onBookingConfirm.
    rewrite Hi, Hd, Hdate, Htime, Hparty.
    assert (JS.truthyStr (Some date) && JS.truthyStr (Some time)
            && JS.truthyNum (Some partySize) = true) as ->.
    { simpl. rewrite !andb_true_iff, !negb_true_iff.
      repeat split;
        [apply String.eqb_neq | apply String.eqb_neq | apply Z.eqb_neq];
        assumption. }
    cbn [Booking.restaurantId].
    destruct (findRestaurant (BookingDraft.restaurantId draft));
      reflexivity.
  - intros Hs Hi Hdraft. subst outcome. rewrite (Hdispatch context Hi).
    unfold stateMachine. rewrite Hs. unfold onBookingConfirm. rewrite Hi.
    cbv zeta.
    destruct (ConversationContext.bookingDraft context) as [draft |];
      [| split; [reflexivity | eexists; split; reflexivity]].
    destruct (BookingDraft.date draft) as [date |];
      [| split; [reflexivity | eexists; split; reflexivity]].
    destruct (BookingDraft.time draft) as [time |];
      [| split; [reflexivity | eexists; split; reflexivity]].
    destruct (BookingDraft.partySize draft) as [partySize |];
      [| split; [reflexivity | eexists; split; reflexivity]].
    rewrite Hdraft. split; [reflexivity | eexists; split; reflexivity].
Qed.

(** *** The recommendations a context carries *)

Lemma recommend_alternatives_le (slots : Slots.t) (profile : Profile.t)
  (prev : option (list string)) (rec : Recommended.t) :
  recommendRestaurants slots profile prev = Some rec ->
  (length (Recommended.alternatives rec) <= 2)%nat.
Proof.
  unfold recommendRestaurants. cbv zeta.
  destruct (filterRestaurants slots profile).
  - destruct (JS.sort _ _); [discriminate |]. intros [= <-]. simpl. lia.
  - destruct (diversifyRecommendations _ _); [discriminate |].
    intros [= <-]. simpl. rewrite length_map, length_take. lia.
Qed.

Lemma sliceLast_snoc {A : Type} (l : list A) (x : A) :
  (length (JS.sliceLast 3 (l ++ [x])) <= 3)%nat
  /\ last (JS.sliceLast 3 (l ++ [x])) = Some x.
Proof.
  unfold JS.sliceLast. rewrite length_app. simpl.
  split.
  - rewrite length_drop, length_app. simpl. lia.
  - rewrite drop_app_le by lia. apply last_snoc.
Qed.

Lemma showRecommendations_numbered (c : ConversationContext.t)
  (rec : Recommended.t) (ids : list string) :
  (length (Recommended.alternatives rec) <= 2)%nat ->
  (length ids <= 3)%nat ->
  last ids
  = Some (Restaurant.id
            (RestaurantRecommendation.restaurant (Recommended.topPick rec))) ->
  wellNumbered (fst (showRecommendations c rec ids)).
Proof.
  intros Halt Hids Hlast recs. unfold showRecommendations. cbn.
  intros [= <-]. unfold numbered. cbn.
  repeat split; try assumption. exists ids. auto.
Qed.

Lemma recommendNow_numbered (c c' : ConversationContext.t)
  (profile : Profile.t) (response : string) :
  recommendNow c profile = Some (c', response) -> wellNumbered c'.
Proof.
  unfold recommendNow.
  destruct (recommendRestaurants _ profile _) as [rec |] eqn:Hrec;
    [| discriminate].
  cbn [mbind option_bind].
  pose proof (showRecommendations_numbered c rec
                [Restaurant.id
                   (RestaurantRecommendation.restaurant
                      (Recommended.topPick rec))]
                (recommend_alternatives_le _ _ _ _ Hrec)
                ltac:(simpl; lia) eq_refl) as Hshown.
  destruct (showRecommendations c rec _) as [c1 r1].
  intros [= <- <-]. exact Hshown.
Qed.

(** X9. The recommendations a context carries stay well numbered through
    every turn: option 1 is the top pick shown, options 2 and 3 are the
    alternatives in order, there are at most two alternatives, and the
    remembered top picks are at most three with the current top pick
    last. A fresh context carries none. *)
Theorem recommendations_stay_numbered
  (gpt : Interpreter.t) (userText : string)
  (context : ConversationContext.t) (profile : Profile.t) (st : Storage.t) :
  wellNumbered (initializeConversation profile st)
  /\ (wellNumbered context ->
      forall turn,
        Outcome.turn (processMessage gpt userText context profile st)
        = Some turn ->
        wellNumbered (Turn.context turn)).
Proof.
  split; [intros recs; discriminate |].
  intros Hwell turn. unfold processMessage. cbv zeta.
  destruct (String.eqb _ "reset" || JS.startsWith _ "reset ").
  { unfold finish. cbn. intros [= <-]. intros recs. discriminate. }
  destruct (String.eqb _ "profile" || JS.startsWith _ "profile ").
  { unfold finish. cbn. intros [= <-]. exact Hwell. }
  unfold stateMachine, finish.
  destruct (ConversationContext.state context); cbv zeta.
  - (* WELCOME *)
    unfold onWelcome. cbv zeta.
    match goal with
    | |- context [if ?b then _ else _] => destruct b
    end.
    + match goal with
      | |- context [recommendNow ?c profile] =>
          destruct (recommendNow c profile) as [[c' r'] |] eqn:Hnow
      end; [| discriminate].
      cbn. intros [= <-]. exact (recommendNow_numbered _ _ _ _ Hnow).
    + cbn. intros [= <-]. exact Hwell.
  - (* DISCOVERY *)
    unfold onDiscovery. cbv zeta.
    repeat match goal with
           | |- context [if ?b then _ else _] => destruct b
           end;
      try (match goal with
           | |- context [recommendNow ?c profile] =>
               destruct (recommendNow c profile) as [[c' r'] |] eqn:Hnow
           end; [| discriminate];
           cbn; intros [= <-]; exact (recommendNow_numbered _ _ _ _ Hnow)).
    cbn. intros [= <-]. exact Hwell.
  - (* RECOMMEND *)
    unfold onRecommend.
    destruct (Parsed.intent (parseUserMessage userText)),
      (Parsed.optionNumber (parseUserMessage userText)) as [n |];
      try destruct (optionOf context n);
      cbv zeta;
      try (destruct (recommendRestaurants _ profile _) as [rec |] eqn:Hrec;
           [| discriminate]; cbn [mbind option_bind]);
      repeat match goal with
             | |- context [if ?b then _ else _] => destruct b
             end;
      try (cbn; intros [= <-]; exact Hwell).
    all: pose proof (recommend_alternatives_le _ _ _ _ Hrec) as Halt.
    all: match goal with
         | |- context [showRecommendations ?c ?rec ?ids] =>
             pose proof (showRecommendations_numbered c rec ids Halt
                           (proj1 (sliceLast_snoc _ _))
                           (proj2 (sliceLast_snoc _ _))) as Hshown;
             destruct (showRecommendations c rec ids) as [c1 r1]
         end.
    all: cbn; intros [= <-]; exact Hshown.
  - (* BOOKING_COLLECT *)
    unfold onBookingCollect.
    destruct (ConversationContext.bookingDraft context) as [draft |];
      cbv zeta;
      repeat match goal with
             | |- context [if ?b then _ else _] => destruct b
             end;
      cbn; intros [= <-]; exact Hwell.
  - (* BOOKING_CONFIRM *)
    unfold onBookingConfirm.
    destruct (Parsed.intent (parseUserMessage userText));
      cbv beta iota zeta;
      try (cbn; intros [= <-]; exact Hwell).
    destruct (ConversationContext.bookingDraft context) as [draft |];
      [| cbn; intros [= <-]; exact Hwell].
    destruct (BookingDraft.date draft), (BookingDraft.time draft),
      (BookingDraft.partySize draft);
      try (cbn; intros [= <-]; exact Hwell).
    destruct (JS.truthyStr _ && JS.truthyStr _ && JS.truthyNum _);
      [| cbn; intros [= <-]; exact Hwell].
    cbn [Booking.restaurantId].
    destruct (findRestaurant (BookingDraft.restaurantId draft));
      cbn; intros [= <-]; exact Hwell.
  - (* REFINE *)
    unfold onRefine, clearAndAsk. cbv zeta.
    repeat match goal with
           | |- context [if ?b then _ else _] => destruct b
           end;
      cbn; intros [= <-]; exact Hwell.
Qed.

Lemma recommendNow_state (c c' : ConversationContext.t)
  (profile : Profile.t) (response : string) :
  recommendNow c profile = Some (c', response) ->
  ConversationContext.slots c' = ConversationContext.slots c
  /\ ConversationContext.state c' = RECOMMEND
  /\ ConversationContext.bookingDraft c' = ConversationContext.bookingDraft c.
Proof.
  unfold recommendNow.
  destruct (recommendRestaurants _ profile _) as [rec |]; [| discriminate].
  cbn. intros [= <- <-]. repeat split.
Qed.

(** X10. The states are entered in order. A turn ends in [RECOMMEND]
    only from [RECOMMEND] itself or from [WELCOME] or [DISCOVERY] with
    slots that pass [canRecommend]; in [REFINE] only from [RECOMMEND] or
    [REFINE]; in [BOOKING_COLLECT] only from [RECOMMEND] or from within
    the booking; in [BOOKING_CONFIRM] only from within the booking; and
    never in [WELCOME] once it has been left. *)
Theorem states_are_entered_in_order
  (gpt : Interpreter.t) (userText : string)
  (context : ConversationContext.t) (profile : Profile.t) (st : Storage.t)
  (turn : Turn.t) :
  Outcome.turn (processMessage gpt userText context profile st) = Some turn ->
  let before := ConversationContext.state context in
  let after := ConversationContext.state (Turn.context turn) in
  (after = RECOMMEND ->
   before = RECOMMEND
   \/ ((before = WELCOME \/ before = DISCOVERY)
       /\ canRecommend (ConversationContext.slots (Turn.context turn)) profile
          = true))
  /\ (after = REFINE -> before = REFINE \/ before = RECOMMEND)
  /\ (after = BOOKING_COLLECT ->
      before = BOOKING_COLLECT \/ before = BOOKING_CONFIRM
      \/ before = RECOMMEND)
  /\ (after = BOOKING_CONFIRM ->
      before = BOOKING_CONFIRM \/ before = BOOKING_COLLECT)
  /\ (after = WELCOME -> before = WELCOME).
Proof.
  unfold processMessage. cbv zeta.
  destruct (String.eqb _ "reset" || JS.startsWith _ "reset ").
  { unfold finish. cbn. intros [= <-]. cbn.
    repeat split; intros; discriminate. }
  destruct (String.eqb _ "profile" || JS.startsWith _ "profile ").
  { unfold finish. cbn. intros [= <-]. cbn.
    repeat split; intros; auto. }
  unfold stateMachine, finish.
  destruct (ConversationContext.state context) eqn:Hstate; cbv zeta.
  - (* WELCOME *)
    unfold onWelcome. cbv zeta.
    match goal with
    | |- context [if canRecommend ?s profile then _ else _] =>
        destruct (canRecommend s profile) eqn:Hcan
    end.
    + match goal with
      | |- context [recommendNow ?c profile] =>
          destruct (recommendNow c profile) as [[c' r'] |] eqn:Hnow
      end; [| discriminate].
      apply recommendNow_state in Hnow. destruct Hnow as (Hslots & Hs & _).
      cbn. intros [= <-]. cbn. rewrite Hs, Hslots.
      repeat split; intros; try discriminate. right. auto.
    + cbn. intros [= <-]. cbn. repeat split; intros; discriminate.
  - (* DISCOVERY *)
    unfold onDiscovery. cbv zeta.
    destruct (canRecommend (ConversationContext.slots context) profile)
      eqn:Hcan0.
    + destruct (recommendNow context profile) as [[c' r'] |] eqn:Hnow;
        [| discriminate].
      apply recommendNow_state in Hnow. destruct Hnow as (Hslots & Hs & _).
      cbn. intros [= <-]. cbn. rewrite Hs, Hslots.
      repeat split; intros; try discriminate. right. auto.
    + match goal with
      | |- context [if canRecommend ?s profile then _ else _] =>
          destruct (canRecommend s profile) eqn:Hcan
      end.
      * match goal with
        | |- context [recommendNow ?c profile] =>
            destruct (recommendNow c profile) as [[c' r'] |] eqn:Hnow
        end; [| discriminate].
        apply recommendNow_state in Hnow. destruct Hnow as (Hslots & Hs & _).
        cbn. intros [= <-]. cbn. rewrite Hs, Hslots.
        repeat split; intros; try discriminate. right. auto.
      * cbn. intros [= <-]. cbn. rewrite Hstate.
        repeat split; intros; discriminate.
  - (* RECOMMEND *)
    unfold onRecommend.
    destruct (Parsed.intent (parseUserMessage userText)),
      (Parsed.optionNumber (parseUserMessage userText)) as [n |];
      try destruct (optionOf context n);
      cbv beta iota zeta;
      try (destruct (recommendRestaurants _ profile _) as [rec |];
           [| discriminate]; cbn [mbind option_bind]);
      repeat match goal with
             | |- context [if ?b then _ else _] => destruct b
             end;
      cbn; intros [= <-]; cbn; try rewrite Hstate;
      repeat split; intros; try discriminate; auto.
  - (* BOOKING_COLLECT *)
    unfold onBookingCollect.
    destruct (ConversationContext.bookingDraft context) as [draft |];
      cbv beta iota zeta;
      repeat match goal with
             | |- context [if ?b then _ else _] => destruct b
             end;
      cbn; intros [= <-]; cbn; try rewrite Hstate;
      repeat split; intros; try discriminate; auto.
  - (* BOOKING_CONFIRM *)
    unfold onBookingConfirm.
    destruct (Parsed.intent (parseUserMessage userText));
      cbv beta iota zeta;
      try (cbn; intros [= <-]; cbn; try rewrite Hstate;
           repeat split; intros; try discriminate; auto; fail).
    destruct (ConversationContext.bookingDraft context) as [draft |];
      [| cbn; intros [= <-]; cbn; repeat split; intros; discriminate].
    destruct (BookingDraft.date draft), (BookingDraft.time draft),
      (BookingDraft.partySize draft);
      try (cbn; intros [= <-]; cbn; repeat split; intros; discriminate).
    destruct (JS.truthyStr _ && JS.truthyStr _ && JS.truthyNum _);
      [| cbn; intros [= <-]; cbn; repeat split; intros; discriminate].
    cbn [Booking.restaurantId].
    destruct (findRestaurant (BookingDraft.restaurantId draft));
      cbn; intros [= <-]; cbn; repeat split; intros; discriminate.
  - (* REFINE *)
    unfold onRefine, clearAndAsk. cbv zeta.
    repeat match goal with
           | |- context [if ?b then _ else _] => destruct b
           end;
      cbn; intros [= <-]; cbn; try rewrite Hstate;
      repeat split; intros; try discriminate; auto.
Qed.

(** *** Options, refinements and changes *)

Lemma numbered_option (recs : Recommendations.t) (n : OptionNumber)
  (item : RestaurantRecommendation.t) :
  numbered recs ->
  (Recommendations.topPick recs :: Recommendations.alternatives recs)
    !! optionIndex n = Some item ->
  RecommendationMapping.get (Recommendations.mapping recs) n
  = Some (RestaurantRecommendation.restaurant item).
Proof.
  intros (H1 & H2 & H3 & _) Hitem.
  destruct n; simpl in *.
  - injection Hitem as <-. rewrite H1. reflexivity.
  - rewrite H2, Hitem. reflexivity.
  - rewrite H3, Hitem. reflexivity.
Qed.

(** X11. In [RECOMMEND], with well-numbered recommendations, the option
    digit of the user picks the restaurant shown under that number:
    [book N] opens a booking draft for it, with the party size of the
    slots and nothing else, and asks for the date; a bare [N] names it
    and changes nothing. *)
Theorem options_pick_what_was_shown
  (gpt : Interpreter.t) (userText : string)
  (context : ConversationContext.t) (profile : Profile.t) (st : Storage.t)
  (recs : Recommendations.t) (n : OptionNumber)
  (item : RestaurantRecommendation.t) :
  ConversationContext.state context = RECOMMEND ->
  ConversationContext.recommendations context = Some recs ->
  numbered recs ->
  Parsed.optionNumber (parseUserMessage userText) = Some n ->
  (Recommendations.topPick recs :: Recommendations.alternatives recs)
    !! optionIndex n = Some item ->
  let outcome := processMessage gpt userText context profile st in
  let restaurant := RestaurantRecommendation.restaurant item in
  (Parsed.intent (parseUserMessage userText) = BookOption ->
   exists turn,
     Outcome.turn outcome = Some turn
     /\ ConversationContext.state (Turn.context turn) = BOOKING_COLLECT
     /\ ConversationContext.bookingDraft (Turn.context turn)
        = Some (BookingDraft.mk (Some (Restaurant.id restaurant)) None None
                  (Slots.partySize (ConversationContext.slots context)) None)
     /\ ConversationContext.slots (Turn.context turn)
        = ConversationContext.slots context
     /\ ConversationContext.recommendations (Turn.context turn) = Some recs
     /\ Turn.response turn
        = "What date would you like to book for? You can say things like 'tomorrow', 'Friday', or a specific date like '2024-12-25'.")
  /\ (Parsed.intent (parseUserMessage userText) = SelectOption ->
      exists turn,
        Outcome.turn outcome = Some turn
        /\ Turn.context turn = context
        /\ Turn.response turn
           = "Great choice! " +:+ Restaurant.name restaurant
               +:+ " looks perfect. Would you like me to book it? Just reply 'book "
               +:+ optionDigit n
               +:+ "' to start, or 'more' to see other options.").
Proof.
  intros Hstate Hrecs Hnumbered Hn Hitem. cbv zeta.
  pose proof (numbered_option recs n item Hnumbered Hitem) as Hget.
  assert (optionOf context n
          = Some (RestaurantRecommendation.restaurant item)) as Hoption.
  { unfold optionOf. rewrite Hrecs. exact Hget. }
  split; intros Hintent;
    rewrite processMessage_dispatch by congruence;
    unfold stateMachine; rewrite Hstate;
    unfold onRecommend; rewrite Hintent, Hn, Hoption; cbv zeta;
    unfold finish; cbn; eexists; repeat split.
  exact Hrecs.
Qed.

Lemma clearAndAsk_refinesTo (messages : list Message.t) (userText : string)
  (context : ConversationContext.t) (profile : Profile.t) (st : Storage.t)
  (slots : Slots.t) (lead : string) :
  refinesTo
    (let '(newContext, response) := clearAndAsk context profile slots lead in
     finish messages userText newContext response profile st)
    profile slots lead.
Proof. eexists. repeat split. Qed.

(** X12. In [REFINE] a reply that names the slot to change clears that
    slot, leaves the other slots alone and goes back to [DISCOVERY]. For
    the area the next question is the area question. For the budget the
    next question is never empty, but it is the budget question only when
    area, meal time and party size are all set: the discovery policy
    asks for the first slot missing in its own order. For the cuisine,
    named by [cuisine] or [food type] in the reply or by the reply
    [food], the cuisines are cleared; the next question is the cuisine
    question only when area, meal time, party size and budget are set and
    no vibe is, and it is empty, so that the reply is the lead alone,
    when a vibe and the dietary needs are set as well. A reply that names
    none of the three is given to the extraction: the first of area,
    budget, a non-empty list of cuisines and vibe that it returns is
    written over the slot, with the same way back to [DISCOVERY]; when it
    returns none, the context is left as it was and the reply asks what to
    change. *)
Theorem refine_clears_the_named_slot
  (gpt : Interpreter.t) (userText : string)
  (context : ConversationContext.t) (profile : Profile.t) (st : Storage.t) :
  ConversationContext.state context = REFINE ->
  Parsed.intent (parseUserMessage userText) <> Reset ->
  Parsed.intent (parseUserMessage userText) <> ProfileCommand ->
  let lowerText := JS.trim (JS.toLowerCase userText) in
  let slots := ConversationContext.slots context in
  let outcome := processMessage gpt userText context profile st in
  let namesArea :=
    JS.includes lowerText "area" || JS.includes lowerText "location"
    || JS.includes lowerText "neighborhood" in
  let namesBudget :=
    JS.includes lowerText "budget" || JS.includes lowerText "price" in
  let namesCuisine :=
    String.eqb lowerText "cuisine" || String.eqb lowerText "food"
    || JS.includes lowerText "cuisine" || JS.includes lowerText "food type" in
  let extraction := Interpreter.extractSlots gpt userText slots None None in
  (namesArea = true ->
   exists turn,
     Outcome.turn outcome = Some turn
     /\ ConversationContext.state (Turn.context turn) = DISCOVERY
     /\ ConversationContext.slots (Turn.context turn)
        = Slots.set_area None slots
     /\ ConversationContext.lastQuestionType (Turn.context turn) = Some QArea
     /\ Turn.response turn
        = "Sure! Let's change the area. "
            +:+ "What area or neighborhood are you thinking? I can help you find great spots in different locations.")
  /\ (namesArea = false -> namesBudget = true ->
      exists turn,
        Outcome.turn outcome = Some turn
        /\ ConversationContext.state (Turn.context turn) = DISCOVERY
        /\ ConversationContext.slots (Turn.context turn)
           = Slots.set_budget None slots
        /\ Turn.response turn
           = "Sure! Let's change the budget. "
               +:+ fst (getNextDiscoveryQuestion (Slots.set_budget None slots)
                          profile)
        /\ fst (getNextDiscoveryQuestion (Slots.set_budget None slots) profile)
           <> EmptyString
        /\ (ConversationContext.lastQuestionType (Turn.context turn)
            = Some QBudget
            <-> JS.truthyStr (Slots.area slots) = true
                /\ JS.truthyObj (Slots.mealTime slots) = true
                /\ JS.truthyNum (Slots.partySize slots) = true))
  /\ (namesArea = false -> namesBudget = false -> namesCuisine = true ->
      let cleared := Slots.set_cravingCuisines None slots in
      let asked :=
        JS.truthyStr (Slots.area slots) && JS.truthyObj (Slots.mealTime slots)
        && JS.truthyNum (Slots.partySize slots)
        && JS.truthyObj (Slots.budget slots) in
      refinesTo outcome profile cleared "Sure! Let's change the cuisine. "
      /\ (fst (getNextDiscoveryQuestion cleared profile)
          = "What type of cuisine are you in the mood for, or what kind of atmosphere are you looking for? I'm here to help you find something perfect!"
          <-> asked = true /\ JS.truthyObj (Slots.vibe slots) = false)
      /\ (fst (getNextDiscoveryQuestion cleared profile) = EmptyString
          <-> asked = true /\ JS.truthyObj (Slots.vibe slots) = true
              /\ JS.truthyObj (Slots.dietary slots) = true))
  /\ (namesArea = false -> namesBudget = false -> namesCuisine = false ->
      if JS.truthyStr (Slots.area extraction)
      then refinesTo outcome profile
             (Slots.set_area (Slots.area extraction) slots)
             "Got it! I've updated the area. "
      else if JS.truthyObj (Slots.budget extraction)
      then refinesTo outcome profile
             (Slots.set_budget (Slots.budget extraction) slots)
             "Got it! I've updated the budget. "
      else if JS.truthyObj (nonEmpty (Slots.cravingCuisines extraction))
      then refinesTo outcome profile
             (Slots.set_cravingCuisines (Slots.cravingCuisines extraction)
                slots)
             "Got it! I've updated the cuisine. "
      else if JS.truthyObj (Slots.vibe extraction)
      then refinesTo outcome profile
             (Slots.set_vibe (Slots.vibe extraction) slots)
             "Got it! I've updated the vibe. "
      else
        exists turn,
          Outcome.turn outcome = Some turn
          /\ Turn.context turn = context
          /\ Turn.response turn
             = "I'd love to help you adjust your preferences! You can change the area, budget, cuisine, or vibe. What would you like to change?").
Proof.
  intros Hstate Hreset Hprofile. cbv zeta.
  assert (JS.includes (JS.trim (JS.toLowerCase userText)) "area"
          || JS.includes (JS.trim (JS.toLowerCase userText)) "location"
          || JS.includes (JS.trim (JS.toLowerCase userText)) "neighborhood"
          = false ->
          String.eqb (JS.trim (JS.toLowerCase userText)) "area"
          || JS.includes (JS.trim (JS.toLowerCase userText)) "area"
          || JS.includes (JS.trim (JS.toLowerCase userText)) "location"
          || JS.includes (JS.trim (JS.toLowerCase userText)) "neighborhood"
          = false) as HnoArea.
  { intros Harea.
    apply orb_false_iff in Harea. destruct Harea as [Harea Hn].
    apply orb_false_iff in Harea. destruct Harea as [Ha Hl].
    assert (String.eqb (JS.trim (JS.toLowerCase userText)) "area" = false)
      as Heq.
    { destruct (String.eqb _ "area") eqn:E; [| reflexivity].
      apply String.eqb_eq in E. rewrite E in Ha. discriminate. }
    rewrite Heq, Ha, Hl, Hn. reflexivity. }
  assert (JS.includes (JS.trim (JS.toLowerCase userText)) "budget"
          || JS.includes (JS.trim (JS.toLowerCase userText)) "price"
          = false ->
          String.eqb (JS.trim (JS.toLowerCase userText)) "budget"
          || String.eqb (JS.trim (JS.toLowerCase userText)) "price"
          || JS.includes (JS.trim (JS.toLowerCase userText)) "budget"
          || JS.includes (JS.trim (JS.toLowerCase userText)) "price"
          = false) as HnoBudget.
  { intros Hbudget.
    apply orb_false_iff in Hbudget. destruct Hbudget as [Hb Hp].
    assert (String.eqb (JS.trim (JS.toLowerCase userText)) "budget" = false)
      as Heq1.
    { destruct (String.eqb _ "budget") eqn:E; [| reflexivity].
      apply String.eqb_eq in E. rewrite E in Hb. discriminate. }
    assert (String.eqb (JS.trim (JS.toLowerCase userText)) "price" = false)
      as Heq2.
    { destruct (String.eqb _ "price") eqn:E; [| reflexivity].
      apply String.eqb_eq in E. rewrite E in Hp. discriminate. }
    rewrite Heq1, Heq2, Hb, Hp. reflexivity. }
  split; [| split; [| split]].
  - intros Harea.
    rewrite processMessage_dispatch by assumption.
    unfold stateMachine. rewrite Hstate. unfold onRefine. cbv zeta.
    assert (String.eqb (JS.trim (JS.toLowerCase userText)) "area"
            || JS.includes (JS.trim (JS.toLowerCase userText)) "area"
            || JS.includes (JS.trim (JS.toLowerCase userText)) "location"
            || JS.includes (JS.trim (JS.toLowerCase userText)) "neighborhood"
            = true) as ->.
    { destruct (String.eqb (JS.trim (JS.toLowerCase userText)) "area");
        [reflexivity | exact Harea]. }
    unfold clearAndAsk, finish. cbn. eexists. repeat split.
  - intros Harea Hbudget.
    rewrite processMessage_dispatch by assumption.
    unfold stateMachine. rewrite Hstate. unfold onRefine. cbv zeta.
    rewrite (HnoArea Harea).
    assert (String.eqb (JS.trim (JS.toLowerCase userText)) "budget"
            || String.eqb (JS.trim (JS.toLowerCase userText)) "price"
            || JS.includes (JS.trim (JS.toLowerCase userText)) "budget"
            || JS.includes (JS.trim (JS.toLowerCase userText)) "price"
            = true) as ->.
    { apply orb_true_iff in Hbudget. destruct Hbudget as [-> | ->];
        rewrite ?orb_true_r; reflexivity. }
    unfold clearAndAsk, finish. cbn. eexists.
    split; [reflexivity |]. split; [reflexivity |].
    split; [reflexivity |]. split; [reflexivity |].
    unfold getNextDiscoveryQuestion. cbn.
    destruct (JS.truthyStr (Slots.area (ConversationContext.slots context)));
      cbn; [| split; [discriminate | split; [discriminate | intros []; discriminate]]].
    destruct (JS.truthyObj (Slots.mealTime (ConversationContext.slots context)));
      cbn; [| split; [discriminate | split; [discriminate | intros (_ & ? & _); discriminate]]].
    destruct (JS.truthyNum (Slots.partySize (ConversationContext.slots context)));
      cbn; [| split; [discriminate | split; [discriminate | intros (_ & _ & ?); discriminate]]].
    split; [discriminate |]. split; auto.
  - intros Harea Hbudget Hcuisine.
    split.
    + rewrite processMessage_dispatch by assumption.
      unfold stateMachine. rewrite Hstate. unfold onRefine. cbv zeta.
      rewrite (HnoArea Harea), (HnoBudget Hbudget), Hcuisine.
      apply (clearAndAsk_refinesTo (Storage.getHistory st) userText context
               profile st).
    + unfold getNextDiscoveryQuestion. cbn.
      destruct (JS.truthyStr (Slots.area (ConversationContext.slots context))),
        (JS.truthyObj (Slots.mealTime (ConversationContext.slots context))),
        (JS.truthyNum (Slots.partySize (ConversationContext.slots context))),
        (JS.truthyObj (Slots.budget (ConversationContext.slots context))),
        (JS.truthyObj (Slots.vibe (ConversationContext.slots context))),
        (JS.truthyObj (Slots.dietary (ConversationContext.slots context)));
        cbn; split; split;
        solve [ discriminate
              | intros [? ?]; discriminate
              | intros (_ & ? & _); discriminate
              | intros (_ & _ & ?); discriminate
              | intros _; repeat split; reflexivity ].
  - intros Harea Hbudget Hcuisine.
    rewrite processMessage_dispatch by assumption.
    unfold stateMachine. rewrite Hstate. unfold onRefine. cbv zeta.
    rewrite (HnoArea Harea), (HnoBudget Hbudget), Hcuisine.
    destruct (JS.truthyStr (Slots.area _));
      [apply (clearAndAsk_refinesTo (Storage.getHistory st) userText context
                profile st) |].
    destruct (JS.truthyObj (Slots.budget _));
      [apply (clearAndAsk_refinesTo (Storage.getHistory st) userText context
                profile st) |].
    destruct (JS.truthyObj (nonEmpty _));
      [apply (clearAndAsk_refinesTo (Storage.getHistory st) userText context
                profile st) |].
    destruct (JS.truthyObj (Slots.vibe _));
      [apply (clearAndAsk_refinesTo (Storage.getHistory st) userText context
                profile st) |].
    eexists. repeat split.
Qed.


(** *** Times, party sizes and commands *)

Lemma forallb_below (P : nat -> bool) (n : nat) :
  forallb P (seq 0 n) = true -> forall k, (k < n)%nat -> P k = true.
Proof.
  intros Hall k Hk. rewrite forallb_forall in Hall. apply Hall.
  apply in_seq. lia.
Qed.

Lemma digitVal_le (c : ascii) : JS.isDigit c = true -> (JS.digitVal c <= 9)%nat.
Proof.
  unfold JS.isDigit, JS.digitVal. cbv zeta.
  rewrite andb_true_iff, !Nat.leb_le. lia.
Qed.

Lemma fromFirstDigit_Some (s rest : list ascii) :
  fromFirstDigit s = Some rest ->
  exists h rest', rest = h :: rest' /\ JS.isDigit h = true.
Proof.
  induction s as [| c s IH]; simpl; [discriminate |].
  destruct (JS.isDigit c) eqn:Hc.
  - intros [= <-]. eauto.
  - exact IH.
Qed.

Lemma fromFirstDigit_None (s : list ascii) :
  fromFirstDigit s = None <-> Forall (fun c => JS.isDigit c = false) s.
Proof.
  induction s as [| c s IH]; simpl.
  - split; [constructor | reflexivity].
  - destruct (JS.isDigit c) eqn:Hc.
    + split; [discriminate |]. intros H. inversion H; congruence.
    + rewrite IH. split; [constructor; assumption |].
      intros H. inversion H; assumption.
Qed.

(** What the groups of the time pattern hold: one or two digits for the
    hours, and two digits for the minutes when they are there. *)
Lemma timeMatch_groups (userText : string) (g1 : list ascii)
  (g2 : option (list ascii)) (g3 : option string) :
  timeMatch userText = Some (g1, g2, g3) ->
  (JS.parseDigits g1 < 100)%nat
  /\ (match g2 with
      | Some ds => JS.parseDigits ds
      | None => 0%nat
      end < 100)%nat.
Proof.
  unfold timeMatch.
  destruct (fromFirstDigit (list_ascii_of_string userText))
    as [digits |] eqn:Hfirst; [| discriminate].
  destruct (fromFirstDigit_Some _ _ Hfirst) as (h & rest & -> & Hh).
  pose proof (digitVal_le h Hh) as Hhle.
  assert (exists hours rest1,
             match rest with
             | d :: rest' =>
                 if JS.isDigit d then ([h; d], rest') else ([h], rest)
             | [] => ([h], rest)
             end = (hours, rest1)
             /\ (JS.parseDigits hours < 100)%nat) as (hours & rest1 & -> & Hhours).
  { destruct rest as [| d rest'].
    - eexists _, _. split; [reflexivity |].
      unfold JS.parseDigits. simpl. lia.
    - destruct (JS.isDigit d) eqn:Hd.
      + pose proof (digitVal_le d Hd). eexists _, _.
        split; [reflexivity |]. unfold JS.parseDigits. simpl. lia.
      + eexists _, _. split; [reflexivity |].
        unfold JS.parseDigits. simpl. lia. }
  cbv zeta.
  set (rest2 := match rest1 with
                | c :: rest' => if Ascii.eqb c ":" then rest' else rest1
                | [] => rest1
                end).
  assert (exists minutes rest3,
             match rest2 with
             | a :: b :: rest' =>
                 if JS.isDigit a && JS.isDigit b
                 then (Some [a; b], rest') else (None, rest2)
             | _ => (None, rest2)
             end = (minutes, rest3)
             /\ (match minutes with
                 | Some ds => JS.parseDigits ds
                 | None => 0%nat
                 end < 100)%nat) as (minutes & rest3 & -> & Hminutes).
  { destruct rest2 as [| a [| b rest']];
      try (eexists _, _; split; [reflexivity | simpl; lia]).
    destruct (JS.isDigit a) eqn:Ha, (JS.isDigit b) eqn:Hb; simpl;
      try (eexists _, _; split; [reflexivity | simpl; lia]).
    pose proof (digitVal_le a Ha). pose proof (digitVal_le b Hb).
    eexists _, _. split; [reflexivity |].
    unfold JS.parseDigits. simpl. lia. }
  intros [= <- <- <-]. split; assumption.
Qed.

(** X14. The time a booking stores. A reply with a digit in it is stored
    as two digits, a colon and two digits, whatever else it says; a
    reply without a digit is stored as typed, trimmed. A time already in
    that form is stored unchanged, [pm] adds twelve hours to an hour from
    1 to 11, and [12am] is midnight. Nothing checks the range: hours and
    minutes up to 99 go through. *)
Theorem times_are_normalised :
  (forall userText,
      Exists (fun c => JS.isDigit c = true) (list_ascii_of_string userText) ->
      exists hours minutes,
        (hours < 100)%nat /\ (minutes < 100)%nat
        /\ parseTime userText
           = JS.padStart2 (pretty hours) +:+ ":"
               +:+ JS.padStart2 (pretty minutes))
  /\ (forall userText,
        Forall (fun c => JS.isDigit c = false) (list_ascii_of_string userText) ->
        parseTime userText = JS.trim userText)
  /\ (forall hours minutes,
        (hours < 100)%nat -> (minutes < 100)%nat ->
        parseTime (JS.padStart2 (pretty hours) +:+ ":"
                     +:+ JS.padStart2 (pretty minutes))
        = JS.padStart2 (pretty hours) +:+ ":"
            +:+ JS.padStart2 (pretty minutes))
  /\ (forall hours,
        (1 <= hours)%nat -> (hours <= 11)%nat ->
        parseTime (pretty hours +:+ "pm")
        = pretty (hours + 12)%nat +:+ ":00"
        /\ parseTime (pretty hours +:+ ":30 PM")
           = pretty (hours + 12)%nat +:+ ":30")
  /\ parseTime "12am" = "00:00"
  /\ parseTime "12pm" = "12:00".
Proof.
  split; [| split; [| split; [| split; [| split]]]].
  - intros userText Hdigit. unfold parseTime.
    destruct (timeMatch userText) as [[[g1 g2] g3] |] eqn:Hmatch.
    + destruct (timeMatch_groups _ _ _ _ Hmatch) as [Hh Hm].
      cbv zeta.
      set (hours := JS.parseDigits g1) in *.
      eexists _, _. split; [| split; [exact Hm | reflexivity]].
      destruct (bool_decide (JS.toLowerCase <$> g3 = Some "pm")
                && (hours <? 12)%nat) eqn:Hpm.
      * apply andb_true_iff in Hpm. destruct Hpm as [_ Hlt].
        apply Nat.ltb_lt in Hlt.
        destruct (bool_decide (JS.toLowerCase <$> g3 = Some "am")
                  && (hours + 12 =? 12)%nat); lia.
      * destruct (bool_decide (JS.toLowerCase <$> g3 = Some "am")
                  && (hours =? 12)%nat); lia.
    + exfalso. unfold timeMatch in Hmatch.
      destruct (fromFirstDigit (list_ascii_of_string userText))
        as [digits |] eqn:Hfirst.
      * destruct (fromFirstDigit_Some _ _ Hfirst) as (h & rest & -> & _).
        revert Hmatch.
        repeat match goal with
               | |- context [match ?x with _ => _ end] =>
                   lazymatch x with
                   | context [match _ with _ => _ end] => fail
                   | _ => destruct x
                   end
               end; discriminate.
      * apply fromFirstDigit_None in Hfirst.
        apply List.Exists_exists in Hdigit. destruct Hdigit as [c [Hin Hc]].
        rewrite List.Forall_forall in Hfirst.
        rewrite (Hfirst c Hin) in Hc. discriminate.
  - intros userText Hnone. unfold parseTime, timeMatch.
    apply fromFirstDigit_None in Hnone. rewrite Hnone. reflexivity.
  - intros hours minutes Hh Hm.
    assert (forallb
              (fun h =>
                 forallb
                   (fun m =>
                      String.eqb
                        (parseTime (JS.padStart2 (pretty h) +:+ ":"
                                      +:+ JS.padStart2 (pretty m)))
                        (JS.padStart2 (pretty h) +:+ ":"
                           +:+ JS.padStart2 (pretty m)))
                   (seq 0 100))
              (seq 0 100) = true) as Hall by (vm_compute; reflexivity).
    pose proof (forallb_below _ _ Hall hours Hh) as Hrow. cbv beta in Hrow.
    pose proof (forallb_below _ _ Hrow minutes Hm) as Hcell. cbv beta in Hcell.
    apply String.eqb_eq in Hcell. exact Hcell.
  - intros hours H1 H11.
    assert (forallb
              (fun h =>
                 String.eqb (parseTime (pretty (S h) +:+ "pm"))
                   (pretty (S h + 12)%nat +:+ ":00")
                 && String.eqb (parseTime (pretty (S h) +:+ ":30 PM"))
                      (pretty (S h + 12)%nat +:+ ":30"))
              (seq 0 11) = true) as Hall by (vm_compute; reflexivity).
    destruct hours as [| h]; [lia |].
    pose proof (forallb_below _ _ Hall h ltac:(lia)) as Hcell.
    cbv beta in Hcell. apply andb_true_iff in Hcell.
    destruct Hcell as [Ha Hb].
    apply String.eqb_eq in Ha. apply String.eqb_eq in Hb. auto.
  - vm_compute. reflexivity.
  - vm_compute. reflexivity.
Qed.

Lemma partyScan_digits (prevWord : bool) (s ds : list ascii) :
  partyScan prevWord s = Some ds -> (JS.parseDigits ds < 100)%nat.
Proof.
  revert prevWord. induction s as [| c rest IH]; intros prevWord; simpl;
    [discriminate |].
  destruct (negb prevWord && JS.isDigit c) eqn:Hhere; [| apply IH].
  apply andb_true_iff in Hhere. destruct Hhere as [_ Hc].
  pose proof (digitVal_le c Hc) as Hcle.
  destruct rest as [| d rest'].
  - intros [= <-]. unfold JS.parseDigits. simpl. lia.
  - destruct (JS.isDigit d
              && match rest' with
                 | [] => true
                 | e :: _ => negb (JS.isWordChar e)
                 end) eqn:Htwo.
    + apply andb_true_iff in Htwo. destruct Htwo as [Hd _].
      pose proof (digitVal_le d Hd).
      intros [= <-]. unfold JS.parseDigits. simpl. lia.
    + destruct (negb (JS.isWordChar d)).
      * intros [= <-]. unfold JS.parseDigits. simpl. lia.
      * apply IH.
Qed.

Lemma partyScan_none (prevWord : bool) (s : list ascii) :
  Forall (fun c => JS.isDigit c = false) s -> partyScan prevWord s = None.
Proof.
  intros Hnone. revert prevWord.
  induction Hnone as [| c rest Hc _ IH]; intros prevWord; simpl;
    [reflexivity |].
  rewrite Hc, andb_false_r. apply IH.
Qed.

Lemma isDigit_isWordChar (c : ascii) :
  JS.isDigit c = true -> JS.isWordChar c = true.
Proof. unfold JS.isWordChar. intros ->. reflexivity. Qed.

Lemma standsAloneAfter_cons (prevWord : bool) (c : ascii)
  (before digits rest : list ascii) :
  standsAloneAfter prevWord (c :: before) digits rest
  <-> standsAloneAfter (JS.isWordChar c) before digits rest.
Proof.
  unfold standsAloneAfter. rewrite last_cons.
  destruct (last before); reflexivity.
Qed.

(** The cuts of [c :: s] at which a number stands alone, when none starts
    at [c], are the cuts of [s] moved one step right. *)
Lemma firstAlone_cons (prevWord : bool) (c : ascii) (s : list ascii)
  (found : option (list ascii)) :
  (forall digits rest,
     c :: s = digits ++ rest -> ~ standsAloneAfter prevWord [] digits rest) ->
  firstAlone (JS.isWordChar c) s found ->
  firstAlone prevWord (c :: s) found.
Proof.
  intros Hhead. destruct found as [digits |]; simpl.
  - intros (before & rest & Hs & Halone & Hfirst).
    exists (c :: before), rest. split; [rewrite Hs; reflexivity |].
    split; [apply standsAloneAfter_cons; exact Halone |].
    intros before' digits' rest' Hs' Halone'.
    destruct before' as [| c' before'].
    + exfalso. exact (Hhead digits' rest' Hs' Halone').
    + simpl in Hs'. injection Hs' as Hc Hs'. subst c'.
      apply standsAloneAfter_cons in Halone'.
      destruct (Hfirst before' digits' rest' Hs' Halone') as [Hlt | [E1 E2]].
      * left. simpl. lia.
      * right. subst. split; reflexivity.
  - intros Hnone before digits rest Hs Halone.
    destruct before as [| c' before].
    + exact (Hhead digits rest Hs Halone).
    + simpl in Hs. injection Hs as Hc Hs. subst c'.
      apply standsAloneAfter_cons in Halone.
      exact (Hnone before digits rest Hs Halone).
Qed.

(** What stands alone at the very start of a text is its first character,
    or its first two. *)
Lemma standsAlone_head (prevWord : bool) (c : ascii)
  (s digits rest : list ascii) :
  c :: s = digits ++ rest ->
  standsAloneAfter prevWord [] digits rest ->
  prevWord = false /\ JS.isDigit c = true
  /\ (digits = [c] /\ rest = s
      /\ match s with d :: _ => JS.isWordChar d | [] => false end = false
      \/ exists d s',
           s = d :: s' /\ digits = [c; d] /\ rest = s'
           /\ JS.isDigit d = true
           /\ match s' with e :: _ => JS.isWordChar e | [] => false end
              = false).
Proof.
  intros Hs (Hlen & Hdigits & Hprev & Hnext). simpl in Hprev.
  split; [exact Hprev |].
  destruct digits as [| a [| b [| ? ?]]]; simpl in Hlen;
    [destruct Hlen; discriminate | | | destruct Hlen; discriminate].
  - simpl in Hs. injection Hs as -> ->.
    apply Forall_cons in Hdigits. destruct Hdigits as [Ha _].
    split; [exact Ha |]. left. repeat split.
    destruct rest; exact Hnext.
  - simpl in Hs. injection Hs as -> ->.
    apply Forall_cons in Hdigits. destruct Hdigits as [Ha Hdigits].
    apply Forall_cons in Hdigits. destruct Hdigits as [Hb _].
    split; [exact Ha |]. right. exists b, rest. repeat split.
    + exact Hb.
    + destruct rest; exact Hnext.
Qed.

Lemma partyScan_firstAlone (prevWord : bool) (s : list ascii) :
  firstAlone prevWord s (partyScan prevWord s).
Proof.
  revert prevWord. induction s as [| c s IH]; intros prevWord.
  - simpl. intros before digits rest Hs (Hlen & _).
    symmetry in Hs. apply app_eq_nil in Hs. destruct Hs as [_ Hs].
    apply app_eq_nil in Hs. destruct Hs as [-> _].
    simpl in Hlen. destruct Hlen; discriminate.
  - cbn [partyScan]. cbv zeta.
    destruct (negb prevWord && JS.isDigit c) eqn:Hhere.
    2: { apply firstAlone_cons; [| apply IH].
         intros digits rest Hs Halone.
         destruct (standsAlone_head _ _ _ digits rest Hs Halone) as (Hp & Hc & _).
         rewrite Hp, Hc in Hhere. discriminate. }
    apply andb_true_iff in Hhere. destruct Hhere as [Hprev Hc].
    apply negb_true_iff in Hprev.
    destruct s as [| d s'].
    { exists [], []. split; [reflexivity |]. split.
      - unfold standsAloneAfter. simpl. repeat split; auto.
      - intros before' digits' rest' Hs' Halone'.
        destruct before' as [| c' before']; [| left; simpl; lia].
        right. split; [reflexivity |].
        destruct (standsAlone_head _ _ _ digits' rest' Hs' Halone')
          as (_ & _ & [(E & _) | (d & s' & E & _)]);
          [exact E | discriminate]. }
    destruct (JS.isDigit d
              && match s' with
                 | [] => true
                 | e :: _ => negb (JS.isWordChar e)
                 end) eqn:Htwo.
    { apply andb_true_iff in Htwo. destruct Htwo as [Hd Hend].
      exists [], s'. split; [reflexivity |]. split.
      - unfold standsAloneAfter. simpl. repeat split; auto.
        destruct s' as [| e s'']; [reflexivity |].
        simpl. apply negb_true_iff in Hend. exact Hend.
      - intros before' digits' rest' Hs' Halone'.
        destruct before' as [| c' before']; [| left; simpl; lia].
        right. split; [reflexivity |].
        destruct (standsAlone_head _ _ _ digits' rest' Hs' Halone')
          as (_ & _ & [(_ & _ & Hw) | (d' & s'' & E & E' & _)]).
        + rewrite (isDigit_isWordChar d Hd) in Hw. discriminate.
        + injection E as <- <-. exact E'. }
    destruct (negb (JS.isWordChar d)) eqn:Hone.
    { apply negb_true_iff in Hone.
      exists [], (d :: s'). split; [reflexivity |]. split.
      - unfold standsAloneAfter. simpl. repeat split; auto.
      - intros before' digits' rest' Hs' Halone'.
        destruct before' as [| c' before']; [| left; simpl; lia].
        right. split; [reflexivity |].
        destruct (standsAlone_head _ _ _ digits' rest' Hs' Halone')
          as (_ & _ & [(E & _) | (d' & s'' & E & _ & _ & Hd' & _)]);
          [exact E |].
        injection E as <- <-.
        rewrite (isDigit_isWordChar d Hd') in Hone. discriminate. }
    apply negb_false_iff in Hone.
    apply firstAlone_cons; [| apply IH].
    intros digits rest Hs Halone.
    destruct (standsAlone_head _ _ _ digits rest Hs Halone)
      as (_ & _ & [(_ & _ & Hw) | (d' & s'' & E & _ & _ & Hd' & Hend)]).
    + rewrite Hone in Hw. discriminate.
    + injection E as <- <-. rewrite Hd' in Htwo.
      destruct s' as [| e s'']; [discriminate |].
      rewrite Hend in Htwo. discriminate.
Qed.

(** X15. The party size read from a booking reply is the first number of
    one or two digits that stands on its own, with no letter, digit or
    underscore next to it: the result is always from 0 to 99, a reply
    that is just such a number (or has it between words) reads as that
    number, a number glued to letters, as in a time, is not taken, and a
    reply without digits gives nothing. In any reply, what is read is the
    value of a number that stands alone, no number stands alone further
    left, and at the same place no other one does; and a reply in which a
    number stands alone is read as some number. *)
Theorem party_sizes_are_small_numbers :
  (forall userText n, partyMatch userText = Some n -> (0 <= n < 100)%Z)
  /\ (forall n,
        (n < 100)%nat ->
        partyMatch (pretty n) = Some (Z.of_nat n)
        /\ partyMatch ("a table for " +:+ pretty n +:+ " people, please")
           = Some (Z.of_nat n)
        /\ partyMatch (pretty n +:+ "pm") = None)
  /\ (forall userText,
        Forall (fun c => JS.isDigit c = false) (list_ascii_of_string userText) ->
        partyMatch userText = None)
  /\ (forall userText n,
        partyMatch userText = Some n ->
        exists before digits rest,
          list_ascii_of_string userText = before ++ digits ++ rest
          /\ standsAlone before digits rest
          /\ n = Z.of_nat (JS.parseDigits digits)
          /\ forall before' digits' rest',
               list_ascii_of_string userText = before' ++ digits' ++ rest' ->
               standsAlone before' digits' rest' ->
               (length before < length before')%nat
               \/ (before' = before /\ digits' = digits))
  /\ (forall userText before digits rest,
        list_ascii_of_string userText = before ++ digits ++ rest ->
        standsAlone before digits rest ->
        exists n, partyMatch userText = Some n).
Proof.
  split; [| split; [| split; [| split]]].
  - intros userText n. unfold partyMatch.
    destruct (partyScan false (list_ascii_of_string userText)) as [ds |] eqn:Hs;
      [| discriminate].
    pose proof (partyScan_digits _ _ _ Hs). cbn. intros [= <-]. lia.
  - intros n Hn.
    assert (forallb
              (fun k =>
                 bool_decide (partyMatch (pretty k) = Some (Z.of_nat k))
                 && bool_decide
                      (partyMatch
                         ("a table for " +:+ pretty k +:+ " people, please")
                       = Some (Z.of_nat k))
                 && bool_decide (partyMatch (pretty k +:+ "pm") = None))
              (seq 0 100) = true) as Hall by (vm_compute; reflexivity).
    pose proof (forallb_below _ _ Hall n Hn) as Hcell. cbv beta in Hcell.
    apply andb_true_iff in Hcell. destruct Hcell as [Hcell H3].
    apply andb_true_iff in Hcell. destruct Hcell as [H1 H2].
    apply bool_decide_eq_true in H1, H2, H3. auto.
  - intros userText Hnone. unfold partyMatch.
    rewrite (partyScan_none _ _ Hnone). reflexivity.
  - intros userText n. unfold partyMatch.
    pose proof (partyScan_firstAlone false (list_ascii_of_string userText))
      as Hfirst.
    destruct (partyScan false (list_ascii_of_string userText)) as [ds |];
      [| discriminate].
    cbn. intros [= <-].
    destruct Hfirst as (before & rest & Hs & Halone & Hleft).
    exists before, ds, rest.
    split; [exact Hs |]. split; [exact Halone |].
    split; [reflexivity | exact Hleft].
  - intros userText before digits rest Hs Halone. unfold partyMatch.
    pose proof (partyScan_firstAlone false (list_ascii_of_string userText))
      as Hfirst.
    destruct (partyScan false (list_ascii_of_string userText)) as [ds |].
    + eexists. reflexivity.
    + exfalso. exact (Hfirst before digits rest Hs Halone).
Qed.

(** X16. The option number of a parsed message is there exactly when
    the intent is a selection or a booking of an option, and it is the
    digit the user typed. *)
Theorem option_number_comes_with_a_pick :
  (forall text,
      match Parsed.intent (parseUserMessage text) with
      | SelectOption | BookOption =>
          exists n, Parsed.optionNumber (parseUserMessage text) = Some n
      | _ => Parsed.optionNumber (parseUserMessage text) = None
      end)
  /\ (forall n,
        parseUserMessage (optionDigit n) = Parsed.mk SelectOption (Some n)
        /\ parseUserMessage ("book " +:+ optionDigit n)
           = Parsed.mk BookOption (Some n)
        /\ parseUserMessage ("book" +:+ optionDigit n)
           = Parsed.mk Unknown None).
Proof.
  split.
  - intros text. unfold parseUserMessage. cbv zeta.
    repeat match goal with
           | |- context [if ?b then _ else _] => destruct b
           | |- context [match bookMatch ?x with _ => _ end] =>
               destruct (bookMatch x)
           | |- context [match optionMatch ?x with _ => _ end] =>
               destruct (optionMatch x)
           end; simpl; eauto.
  - intros n. destruct n; repeat split; reflexivity.
Qed.

Lemma lowerChar_space (c : ascii) : JS.isSpace (JS.lowerChar c) = JS.isSpace c.
Proof. destruct c as [[] [] [] [] [] [] [] []]; reflexivity. Qed.

Lemma toLowerCase_app (a b : string) :
  JS.toLowerCase (a +:+ b) = JS.toLowerCase a +:+ JS.toLowerCase b.
Proof.
  induction a as [| c a IH]; simpl; [reflexivity |]. rewrite IH. reflexivity.
Qed.

Lemma toLowerCase_spaces (ws : string) :
  Forall (fun c => JS.isSpace c = true) (list_ascii_of_string ws) ->
  Forall (fun c => JS.isSpace c = true)
    (list_ascii_of_string (JS.toLowerCase ws)).
Proof.
  induction ws as [| c ws IH]; simpl; intros H; [constructor |].
  inversion H as [| ? ? Hc Hws]; subst. constructor.
  - rewrite lowerChar_space. exact Hc.
  - apply IH. exact Hws.
Qed.

Lemma trimStart_spaces (ws s : string) :
  Forall (fun c => JS.isSpace c = true) (list_ascii_of_string ws) ->
  JS.trimStart (ws +:+ s) = JS.trimStart s.
Proof.
  induction ws as [| c ws IH]; simpl; intros H; [reflexivity |].
  inversion H as [| ? ? Hc Hws]; subst. rewrite Hc. apply IH. exact Hws.
Qed.

Lemma trimEnd_only_spaces (ws : string) :
  Forall (fun c => JS.isSpace c = true) (list_ascii_of_string ws) ->
  JS.trimEnd ws = EmptyString.
Proof.
  induction ws as [| c ws IH]; simpl; intros H; [reflexivity |].
  inversion H as [| ? ? Hc Hws]; subst. rewrite (IH Hws), Hc. reflexivity.
Qed.

Lemma trimEnd_spaces (s ws : string) :
  Forall (fun c => JS.isSpace c = true) (list_ascii_of_string ws) ->
  JS.trimEnd (s +:+ ws) = JS.trimEnd s.
Proof.
  intros H. induction s as [| c s IH]; simpl.
  - apply trimEnd_only_spaces. exact H.
  - rewrite IH. reflexivity.
Qed.

Lemma trimStart_only_spaces (ws : string) :
  Forall (fun c => JS.isSpace c = true) (list_ascii_of_string ws) ->
  JS.trimStart ws = EmptyString.
Proof.
  induction ws as [| c ws IH]; simpl; intros H; [reflexivity |].
  inversion H as [| ? ? Hc Hws]; subst. rewrite Hc. apply IH. exact Hws.
Qed.

Lemma trim_spaces_r (s ws : string) :
  Forall (fun c => JS.isSpace c = true) (list_ascii_of_string ws) ->
  JS.trim (s +:+ ws) = JS.trim s.
Proof.
  intros H. unfold JS.trim. induction s as [| c s IH].
  - change (JS.trimEnd (JS.trimStart ws) = EmptyString).
    rewrite (trimStart_only_spaces ws H). reflexivity.
  - simpl. destruct (JS.isSpace c); [exact IH |].
    change (String c (s +:+ ws)) with (String c s +:+ ws).
    apply trimEnd_spaces. exact H.
Qed.

(** X17. Commands are recognised whatever the letter case and the white
    space around them: two texts with the same lower-case form parse to
    the same intent and option number, and so does a text with white
    space added in front of it and after it. *)
Theorem commands_ignore_case_and_padding (text : string) :
  (forall other,
      JS.toLowerCase other = JS.toLowerCase text ->
      parseUserMessage other = parseUserMessage text)
  /\ (forall before after,
        Forall (fun c => JS.isSpace c = true) (list_ascii_of_string before) ->
        Forall (fun c => JS.isSpace c = true) (list_ascii_of_string after) ->
        parseUserMessage (before +:+ text +:+ after) = parseUserMessage text).
Proof.
  split.
  - intros other Hsame. unfold parseUserMessage. rewrite Hsame. reflexivity.
  - intros before after Hb Ha.
    assert (JS.trim (JS.toLowerCase (before +:+ text +:+ after))
            = JS.trim (JS.toLowerCase text)) as Hsame.
    { rewrite !toLowerCase_app.
      unfold JS.trim at 1.
      rewrite (trimStart_spaces _ _ (toLowerCase_spaces _ Hb)).
      fold (JS.trim (JS.toLowerCase text +:+ JS.toLowerCase after)).
      apply trim_spaces_r. apply toLowerCase_spaces. exact Ha. }
    unfold parseUserMessage. rewrite Hsame. reflexivity.
Qed.

(** *** The new flow: requests, merges and picks *)

(** X18. [getNextMissingSlot] answers with the first slot, in the order
    area, cuisine, budget, date, time, party size, that has no value yet,
    and with [null] exactly when all six have one; each slot it can
    answer with has a question of its own. *)
Theorem next_missing_slot_is_the_first (request : ActiveRequest.t) :
  (getNextMissingSlot request = None
   <-> Forall (fun slot => filledIn request slot = true) slotOrder)
  /\ (forall earlier slot later,
        slotOrder = earlier ++ slot :: later ->
        Forall (fun s => filledIn request s = true) earlier ->
        filledIn request slot = false ->
        getNextMissingSlot request = Some slot)
  /\ (forall slot,
        getNextMissingSlot request = Some slot ->
        filledIn request slot = false
        /\ getSlotQuestion (Some slot) <> EmptyString).
Proof.
  assert (getNextMissingSlot request
          = List.find (fun s => negb (filledIn request s)) slotOrder)
    as Hfind.
  { unfold getNextMissingSlot, slotOrder. simpl.
    repeat match goal with
           | |- context [if negb ?b then _ else _] => destruct b; simpl
           end; reflexivity. }
  split; [| split].
  - rewrite Hfind. split.
    + intros Hnone. apply List.Forall_forall. intros slot Hin.
      pose proof (find_none _ _ Hnone slot Hin) as H.
      apply negb_false_iff in H. exact H.
    + intros Hall.
      destruct (List.find _ slotOrder) as [slot |] eqn:Hsome;
        [| reflexivity].
      apply find_some in Hsome. destruct Hsome as [Hin Hneg].
      rewrite List.Forall_forall in Hall. rewrite (Hall slot Hin) in Hneg.
      discriminate.
  - intros earlier slot later Horder Hearlier Hslot.
    rewrite Hfind, Horder. apply find_first.
    + eapply List.Forall_impl; [| exact Hearlier].
      intros s Hs. simpl in Hs. rewrite Hs. reflexivity.
    + rewrite Hslot. reflexivity.
  - intros slot Hsome. rewrite Hfind in Hsome.
    apply find_some in Hsome. destruct Hsome as [_ Hneg].
    apply negb_true_iff in Hneg. split; [exact Hneg |].
    destruct slot; discriminate.
Qed.

(** X19. The merge of extracted values into the request of the new flow
    never overwrites: a slot that has a value keeps it, and the notes —
    which the merge never reads from the extraction — stay as they are.
    An empty slot takes the extracted value, and for area, cuisine, date
    and time only on a confidence above one half. *)
Theorem merge_fills_only_empty_slots
  (newRequest : ActiveRequest.t) (extracted : Extracted.t)
  (dbNormalization : DbNormalization.t) :
  let merged := mergeExtracted newRequest extracted dbNormalization in
  (JS.truthyStr (ActiveRequest.area newRequest) = true ->
   ActiveRequest.area merged = ActiveRequest.area newRequest)
  /\ (JS.truthyStr (ActiveRequest.cuisine newRequest) = true ->
      ActiveRequest.cuisine merged = ActiveRequest.cuisine newRequest)
  /\ (JS.truthyObj (ActiveRequest.budget newRequest) = true ->
      ActiveRequest.budget merged = ActiveRequest.budget newRequest)
  /\ (JS.truthyNum (ActiveRequest.partySize newRequest) = true ->
      ActiveRequest.partySize merged = ActiveRequest.partySize newRequest)
  /\ (JS.truthyStr (ActiveRequest.date newRequest) = true ->
      ActiveRequest.date merged = ActiveRequest.date newRequest)
  /\ (JS.truthyStr (ActiveRequest.time newRequest) = true ->
      ActiveRequest.time merged = ActiveRequest.time newRequest)
  /\ ActiveRequest.notes merged = ActiveRequest.notes newRequest
  /\ (forall slot,
        filledIn newRequest slot = true -> filledIn merged slot = true)
  /\ ((DbMatch.confidence (DbNormalization.areaMatch dbNormalization)
       <= 1 # 2)%Q ->
      ActiveRequest.area merged = ActiveRequest.area newRequest)
  /\ ((Confident.confidence (Extracted.date extracted) <= 1 # 2)%Q ->
      ActiveRequest.date merged = ActiveRequest.date newRequest)
  /\ (forall area,
        JS.truthyStr (ActiveRequest.area newRequest) = false ->
        DbMatch.matched (DbNormalization.areaMatch dbNormalization)
        = Some area ->
        area <> EmptyString ->
        (1 # 2 < DbMatch.confidence (DbNormalization.areaMatch dbNormalization))%Q ->
        ActiveRequest.area merged = Some area)
  /\ (forall range,
        ActiveRequest.budget newRequest = None ->
        ExtractedBudget.range (Extracted.budget extracted) = Some range ->
        ActiveRequest.budget merged
        = Some (BudgetRange.mk range (budgetLabel range))).
Proof.
  cbv zeta. unfold mergeExtracted. cbv zeta.
  cbn [ActiveRequest.area ActiveRequest.cuisine ActiveRequest.budget
       ActiveRequest.partySize ActiveRequest.date ActiveRequest.time
       ActiveRequest.notes].
  assert (forall c : Q, (c <= 1 # 2)%Q -> confidentEnough c = false) as Hlow.
  { intros c Hc. unfold confidentEnough. apply negb_false_iff.
    apply Qle_bool_iff. exact Hc. }
  assert (forall c : Q, (1 # 2 < c)%Q -> confidentEnough c = true) as Hhigh.
  { intros c Hc. unfold confidentEnough. apply negb_true_iff.
    destruct (Qle_bool c (1 # 2)) eqn:E; [| reflexivity].
    apply Qle_bool_iff in E. exfalso. apply (Qlt_not_le _ _ Hc E). }
  split; [intros ->; reflexivity |].
  split; [intros ->; reflexivity |].
  split.
  { intros ->.
    destruct (ExtractedBudget.range (Extracted.budget extracted));
      reflexivity. }
  split; [intros ->; reflexivity |].
  split; [intros ->; reflexivity |].
  split; [intros ->; reflexivity |].
  split; [reflexivity |].
  split.
  { intros slot.
    destruct slot;
      cbn [filledIn ActiveRequest.area ActiveRequest.cuisine
           ActiveRequest.budget ActiveRequest.partySize ActiveRequest.date
           ActiveRequest.time];
      intros H; rewrite H; simpl; try exact H.
    destruct (ExtractedBudget.range (Extracted.budget extracted));
      exact H. }
  split.
  { intros Hc. rewrite (Hlow _ Hc), andb_false_r. reflexivity. }
  split.
  { intros Hc. rewrite (Hlow _ Hc), andb_false_r. reflexivity. }
  split.
  { intros area Hempty Hmatched Hne Hc.
    rewrite Hempty, Hmatched, (Hhigh _ Hc). simpl.
    apply String.eqb_neq in Hne. rewrite Hne. reflexivity. }
  intros range Hnone Hrange. rewrite Hrange, Hnone. reflexivity.
Qed.

Lemma getTopRestaurants_top (activeRequest : ActiveRequest.t) :
  RESTAURANTS <> [] ->
  exists top,
    TopRestaurants.top (getTopRestaurants activeRequest) = Some top.
Proof.
  intros Hcatalog. unfold getTopRestaurants.
  destruct (List.filter (inArea activeRequest) RESTAURANTS)
    as [| r0 filtered].
  - pose proof (sort_Permutation byRatingDesc RESTAURANTS) as Hperm.
    destruct (JS.sort byRatingDesc RESTAURANTS) as [| top rest].
    { apply Permutation_nil in Hperm. contradiction. }
    exists top. reflexivity.
  - set (scored := List.map _ (r0 :: filtered)).
    pose proof (sort_Permutation byScoreDesc scored) as Hperm.
    destruct (JS.sort byScoreDesc scored) as [| top rest].
    { apply Permutation_nil in Hperm. discriminate. }
    eexists. reflexivity.
Qed.

Lemma string_app_assoc (a b c : string) :
  (a +:+ b) +:+ c = a +:+ b +:+ c.
Proof.
  induction a as [| x a IH]; [reflexivity |].
  change (String x ((a +:+ b) +:+ c) = String x (a +:+ b +:+ c)).
  f_equal. exact IH.
Qed.

Lemma string_app_empty (a : string) : a +:+ EmptyString = a.
Proof.
  induction a as [| x a IH]; [reflexivity |].
  change (String x (a +:+ EmptyString) = String x a). f_equal. exact IH.
Qed.

Lemma lookup_map {A B : Type} (f : A -> B) (l : list A) (i : nat) :
  List.map f l !! i = f <$> l !! i.
Proof.
  revert i. induction l as [| x l IH]; intros [| i]; simpl; auto.
Qed.

Lemma option_digit_lower (n : OptionNumber) :
  JS.trim (JS.toLowerCase (optionDigit n)) = optionDigit n
  /\ pickMatch (optionDigit n) = Some n.
Proof. destruct n; split; reflexivity. Qed.

(** X20. The end of a turn of the new flow. While a slot is missing the
    request is saved, the first missing slot becomes the pending one and
    its question is the reply. Once the six slots are filled the request
    is saved, the mode becomes recommending, no slot is pending, and with
    a catalog that has an entry the reply lists the top pick first; the
    option digit the user sends next then selects the restaurant that
    was listed under it: one that takes bookings goes on to the
    confirmation, a walk-in-only one goes back to collecting with
    nothing selected. No booking is stored on the way. *)
Theorem complete_request_is_recommended
  (messages : list Message.t) (userText : string)
  (newRequest : ActiveRequest.t) (st : Storage.t) :
  (forall slot,
      getNextMissingSlot newRequest = Some slot ->
      exists st',
        recommendOrAsk messages userText newRequest st
        = Answered (getSlotQuestion (Some slot))
            (messages
               ++ [Message.mk User userText;
                   Message.mk Assistant (getSlotQuestion (Some slot))])
            st'
        /\ Storage.getPendingSlot st' = Some slot
        /\ Storage.getActiveRequest st' = newRequest
        /\ Storage.getMode st' = Storage.getMode st
        /\ Storage.bookings st' = Storage.bookings st)
  /\ (getNextMissingSlot newRequest = None ->
      RESTAURANTS <> [] ->
      exists top rest st',
        TopRestaurants.top (getTopRestaurants newRequest) = Some top
        /\ recommendOrAsk messages userText newRequest st
           = Answered
               ("Top pick:" +:+ JS.newline +:+ entryText "1" top newRequest
                  +:+ rest)
               (messages
                  ++ [Message.mk User userText;
                      Message.mk Assistant
                        ("Top pick:" +:+ JS.newline
                           +:+ entryText "1" top newRequest +:+ rest)])
               st'
        /\ Storage.getMode st' = Recommending
        /\ Storage.getPendingSlot st' = None
        /\ Storage.getActiveRequest st' = newRequest
        /\ Storage.bookings st' = Storage.bookings st
        /\ (forall n selected,
              (top :: TopRestaurants.alternatives
                        (getTopRestaurants newRequest))
                !! optionIndex n = Some selected ->
              exists response messages' st'',
                processMessageNew (optionDigit n) st'
                = Answered response messages' st''
                /\ Storage.bookings st'' = Storage.bookings st
                /\ (if Restaurant.bookingAvailable selected
                    then Storage.getMode st'' = Confirming
                         /\ Storage.getSelectedRestaurantId st''
                            = Some (Restaurant.id selected)
                    else Storage.getMode st'' = Collecting
                         /\ Storage.getSelectedRestaurantId st'' = None))).
Proof.
  split.
  - intros slot Hslot. unfold recommendOrAsk. rewrite Hslot. cbv zeta.
    unfold answer. eexists. repeat split.
  - intros Hnone Hcatalog.
    destruct (getTopRestaurants_top newRequest Hcatalog) as [top Htop].
    unfold recommendOrAsk. rewrite Hnone. cbv zeta. rewrite Htop.
    set (alternatives := TopRestaurants.alternatives
                           (getTopRestaurants newRequest)).
    set (first := "Top pick:" +:+ JS.newline +:+ entryText "1" top newRequest).
    assert (exists rest,
               match alternatives !! 1%nat with
               | Some alt =>
                   match alternatives !! 0%nat with
                   | Some alt0 =>
                       first +:+ JS.newline +:+ "Alternatives:" +:+ JS.newline
                         +:+ entryText "2" alt0 newRequest
                   | None => first
                   end +:+ entryText "3" alt newRequest
               | None =>
                   match alternatives !! 0%nat with
                   | Some alt0 =>
                       first +:+ JS.newline +:+ "Alternatives:" +:+ JS.newline
                         +:+ entryText "2" alt0 newRequest
                   | None => first
                   end
               end = first +:+ rest) as [rest ->].
    { destruct (alternatives !! 1%nat) as [alt1 |],
        (alternatives !! 0%nat) as [alt0 |];
        rewrite ?string_app_assoc; eexists; try reflexivity.
      instantiate (1 := EmptyString).
      symmetry. apply string_app_empty. }
    unfold answer.
    eexists top, rest, _. split; [reflexivity |].
    split; [reflexivity |]. split; [reflexivity |].
    split; [reflexivity |]. split; [reflexivity |].
    split; [reflexivity |].
    intros n selected Hselected.
    destruct (option_digit_lower n) as [Hlower Hpick].
    match goal with
    | |- context [processMessageNew _ ?s] => set (st' := s)
    end.
    assert (Storage.getMode st' = Recommending) as Hmode by reflexivity.
    assert (Storage.getActiveRequest st' = newRequest) as Hrequest
      by reflexivity.
    assert (Storage.bookings st' = Storage.bookings st) as Hbookings
      by reflexivity.
    clearbody st'. rewrite <- Hbookings.
    unfold processMessageNew. cbv zeta. rewrite Hlower, Hmode, Hrequest.
    assert (String.eqb (optionDigit n) "reset" = false) as ->
      by (destruct n; reflexivity).
    assert (String.eqb (optionDigit n) "continue chat"
            || String.eqb (optionDigit n) "continue" = false) as ->
      by (destruct n; reflexivity).
    unfold onPick. rewrite Hpick. cbn [mbind option_bind]. rewrite Htop.
    assert (mjoin ((Some top
                      :: List.map Some
                           (TopRestaurants.alternatives
                              (getTopRestaurants newRequest)))
                     !! optionIndex n) = Some selected) as ->.
    { pose proof (lookup_map Some
                    (top :: TopRestaurants.alternatives
                              (getTopRestaurants newRequest))
                    (optionIndex n)) as Hlookup.
      simpl List.map in Hlookup. unfold alternatives in Hselected.
      rewrite Hlookup, Hselected. reflexivity. }
    cbn [mbind option_bind].
    destruct (Restaurant.bookingAvailable selected); cbn [negb];
      unfold answer; eexists _, _, _; repeat split.
Qed.

Lemma trimStart_toLowerCase (s : string) :
  JS.trimStart (JS.toLowerCase s) = JS.toLowerCase (JS.trimStart s).
Proof.
  induction s as [| c s IH]; simpl; [reflexivity |].
  rewrite lowerChar_space. destruct (JS.isSpace c); [exact IH | reflexivity].
Qed.

Lemma trimEnd_toLowerCase (s : string) :
  JS.trimEnd (JS.toLowerCase s) = JS.toLowerCase (JS.trimEnd s).
Proof.
  induction s as [| c s IH]; simpl; [reflexivity |].
  rewrite IH, lowerChar_space.
  destruct (JS.trimEnd s); simpl; [| reflexivity].
  destruct (JS.isSpace c); reflexivity.
Qed.

Lemma trim_toLowerCase (s : string) :
  JS.trim (JS.toLowerCase s) = JS.toLowerCase (JS.trim s).
Proof.
  unfold JS.trim. rewrite trimStart_toLowerCase. apply trimEnd_toLowerCase.
Qed.

(** X21. What a turn of the new flow that ends in one of its command
    branches leaves behind. The history gains the user's text and the
    reply, in that order, and that is the list returned. A booking is
    stored only in the confirming mode, for a reply that is neither
    [reset], nor a command, nor empty, and only when the selected id is a
    catalog entry and the request has its date, time and party size; it
    is appended with those values, with no note when the reply is [skip],
    [no] or [n] in any letter case, and with the trimmed reply as note
    otherwise. Whenever all of that holds the booking is stored. After
    such a reply, stored or not, the request is empty again, the mode is
    collecting and the area is the pending slot. *)
Theorem new_flow_books_on_a_note_only
  (userText response : string) (messages : list Message.t)
  (st st' : Storage.t) :
  processMessageNew userText st = Answered response messages st' ->
  let lower := JS.trim (JS.toLowerCase userText) in
  let isSkip :=
    String.eqb lower "skip" || String.eqb lower "no" || String.eqb lower "n" in
  (messages
   = Storage.history st
       ++ [Message.mk User userText; Message.mk Assistant response]
   /\ Storage.history st' = messages)
  /\ (Storage.bookings st' = Storage.bookings st
      \/ exists restaurant date time partySize notes,
           Storage.getMode st = Confirming
           /\ Storage.getSelectedRestaurantId st
              = Some (Restaurant.id restaurant)
           /\ In restaurant RESTAURANTS
           /\ ActiveRequest.date (Storage.getActiveRequest st) = Some date
           /\ ActiveRequest.time (Storage.getActiveRequest st) = Some time
           /\ ActiveRequest.partySize (Storage.getActiveRequest st)
              = Some partySize
           /\ date <> EmptyString /\ time <> EmptyString
           /\ partySize <> 0%Z
           /\ notes <> Some EmptyString
           /\ (notes = None \/ notes = Some (JS.trim userText))
           /\ Storage.bookings st'
              = Storage.bookings st
                  ++ [Booking.mk (Some (Restaurant.id restaurant)) date time
                        partySize notes]
           /\ lower <> "reset"
           /\ isCommand (JS.trim userText) = false
           /\ JS.trim userText <> EmptyString
           /\ notes = (if isSkip then None else Some (JS.trim userText)))
  /\ (Storage.getMode st = Confirming ->
      JS.trim (JS.toLowerCase userText) <> "reset" ->
      isCommand (JS.trim userText) = false ->
      JS.trim userText <> EmptyString ->
      response = "Done. Saved. (POC)"
      /\ Storage.getActiveRequest st' = ActiveRequest.empty
      /\ Storage.getMode st' = Collecting
      /\ Storage.getPendingSlot st' = Some PendingArea
      /\ Storage.getSelectedRestaurantId st' = None)
  /\ (forall selectedId restaurant date time partySize,
        Storage.getMode st = Confirming ->
        lower <> "reset" ->
        isCommand (JS.trim userText) = false ->
        JS.trim userText <> EmptyString ->
        Storage.getSelectedRestaurantId st = Some selectedId ->
        selectedId <> EmptyString ->
        findRestaurant (Some selectedId) = Some restaurant ->
        ActiveRequest.date (Storage.getActiveRequest st) = Some date ->
        ActiveRequest.time (Storage.getActiveRequest st) = Some time ->
        ActiveRequest.partySize (Storage.getActiveRequest st)
        = Some partySize ->
        date <> EmptyString -> time <> EmptyString -> partySize <> 0%Z ->
        Storage.bookings st'
        = Storage.bookings st
            ++ [Booking.mk (Some selectedId) date time partySize
                  (if isSkip then None else Some (JS.trim userText))]).
Proof.
  unfold processMessageNew. cbv zeta.
  destruct (String.eqb (JS.trim (JS.toLowerCase userText)) "reset") eqn:Hreset.
  { unfold answer. intros [= <- <- <-].
    split; [split; reflexivity |]. split; [left; reflexivity |].
    split; intros; apply String.eqb_eq in Hreset; contradiction. }
  destruct (Storage.getMode st) eqn:Hmode; [discriminate | |].
  - (* recommending *)
    destruct (String.eqb _ "continue chat" || String.eqb _ "continue").
    { unfold answer. intros [= <- <- <-].
      split; [split; reflexivity |]. split; [left; reflexivity |].
      split; intros; discriminate. }
    unfold onPick.
    destruct (pickMatch _) as [num |]; [| discriminate].
    cbn [mbind option_bind].
    destruct (mjoin _) as [selected |]; [| discriminate].
    cbn [mbind option_bind].
    destruct (negb (Restaurant.bookingAvailable selected));
      unfold answer; intros [= <- <- <-];
      (split; [split; reflexivity |]); (split; [left; reflexivity |]);
      split; intros; discriminate.
  - (* confirming *)
    unfold onConfirming. cbv zeta.
    destruct (isCommand (JS.trim userText)) eqn:Hcommand.
    { unfold answer. intros [= <- <- <-].
      split; [split; reflexivity |]. split; [left; reflexivity |].
      split; intros; discriminate. }
    destruct ((String.length (JS.trim userText) =? 0)%nat
              && negb (String.eqb (JS.trim (JS.toLowerCase userText)) "skip"
                       || String.eqb (JS.trim (JS.toLowerCase userText)) "no"
                       || String.eqb (JS.trim (JS.toLowerCase userText)) "n"))
      eqn:Hempty.
    { assert (JS.trim userText = EmptyString) as Hnone.
      { apply andb_true_iff in Hempty. destruct Hempty as [Hlen _].
        apply Nat.eqb_eq in Hlen.
        destruct (JS.trim userText); [reflexivity | discriminate]. }
      unfold answer. intros [= <- <- <-].
      split; [split; reflexivity |]. split; [left; reflexivity |].
      split; intros; contradiction. }
    assert (JS.trim userText <> EmptyString) as Hsome.
    { intros Hnone. rewrite trim_toLowerCase, Hnone in Hempty.
      discriminate. }
    apply String.eqb_neq in Hreset.
    set (isSkip := String.eqb (JS.trim (JS.toLowerCase userText)) "skip"
                   || String.eqb (JS.trim (JS.toLowerCase userText)) "no"
                   || String.eqb (JS.trim (JS.toLowerCase userText)) "n") in *.
    set (notes := if isSkip then None else Some (JS.trim userText)).
    assert ((if JS.truthyStr notes then notes else None) = notes) as Hnotes.
    { unfold notes. destruct isSkip; simpl; [reflexivity |].
      apply String.eqb_neq in Hsome. rewrite Hsome. reflexivity. }
    rewrite Hnotes.
    assert (notes <> Some EmptyString
            /\ (notes = None \/ notes = Some (JS.trim userText)))
      as [Hnotes1 Hnotes2].
    { unfold notes. destruct isSkip; [split; [discriminate | auto] |].
      split; [congruence | auto]. }
    unfold answer. intros [= <- <- <-].
    split; [split; reflexivity |].
    cbn [Storage.bookings Storage.saveHistory Storage.saveSelectedRestaurantId
         Storage.savePendingSlot Storage.saveMode Storage.saveActiveRequest].
    split; [| split; [intros _ _ _ _; repeat split |]].
    + destruct (Storage.getSelectedRestaurantId st) as [selectedId |] eqn:Hid;
        [| left; reflexivity].
      destruct (negb (String.eqb selectedId EmptyString));
        [| left; reflexivity].
      destruct (List.find _ RESTAURANTS) as [restaurant |] eqn:Hfind;
        [| left; reflexivity].
      destruct (ActiveRequest.date (Storage.getActiveRequest st))
        as [date |] eqn:Hdate; [| left; reflexivity].
      destruct (ActiveRequest.time (Storage.getActiveRequest st))
        as [time |] eqn:Htime; [| left; reflexivity].
      destruct (ActiveRequest.partySize (Storage.getActiveRequest st))
        as [partySize |] eqn:Hparty; [| left; reflexivity].
      destruct (negb (String.eqb date EmptyString)
                && negb (String.eqb time EmptyString)
                && negb (Z.eqb partySize 0)) eqn:Htruthy;
        [| left; reflexivity].
      right.
      apply find_some in Hfind. destruct Hfind as [Hin Heq].
      apply String.eqb_eq in Heq. subst selectedId.
      apply andb_true_iff in Htruthy. destruct Htruthy as [Htruthy Hp].
      apply andb_true_iff in Htruthy. destruct Htruthy as [Hd Ht].
      apply negb_true_iff in Hd, Ht, Hp.
      apply String.eqb_neq in Hd, Ht. apply Z.eqb_neq in Hp.
      exists restaurant, date, time, partySize, notes.
      repeat split; auto.
    + intros selectedId restaurant date time partySize _ _ _ _ Hid Hne Hfind
        Hdate Htime Hparty Hd Ht Hp.
      rewrite Hid. unfold findRestaurant in Hfind.
      assert (negb (String.eqb selectedId EmptyString) = true) as ->.
      { apply negb_true_iff. apply String.eqb_neq. exact Hne. }
      rewrite Hfind, Hdate, Htime, Hparty.
      assert (negb (String.eqb date EmptyString)
              && negb (String.eqb time EmptyString)
              && negb (Z.eqb partySize 0) = true) as ->.
      { rewrite !andb_true_iff, !negb_true_iff.
        repeat split;
          [apply String.eqb_neq | apply String.eqb_neq | apply Z.eqb_neq];
          assumption. }
      reflexivity.
Qed.

(** *** Slot extraction behind its guards *)

Lemma spread_empty (slots : Slots.t) : Slots.spread slots Slots.empty = slots.
Proof. destruct slots. reflexivity. Qed.

Lemma greeting_extracts_nothing
  (completion :
     string -> Slots.t -> option string -> option QuestionType
     -> option Slots.t)
  (userMessage : string) (currentSlots : Slots.t) (question : option string)
  (questionType : option QuestionType) :
  ExtractSlots.isGreetingOrCasualResponse userMessage = true ->
  ExtractSlots.extractSlots completion userMessage currentSlots question
    questionType
  = ExtractSlots.Response.mk Slots.empty 0%Q.
Proof.
  intros Hgreeting. unfold ExtractSlots.extractSlots, ExtractSlots.POST.
  destruct (String.eqb userMessage EmptyString); [reflexivity |].
  rewrite Hgreeting. reflexivity.
Qed.

(** X22. A greeting or casual reply changes no slot. Such a message is
    any message that is one of the listed greetings or casual words, or
    has at most two words and contains one of them anywhere, inside a
    longer word included. For it the extraction is empty whatever the
    language model would have answered, and a [WELCOME] or [DISCOVERY]
    turn that cannot recommend yet keeps its slots and asks the question
    that is due for them. *)
Theorem casual_replies_change_no_slot
  (completion :
     string -> Slots.t -> option string -> option QuestionType
     -> option Slots.t)
  (parseRelativeDate : string -> string) (userText : string)
  (context : ConversationContext.t) (profile : Profile.t) (st : Storage.t) :
  let normalized := JS.trim (JS.toLowerCase userText) in
  let gpt := ExtractSlots.interpreter completion parseRelativeDate in
  (forall word,
      In word (ExtractSlots.greetings ++ ExtractSlots.casualResponses) ->
      (length (ExtractSlots.words normalized) <= 2)%nat ->
      JS.includes normalized word = true ->
      ExtractSlots.isGreetingOrCasualResponse userText = true)
  /\ (ExtractSlots.isGreetingOrCasualResponse userText = true ->
      (forall currentSlots question questionType,
          ExtractSlots.extractSlots completion userText currentSlots question
            questionType
          = ExtractSlots.Response.mk Slots.empty 0%Q)
      /\ (Parsed.intent (parseUserMessage userText) <> Reset ->
          Parsed.intent (parseUserMessage userText) <> ProfileCommand ->
          ConversationContext.state context = WELCOME
          \/ ConversationContext.state context = DISCOVERY ->
          canRecommend (ConversationContext.slots context) profile = false ->
          exists turn,
            Outcome.turn (processMessage gpt userText context profile st)
            = Some turn
            /\ ConversationContext.state (Turn.context turn) = DISCOVERY
            /\ ConversationContext.slots (Turn.context turn)
               = ConversationContext.slots context
            /\ Turn.response turn
               = orElse
                   (fst (getNextDiscoveryQuestion
                           (ConversationContext.slots context) profile))
                   "What else can you tell me to help you find the perfect restaurant?")).
Proof.
  cbv zeta. split.
  - intros word Hword Hshort Hinside.
    unfold ExtractSlots.isGreetingOrCasualResponse. cbv zeta.
    destruct (JS.arrayIncludes ExtractSlots.greetings _); [reflexivity |].
    destruct (JS.arrayIncludes ExtractSlots.casualResponses _);
      [reflexivity |].
    apply Nat.leb_le in Hshort. rewrite Hshort.
    assert (existsb
              (fun g => JS.includes (JS.trim (JS.toLowerCase userText)) g)
              ExtractSlots.greetings
            || existsb
                 (fun r => JS.includes (JS.trim (JS.toLowerCase userText)) r)
                 ExtractSlots.casualResponses = true) as ->;
      [| reflexivity].
    apply orb_true_iff. apply in_app_or in Hword.
    destruct Hword as [Hg | Hc]; [left | right];
      apply existsb_exists; exists word; auto.
  - intros Hgreeting. split.
    + intros currentSlots question questionType.
      apply greeting_extracts_nothing. exact Hgreeting.
    + intros Hreset Hprofile Hstate Hcannot.
      rewrite processMessage_dispatch by assumption.
      unfold stateMachine.
      destruct Hstate as [Hstate | Hstate]; rewrite Hstate.
      * unfold onWelcome. cbv zeta.
        cbn [Interpreter.extractSlots ExtractSlots.interpreter].
        rewrite greeting_extracts_nothing by exact Hgreeting.
        cbn [ExtractSlots.Response.slots ConversationContext.slots
             ConversationContext.set_state ConversationContext.set_slots].
        rewrite spread_empty, Hcannot.
        unfold askNext, finish. cbn. eexists. repeat split.
      * unfold onDiscovery. cbv zeta. rewrite Hcannot.
        cbn [Interpreter.extractSlots ExtractSlots.interpreter].
        rewrite greeting_extracts_nothing by exact Hgreeting.
        cbn [ExtractSlots.Response.slots ConversationContext.slots
             ConversationContext.set_state ConversationContext.set_slots].
        rewrite spread_empty, Hcannot.
        unfold askNext, finish. cbn. eexists. repeat split. exact Hstate.
Qed.

(** X23. What [extractSlots] hands to the controller has been checked
    against the message. A meal time, a budget, a vibe or a diet is
    there only if the message contains one of the matching keywords, a
    party size only if it contains a digit, a number name or a word for
    people, and cuisines only if it has more than three words. When the
    check fails everything but the area is dropped. The confidence tells
    which case it was: 0.9 for an extraction passed on as it came, 0.5
    for one cut down to its area, 0 for a greeting or a failed
    request. *)
Theorem extraction_is_checked_against_the_message
  (completion :
     string -> Slots.t -> option string -> option QuestionType
     -> option Slots.t)
  (userMessage : string) (currentSlots : Slots.t) (question : option string)
  (questionType : option QuestionType) :
  let response :=
    ExtractSlots.extractSlots completion userMessage currentSlots question
      questionType in
  let slots := ExtractSlots.Response.slots response in
  let normalized := JS.toLowerCase userMessage in
  (JS.truthyObj (Slots.mealTime slots) = true ->
   ExtractSlots.mentions normalized ExtractSlots.timeKeywords = true)
  /\ (JS.truthyNum (Slots.partySize slots) = true ->
      ExtractSlots.numberPattern normalized
      || ExtractSlots.mentions normalized ExtractSlots.peopleKeywords = true)
  /\ (JS.truthyObj (Slots.budget slots) = true ->
      ExtractSlots.mentions normalized ExtractSlots.budgetKeywords = true)
  /\ (ExtractSlots.filled (Slots.cravingCuisines slots) = true ->
      (3 < length (ExtractSlots.words normalized))%nat)
  /\ (JS.truthyObj (Slots.vibe slots) = true ->
      ExtractSlots.mentions normalized ExtractSlots.vibeKeywords = true)
  /\ (ExtractSlots.filled (Slots.dietary slots) = true ->
      ExtractSlots.mentions normalized ExtractSlots.dietaryKeywords = true)
  /\ (forall extracted,
        userMessage <> EmptyString ->
        ExtractSlots.isGreetingOrCasualResponse userMessage = false ->
        completion userMessage currentSlots question questionType
        = Some extracted ->
        (ExtractSlots.validateExtraction userMessage extracted = true
         /\ response = ExtractSlots.Response.mk extracted (9 # 10))
        \/ (ExtractSlots.validateExtraction userMessage extracted = false
            /\ ExtractSlots.Response.confidence response = 1 # 2
            /\ Slots.set_area None slots = Slots.empty
            /\ (Slots.area slots = None
                \/ Slots.area slots = Slots.area extracted))).
Proof.
  cbv zeta.
  assert (forall extracted,
            ExtractSlots.validateExtraction userMessage extracted = true ->
            (JS.truthyObj (Slots.mealTime extracted) = true ->
             ExtractSlots.mentions (JS.toLowerCase userMessage)
               ExtractSlots.timeKeywords = true)
            /\ (JS.truthyNum (Slots.partySize extracted) = true ->
                ExtractSlots.numberPattern (JS.toLowerCase userMessage)
                || ExtractSlots.mentions (JS.toLowerCase userMessage)
                     ExtractSlots.peopleKeywords = true)
            /\ (JS.truthyObj (Slots.budget extracted) = true ->
                ExtractSlots.mentions (JS.toLowerCase userMessage)
                  ExtractSlots.budgetKeywords = true)
            /\ (ExtractSlots.filled (Slots.cravingCuisines extracted) = true ->
                (3 < length (ExtractSlots.words (JS.toLowerCase userMessage)))%nat)
            /\ (JS.truthyObj (Slots.vibe extracted) = true ->
                ExtractSlots.mentions (JS.toLowerCase userMessage)
                  ExtractSlots.vibeKeywords = true)
            /\ (ExtractSlots.filled (Slots.dietary extracted) = true ->
                ExtractSlots.mentions (JS.toLowerCase userMessage)
                  ExtractSlots.dietaryKeywords = true)) as Hvalid.
  { intros extracted. unfold ExtractSlots.validateExtraction. cbv zeta.
    destruct (JS.truthyObj (Slots.mealTime extracted)),
      (JS.truthyNum (Slots.partySize extracted)),
      (JS.truthyObj (Slots.budget extracted)),
      (ExtractSlots.filled (Slots.cravingCuisines extracted)),
      (JS.truthyObj (Slots.vibe extracted)),
      (ExtractSlots.filled (Slots.dietary extracted)),
      (JS.truthyStr (Slots.area extracted));
      cbn [andb negb];
      destruct (ExtractSlots.mentions _ ExtractSlots.timeKeywords),
        (ExtractSlots.numberPattern _),
        (ExtractSlots.mentions _ ExtractSlots.peopleKeywords),
        (ExtractSlots.mentions _ ExtractSlots.budgetKeywords),
        (ExtractSlots.mentions _ ExtractSlots.vibeKeywords),
        (ExtractSlots.mentions _ ExtractSlots.dietaryKeywords);
      cbn [andb negb orb];
      try discriminate;
      try (intros _; repeat split; intros; try discriminate; reflexivity);
      destruct (length (ExtractSlots.words (JS.toLowerCase userMessage)) <=? 3)%nat
        eqn:Hwords;
      cbn [andb negb orb];
      try discriminate;
      intros _; repeat split; intros; try discriminate; try reflexivity;
      apply Nat.leb_gt in Hwords; exact Hwords. }
  assert (forall P : Slots.t -> Prop,
            P Slots.empty ->
            (forall extracted,
                completion userMessage currentSlots question questionType
                = Some extracted ->
                (ExtractSlots.validateExtraction userMessage extracted = true ->
                 P extracted)
                /\ P (Slots.set_area (Slots.area extracted) Slots.empty)) ->
            P (ExtractSlots.Response.slots
                 (ExtractSlots.extractSlots completion userMessage
                    currentSlots question questionType))) as Hcases.
  { intros P Hempty Hsome.
    unfold ExtractSlots.extractSlots, ExtractSlots.POST.
    destruct (String.eqb userMessage EmptyString); [exact Hempty |].
    destruct (ExtractSlots.isGreetingOrCasualResponse userMessage);
      [exact Hempty |].
    destruct (completion userMessage currentSlots question questionType)
      as [extracted |]; [| exact Hempty].
    destruct (Hsome extracted eq_refl) as [Hok Harea].
    destruct (ExtractSlots.validateExtraction userMessage extracted);
      cbn [negb ExtractSlots.Response.slots].
    - apply Hok. reflexivity.
    - destruct (JS.truthyStr (Slots.area extracted)); assumption. }
  repeat match goal with
         | |- _ /\ _ => split
         end.
  7: {
    intros extracted Hne Hgreeting Hcompletion.
    unfold ExtractSlots.extractSlots, ExtractSlots.POST.
    apply String.eqb_neq in Hne. rewrite Hne, Hgreeting, Hcompletion.
    destruct (ExtractSlots.validateExtraction userMessage extracted);
      cbn [negb]; [left; split; reflexivity |].
    right. split; [reflexivity |].
    destruct (JS.truthyStr (Slots.area extracted));
      cbn; repeat split; auto. }
  all: apply Hcases;
    [intros; discriminate
    | intros extracted _; split;
      [intros Hok; apply (Hvalid extracted Hok)
      | cbn; intros; discriminate]].
Qed.

(** *** The areas of the catalog and the confirmation identifier *)

Lemma setAdd_spec (areas : list string) (area : string) :
  NoDup areas ->
  NoDup (setAdd areas area)
  /\ (forall a, In a (setAdd areas area) <-> In a areas \/ a = area).
Proof.
  intros Hnodup. unfold setAdd.
  destruct (JS.arrayIncludes areas area) eqn:Hin.
  - apply arrayIncludes_In in Hin. split; [exact Hnodup |].
    intros a. split; [auto |]. intros [H | ->]; assumption.
  - assert (~ In area areas) as Hnot.
    { intros H. apply arrayIncludes_In in H. congruence. }
    split.
    + apply NoDup_app. split; [exact Hnodup |]. split.
      * intros x Hx Hx'. apply list_elem_of_In in Hx.
        apply list_elem_of_singleton in Hx'. subst x. contradiction.
      * apply NoDup_singleton.
    + intros a. rewrite in_app_iff. simpl. intuition.
Qed.

Lemma collected_areas (rs : list Restaurant.t) (seen : list string) :
  NoDup seen ->
  NoDup (fold_left (fun areas r => setAdd areas (Restaurant.area r)) rs seen)
  /\ (forall a,
        In a (fold_left (fun areas r => setAdd areas (Restaurant.area r))
                rs seen)
        <-> In a seen \/ exists r, In r rs /\ Restaurant.area r = a).
Proof.
  revert seen. induction rs as [| r rs IH]; intros seen Hnodup; simpl.
  - split; [exact Hnodup |]. intros a. split; [auto |].
    intros [H | [r [[] _]]]. exact H.
  - destruct (setAdd_spec seen (Restaurant.area r) Hnodup) as [Hnd Hmem].
    destruct (IH _ Hnd) as [Hnd' Hmem']. split; [exact Hnd' |].
    intros a. rewrite Hmem', Hmem. split.
    + intros [[H | ->] | [r' [Hr' Ha]]]; eauto.
    + intros [H | [r' [[-> | Hr'] Ha]]]; eauto.
Qed.

Lemma sorted_weaken {A : Type} (R S : A -> A -> Prop) (l : list A) :
  (forall a b, R a b -> S a b) -> StronglySorted R l -> StronglySorted S l.
Proof.
  intros Himpl Hsorted. induction Hsorted as [| x l Hs IH Hall];
    constructor; [exact IH |].
  eapply List.Forall_impl; [| exact Hall]. intros b. apply Himpl.
Qed.

(** X24. The areas offered to the interpreters are exactly the areas of
    the catalog, each once, the longest names first, so that a more
    specific name is tried before a name it contains. *)
Theorem areas_are_distinct_longest_first :
  NoDup getAvailableAreas
  /\ (forall area,
        In area getAvailableAreas
        <-> exists r, In r RESTAURANTS /\ Restaurant.area r = area)
  /\ StronglySorted
       (fun a b => (String.length b <= String.length a)%nat)
       getAvailableAreas.
Proof.
  unfold getAvailableAreas. cbv zeta.
  set (areas := fold_left _ RESTAURANTS []).
  destruct (collected_areas RESTAURANTS [] NoDup_nil_2) as [Hnodup Hmem].
  fold areas in Hnodup, Hmem.
  pose proof (sort_Permutation byLengthDesc areas) as Hperm.
  split; [| split].
  - rewrite Hperm. exact Hnodup.
  - intros area. split.
    + intros Hin. apply (Permutation_in _ Hperm) in Hin.
      apply Hmem in Hin. destruct Hin as [[] | H]. exact H.
    + intros H. apply (Permutation_in _ (Permutation_sym Hperm)).
      apply Hmem. right. exact H.
  - pose proof (sort_sorted
                  (fun a : string => inject_Z (Z.of_nat (String.length a)))
                  areas) as Hsorted.
    change (comparingDesc
              (fun a : string => inject_Z (Z.of_nat (String.length a))))
      with byLengthDesc in Hsorted.
    eapply sorted_weaken; [| exact Hsorted].
    intros a b Hab. unfold descending in Hab.
    rewrite <- Zle_Qle in Hab. lia.
Qed.

Lemma alphabet_lookup (k : nat) :
  (k < 32)%nat ->
  exists c,
    String.get k BookingMock.chars = Some c
    /\ In c (list_ascii_of_string BookingMock.chars).
Proof.
  intros Hk.
  assert (forallb
            (fun k =>
               match String.get k BookingMock.chars with
               | Some c =>
                   existsb (Ascii.eqb c)
                     (list_ascii_of_string BookingMock.chars)
               | None => false
               end)
            (seq 0 32) = true) as Hall by (vm_compute; reflexivity).
  pose proof (forallb_below _ _ Hall k Hk) as Hcell. cbv beta in Hcell.
  destruct (String.get k BookingMock.chars) as [c |]; [| discriminate].
  exists c. split; [reflexivity |].
  apply existsb_exists in Hcell. destruct Hcell as [x [Hx Heq]].
  apply Ascii.eqb_eq in Heq. subst x. exact Hx.
Qed.

Lemma draw_shape (n : nat) (num : Z) (result : string) :
  (0 <= num)%Z ->
  exists code,
    BookingMock.draw n num result = result +:+ code
    /\ String.length code = n
    /\ Forall (fun c => In c (list_ascii_of_string BookingMock.chars))
         (list_ascii_of_string code).
Proof.
  revert num result. induction n as [| n IH]; intros num result Hnum.
  - exists EmptyString. simpl. rewrite string_app_empty. auto.
  - cbn [BookingMock.draw]. cbv zeta.
    change (Z.of_nat (String.length BookingMock.chars)) with 32%Z.
    pose proof (Z.rem_bound_pos num 32 Hnum ltac:(lia)) as Hidx.
    assert ((Z.rem num 32 <? 0)%Z = false) as -> by (apply Z.ltb_ge; lia).
    destruct (alphabet_lookup (Z.to_nat (Z.rem num 32)) ltac:(lia))
      as (c & -> & Hc).
    destruct (IH (num / 32)%Z (result +:+ String c EmptyString)
                ltac:(apply Z.div_pos; lia)) as (code & -> & Hlen & Hall).
    exists (String c code). split.
    + rewrite string_app_assoc. reflexivity.
    + split; [simpl; rewrite Hlen; reflexivity |].
      simpl. constructor; assumption.
Qed.

(** X25. A confirmation identifier always has the documented shape:
    [BK-] followed by exactly six characters of the 32-character alphabet
    that leaves out the letters and digits easy to confuse; no input can
    make the index leave the alphabet. [bookMock] returns that
    identifier for its restaurant and time together with the input's own
    fields. *)
Theorem confirmation_ids_have_one_shape (input : BookingMock.BookingInput.t) :
  let result := BookingMock.bookMock input in
  (exists code,
      BookingMock.BookingResult.confirmationId result = "BK-" +:+ code
      /\ String.length code = 6%nat
      /\ Forall (fun c => In c (list_ascii_of_string BookingMock.chars))
           (list_ascii_of_string code))
  /\ BookingMock.BookingResult.confirmationId result
     = BookingMock.generateConfirmationId
         (BookingMock.BookingInput.restaurantId input)
         (BookingMock.BookingInput.time input)
  /\ BookingMock.BookingResult.restaurantId result
     = BookingMock.BookingInput.restaurantId input
  /\ BookingMock.BookingResult.partySize result
     = BookingMock.BookingInput.partySize input
  /\ BookingMock.BookingResult.time result
     = BookingMock.BookingInput.time input.
Proof.
  cbv zeta. split; [| repeat split].
  unfold BookingMock.bookMock, BookingMock.generateConfirmationId.
  cbn [BookingMock.BookingResult.confirmationId]. cbv zeta.
  apply draw_shape. apply Z.abs_nonneg.
Qed.

(** *** Asking for more, and answering after the recommendations *)

Lemma forallb_false {A : Type} (f : A -> bool) (l : list A) :
  forallb f l = false -> exists x, In x l /\ f x = false.
Proof.
  induction l as [| x l IH]; simpl; [discriminate |].
  destruct (f x) eqn:Hx; simpl.
  - intros H. destruct (IH H) as [y [Hy Hf]]. eauto.
  - intros _. eauto.
Qed.

Lemma onRecommend_more (parsed : Parsed.t) (context : ConversationContext.t)
  (profile : Profile.t) :
  Parsed.intent parsed = More ->
  onRecommend parsed context profile
  = onRecommend (Parsed.mk More None) context profile.
Proof.
  intros Hmore. unfold onRecommend. rewrite Hmore.
  destruct (Parsed.optionNumber parsed); reflexivity.
Qed.

(** X26. [more] in [RECOMMEND], on a catalog that has an entry, either
    shows a list in which at least one restaurant is not among the
    remembered top picks — and then remembers its top pick, keeping the
    last three — or, when the new list has no alternative or nothing but
    remembered top picks, leaves the recommendations as they are and
    moves to [REFINE]. The slots are untouched either way. *)
Theorem more_shows_something_new_or_refines
  (gpt : Interpreter.t) (userText : string)
  (context : ConversationContext.t) (profile : Profile.t) (st : Storage.t) :
  RESTAURANTS <> [] ->
  ConversationContext.state context = RECOMMEND ->
  Parsed.intent (parseUserMessage userText) = More ->
  let previous := default [] (previousIdsOf context) in
  let idOf (item : RestaurantRecommendation.t) :=
    Restaurant.id (RestaurantRecommendation.restaurant item) in
  exists turn rec,
    Outcome.turn (processMessage gpt userText context profile st) = Some turn
    /\ recommendRestaurants (ConversationContext.slots context) profile
         (previousIdsOf context) = Some rec
    /\ ConversationContext.slots (Turn.context turn)
       = ConversationContext.slots context
    /\ ((ConversationContext.state (Turn.context turn) = REFINE
         /\ ConversationContext.recommendations (Turn.context turn)
            = ConversationContext.recommendations context
         /\ (Recommended.alternatives rec = []
             \/ forall item,
                  In item (Recommended.topPick rec
                             :: Recommended.alternatives rec) ->
                  In (idOf item) previous))
        \/ (ConversationContext.state (Turn.context turn) = RECOMMEND
            /\ Recommended.alternatives rec <> []
            /\ (exists item,
                   In item (Recommended.topPick rec
                              :: Recommended.alternatives rec)
                   /\ ~ In (idOf item) previous)
            /\ exists recs,
                 ConversationContext.recommendations (Turn.context turn)
                 = Some recs
                 /\ Recommendations.topPick recs = Recommended.topPick rec
                 /\ Recommendations.alternatives recs
                    = Recommended.alternatives rec
                 /\ Recommendations.previousTopPickIds recs
                    = Some (JS.sliceLast 3
                              (previous ++ [idOf (Recommended.topPick rec)]))
                 /\ Turn.response turn
                    = formatRecommendationMessage (Some recs)
                        (ConversationContext.slots context))).
Proof.
  intros Hcatalog Hstate Hmore. cbv zeta.
  rewrite processMessage_dispatch by congruence.
  unfold stateMachine. rewrite Hstate.
  rewrite (onRecommend_more _ context profile Hmore).
  unfold onRecommend. cbn [Parsed.intent Parsed.optionNumber].
  destruct (recommendRestaurants_returns Hcatalog
              (ConversationContext.slots context) profile
              (previousIdsOf context)) as [rec [Hrec _]].
  rewrite Hrec. cbn [mbind option_bind]. cbv zeta.
  match goal with
  | |- context [if ?b then _ else _] => destruct b eqn:Hstuck
  end.
  - unfold finish. cbn [Outcome.turn].
    eexists _, rec. split; [reflexivity |]. split; [reflexivity |].
    cbn [Turn.context Turn.response]. split; [reflexivity |].
    left. split; [reflexivity |]. split; [reflexivity |].
    apply orb_true_iff in Hstuck. destruct Hstuck as [Hone | Hall].
    + left. apply Nat.leb_le in Hone.
      destruct (Recommended.alternatives rec);
        [reflexivity | simpl in Hone; lia].
    + right. intros item Hin. rewrite forallb_forall in Hall.
      apply arrayIncludes_In.
      apply (Hall (Restaurant.id (RestaurantRecommendation.restaurant item))).
      destruct Hin as [<- | Hin]; [left; reflexivity |]. right.
      apply (in_map (fun alt =>
                       Restaurant.id (RestaurantRecommendation.restaurant alt))).
      exact Hin.
  - unfold finish, showRecommendations. cbn [Outcome.turn].
    eexists _, rec. split; [reflexivity |]. split; [reflexivity |].
    cbn. split; [reflexivity |].
    right. split; [exact Hstate |].
    apply orb_false_iff in Hstuck. destruct Hstuck as [Hone Hall].
    split.
    { intros Hnil. rewrite Hnil in Hone. simpl in Hone. discriminate. }
    split.
    { apply forallb_false in Hall. destruct Hall as [x [Hx Hnot]].
      change (In x (List.map
                      (fun alt =>
                         Restaurant.id (RestaurantRecommendation.restaurant alt))
                      (Recommended.topPick rec :: Recommended.alternatives rec)))
        in Hx.
      apply in_map_iff in Hx. destruct Hx as [item [<- Hitem]].
      exists item. split; [exact Hitem |].
      intros Hin. apply arrayIncludes_In in Hin. congruence. }
    eexists. repeat split.
Qed.

(** X27. Once the slots pass [canRecommend], what the user answers is no
    longer read. A text that is no command in [RECOMMEND], while the
    discovery policy still has a question, gets that question and the
    state [DISCOVERY]; but whatever is replied next, [DISCOVERY] finds
    the slots sufficient, recommends again without calling the
    extraction, and the slots are still the ones the first
    recommendation was made from. *)
Theorem answers_after_recommendations_are_not_stored
  (gpt : Interpreter.t) (userText reply : string)
  (context : ConversationContext.t) (profile : Profile.t) (st : Storage.t) :
  RESTAURANTS <> [] ->
  ConversationContext.state context = RECOMMEND ->
  canRecommend (ConversationContext.slots context) profile = true ->
  In (Parsed.intent (parseUserMessage userText)) [Confirm; Change; Unknown] ->
  fst (getNextDiscoveryQuestion (ConversationContext.slots context) profile)
  <> EmptyString ->
  Parsed.intent (parseUserMessage reply) <> Reset ->
  Parsed.intent (parseUserMessage reply) <> ProfileCommand ->
  let outcome := processMessage gpt userText context profile st in
  exists asked again,
    Outcome.turn outcome = Some asked
    /\ ConversationContext.state (Turn.context asked) = DISCOVERY
    /\ Turn.response asked
       = fst (getNextDiscoveryQuestion (ConversationContext.slots context)
                profile)
    /\ Outcome.turn
         (processMessage gpt reply (Turn.context asked)
            (Outcome.profile outcome) (Outcome.storage outcome))
       = Some again
    /\ ConversationContext.state (Turn.context again) = RECOMMEND
    /\ ConversationContext.slots (Turn.context again)
       = ConversationContext.slots context.
Proof.
  intros Hcatalog Hstate Hcan Hintent Hquestion Hreset Hprofile outcome.
  set (questionInfo :=
         getNextDiscoveryQuestion (ConversationContext.slots context) profile)
    in *.
  assert (outcome
          = finish (Storage.getHistory st) userText
              (ConversationContext.set_question
                 (Some (fst questionInfo)) (Some (snd questionInfo))
                 (ConversationContext.set_state DISCOVERY context))
              (fst questionInfo) profile st) as ->.
  { subst outcome.
    assert (Parsed.intent (parseUserMessage userText) <> Reset
            /\ Parsed.intent (parseUserMessage userText) <> ProfileCommand)
      as [H1 H2].
    { simpl in Hintent.
      destruct Hintent as [<- | [<- | [<- | []]]]; split; discriminate. }
    rewrite processMessage_dispatch by assumption.
    unfold stateMachine. rewrite Hstate. unfold onRecommend.
    apply String.eqb_neq in Hquestion.
    simpl in Hintent.
    destruct Hintent as [<- | [<- | [<- | []]]];
      destruct (Parsed.optionNumber (parseUserMessage userText));
      cbv zeta; fold questionInfo; rewrite Hquestion; reflexivity. }
  destruct (recommendNow_returns
              (ConversationContext.set_question
                 (Some (fst questionInfo)) (Some (snd questionInfo))
                 (ConversationContext.set_state DISCOVERY context))
              profile Hcatalog) as (c' & r' & Hnow & Hslots & Hs).
  unfold finish at 1 2 3.
  cbn [Outcome.turn Outcome.profile Outcome.storage].
  eexists _, _. split; [reflexivity |]. cbn [Turn.context Turn.response].
  split; [reflexivity |]. split; [reflexivity |].
  rewrite processMessage_dispatch by assumption.
  unfold stateMachine.
  cbn [ConversationContext.state ConversationContext.set_question
       ConversationContext.set_state].
  unfold onDiscovery.
  cbn [ConversationContext.slots ConversationContext.set_question
       ConversationContext.set_state].
  rewrite Hcan, Hnow. unfold finish. cbn.
  split; [reflexivity |]. split; [exact Hs | exact Hslots].
Qed.

(** *** The recommendation message *)

Lemma prefix_app (p s x : string) :
  String.prefix p s = true -> String.prefix p (s +:+ x) = true.
Proof.
  revert s. induction p as [| c p IH]; intros s;
    [intros _; destruct (s +:+ x); reflexivity |].
  destruct s as [| d s]; simpl; [discriminate |].
  destruct (ascii_dec c d); [apply IH | discriminate].
Qed.

Lemma prefix_self_app (p x : string) : String.prefix p (p +:+ x) = true.
Proof.
  induction p as [| c p IH]; simpl; [destruct x; reflexivity |].
  destruct (ascii_dec c c); [exact IH | contradiction].
Qed.

Lemma prefix_of_eq (p s rest : string) :
  s = p +:+ rest -> String.prefix p s = true.
Proof. intros ->. apply prefix_self_app. Qed.

Lemma prefix_fold {A : Type} (g : string -> A -> string) (p : string)
  (l : list A) (message : string) :
  (forall m x, String.prefix p m = true -> String.prefix p (g m x) = true) ->
  String.prefix p message = true ->
  String.prefix p (fold_left g l message) = true.
Proof.
  intros Hg. revert message.
  induction l as [| x l IH]; intros message Hp; simpl; [exact Hp |].
  apply IH. apply Hg. exact Hp.
Qed.

Lemma existsb_filter_nil {A : Type} (f : A -> bool) (l : list A) :
  existsb f l = false <-> List.filter f l = [].
Proof.
  induction l as [| x l IH]; simpl; [split; reflexivity |].
  destruct (f x); simpl; [split; discriminate | exact IH].
Qed.

(** The message keeps whatever it opens with: the alternatives and the
    closing instructions are appended to it. *)
Lemma message_keeps_its_opening
  (alternatives : list RestaurantRecommendation.t) (p message : string) :
  String.prefix p message = true ->
  String.prefix p
    (match alternatives with
     | [] => message
     | _ :: _ =>
         fold_left
           (fun message '(idx, alt) => message +:+ formatEntry (idx + 2) alt)
           (imap (fun idx alt => (idx, alt)) alternatives)
           (message +:+ JS.newline +:+ "Alternatives:" +:+ JS.newline)
     end +:+ JS.newline
       +:+ "Reply 1/2/3 to pick. Reply 'book 1' to book. Reply 'more' for other options.")
  = true.
Proof.
  intros Hp. apply prefix_app.
  destruct alternatives as [| a l]; [exact Hp |].
  apply prefix_fold.
  - intros m [idx alt] Hm. apply prefix_app. exact Hm.
  - apply prefix_app. exact Hp.
Qed.

(** X28. How the recommendation message opens. When cuisines were
    requested and the top pick matches none of them — the case in which
    it earned no cuisine points — the message opens with the apology that
    names the requested cuisines; in every other case it opens with the
    top pick as option 1. Without recommendations the message is
    empty. *)
Theorem recommendation_message_opens_with
  (recs : Recommendations.t) (slots : Slots.t) :
  let message := formatRecommendationMessage (Some recs) slots in
  let top :=
    RestaurantRecommendation.restaurant (Recommendations.topPick recs) in
  (forall requested,
      Slots.cravingCuisines slots = Some requested -> requested <> [] ->
      cuisineMatches top requested = [] ->
      JS.startsWith message
        ("I couldn't find " +:+ JS.join " or " requested
           +:+ " restaurants matching your criteria. Here are some great alternatives:")
      = true)
  /\ ((forall requested,
          Slots.cravingCuisines slots = Some requested ->
          requested = [] \/ cuisineMatches top requested <> []) ->
      JS.startsWith message
        ("Top pick:" +:+ JS.newline +:+ "1) " +:+ Restaurant.name top)
      = true)
  /\ formatRecommendationMessage None slots = EmptyString.
Proof.
  cbv zeta. unfold JS.startsWith.
  split; [| split; [| reflexivity]].
  - intros requested Hrequested Hne Hnone.
    unfold formatRecommendationMessage. cbv zeta.
    rewrite Hrequested, (nonEmpty_cons requested Hne).
    apply existsb_filter_nil in Hnone. unfold cuisineMatches in Hnone.
    rewrite Hnone. cbn [negb].
    apply message_keeps_its_opening.
    apply (prefix_of_eq _ _
             (JS.newline +:+ JS.newline +:+ "Top pick:" +:+ JS.newline
                +:+ formatEntry 1 (Recommendations.topPick recs))).
    rewrite !string_app_assoc. reflexivity.
  - intros Hmatch.
    unfold formatRecommendationMessage. cbv zeta.
    assert (match nonEmpty (Slots.cravingCuisines slots) with
            | Some requestedCuisines =>
                if negb
                     (existsb
                        (fun reqCuisine =>
                           existsb
                             (fun rCuisine =>
                                lowerIncludes rCuisine reqCuisine
                                || lowerIncludes reqCuisine rCuisine)
                             (Restaurant.cuisines
                                (RestaurantRecommendation.restaurant
                                   (Recommendations.topPick recs))))
                        requestedCuisines)
                then
                  EmptyString +:+ "I couldn't find "
                    +:+ JS.join " or " requestedCuisines
                    +:+ " restaurants matching your criteria. Here are some great alternatives:"
                    +:+ JS.newline +:+ JS.newline
                else EmptyString
            | None => EmptyString
            end = EmptyString) as ->.
    { destruct (nonEmpty (Slots.cravingCuisines slots)) as [requested |]
        eqn:Hrequested; [| reflexivity].
      apply nonEmpty_Some in Hrequested. destruct Hrequested as [Hsome Hne].
      destruct (Hmatch requested Hsome) as [-> | Hfound]; [contradiction |].
      destruct (existsb _ requested) eqn:Hex; [reflexivity |].
      apply existsb_filter_nil in Hex. contradiction. }
    apply message_keeps_its_opening.
    unfold formatEntry. cbv zeta.
    change (pretty 1%nat) with "1".
    eapply prefix_of_eq.
    rewrite !string_app_assoc. reflexivity.
Qed.

(** *** A booking from the first word to the last *)

Lemma converse_step (gpt : Interpreter.t) (text : string)
  (rest : list string) (c c' : ConversationContext.t) (p p' : Profile.t)
  (st st' : Storage.t) (response : string) :
  processMessage gpt text c p st
  = finish (Storage.getHistory st) text c' response p' st' ->
  converse gpt (text :: rest) c p st
  = converse gpt rest c' p'
      (Storage.saveHistory
         (Storage.getHistory st
            ++ [Message.mk User text; Message.mk Assistant response])
         st').
Proof. intros Heq. cbn [converse]. cbv zeta. rewrite Heq. reflexivity. Qed.

(** The first turn of a booking: [book N] on a mapped option. *)
Lemma step_book (gpt : Interpreter.t) (userText : string)
  (context : ConversationContext.t) (profile : Profile.t) (st : Storage.t)
  (n : OptionNumber) (selected : Restaurant.t) :
  ConversationContext.state context = RECOMMEND ->
  parseUserMessage userText = Parsed.mk BookOption (Some n) ->
  optionOf context n = Some selected ->
  exists c response,
    processMessage gpt userText context profile st
    = finish (Storage.getHistory st) userText c response profile st
    /\ ConversationContext.state c = BOOKING_COLLECT
    /\ ConversationContext.bookingDraft c
       = Some (BookingDraft.mk (Some (Restaurant.id selected)) None None
                 (Slots.partySize (ConversationContext.slots context)) None)
    /\ ConversationContext.slots c = ConversationContext.slots context.
Proof.
  intros Hstate Hbook Hoption.
  rewrite processMessage_dispatch by (rewrite Hbook; discriminate).
  unfold stateMachine. rewrite Hstate.
  unfold onRecommend. rewrite Hbook.
  cbn [Parsed.intent Parsed.optionNumber]. rewrite Hoption. cbv zeta.
  eexists _, _. repeat split.
Qed.

(** A turn of [BOOKING_COLLECT] on a draft: the first field that is
    missing takes the reply, and the summary follows the note. *)
Lemma step_collect (gpt : Interpreter.t) (userText : string)
  (context : ConversationContext.t) (profile : Profile.t) (st : Storage.t)
  (draft : BookingDraft.t) :
  ConversationContext.state context = BOOKING_COLLECT ->
  ConversationContext.bookingDraft context = Some draft ->
  Parsed.intent (parseUserMessage userText) <> Reset ->
  Parsed.intent (parseUserMessage userText) <> ProfileCommand ->
  exists c response,
    processMessage gpt userText context profile st
    = finish (Storage.getHistory st) userText c response profile st
    /\ ConversationContext.slots c = ConversationContext.slots context
    /\ (JS.truthyStr (BookingDraft.date draft) = false ->
        ConversationContext.state c = BOOKING_COLLECT
        /\ ConversationContext.bookingDraft c
           = Some (BookingDraft.set_date
                     (Some (Interpreter.parseRelativeDate gpt userText))
                     draft))
    /\ (JS.truthyStr (BookingDraft.date draft) = true ->
        JS.truthyStr (BookingDraft.time draft) = false ->
        ConversationContext.state c = BOOKING_COLLECT
        /\ ConversationContext.bookingDraft c
           = Some (BookingDraft.set_time (Some (parseTime userText)) draft))
    /\ (JS.truthyStr (BookingDraft.date draft) = true ->
        JS.truthyStr (BookingDraft.time draft) = true ->
        forall partySize,
          BookingDraft.partySize draft = Some partySize ->
          BookingDraft.notes draft = None ->
          ConversationContext.state c = BOOKING_CONFIRM
          /\ ConversationContext.bookingDraft c
             = Some (BookingDraft.set_notes
                       (Some
                          (if String.eqb (JS.toLowerCase userText) "no"
                              || String.eqb (JS.toLowerCase userText) "n"
                              || String.eqb
                                   (JS.trim (JS.toLowerCase userText))
                                   EmptyString
                           then EmptyString else JS.trim userText))
                       draft)).
Proof.
  intros Hstate Hdraft Hreset Hprofile.
  rewrite processMessage_dispatch by assumption.
  unfold stateMachine. rewrite Hstate.
  unfold onBookingCollect. rewrite Hdraft. cbv zeta.
  destruct (JS.truthyStr (BookingDraft.date draft)) eqn:Hd; cbn [negb].
  2: { eexists _, _. split; [reflexivity |]. split; [reflexivity |].
       repeat split; intros; try discriminate;
         first [reflexivity | exact Hstate]. }
  destruct (JS.truthyStr (BookingDraft.time draft)) eqn:Ht; cbn [negb].
  2: { destruct (negb (JS.truthyNum
                         (BookingDraft.partySize
                            (BookingDraft.set_time
                               (Some (parseTime userText)) draft))));
         eexists _, _; (split; [reflexivity |]); (split; [reflexivity |]);
         repeat split; intros; try discriminate;
         first [reflexivity | exact Hstate]. }
  destruct (BookingDraft.partySize draft) as [partySize |] eqn:Hp;
    cbn [JS.truthyObj negb].
  2: { eexists _, _. split; [reflexivity |]. split; [reflexivity |].
       repeat split; intros; discriminate. }
  destruct (BookingDraft.notes draft) as [notes |] eqn:Hn;
    cbn [JS.truthyObj negb].
  { eexists _, _. split; [reflexivity |]. split; [reflexivity |].
    repeat split; intros; discriminate. }
  eexists _, _. split; [reflexivity |]. split; [reflexivity |].
  repeat split; intros; try discriminate;
         first [reflexivity | exact Hstate].
Qed.

(** The last turn of a booking: [confirm] on a complete draft. *)
Lemma step_confirm (gpt : Interpreter.t) (userText : string)
  (context : ConversationContext.t) (profile : Profile.t) (st : Storage.t)
  (draft : BookingDraft.t) (date time : string) (partySize : Z) :
  ConversationContext.state context = BOOKING_CONFIRM ->
  Parsed.intent (parseUserMessage userText) = Confirm ->
  ConversationContext.bookingDraft context = Some draft ->
  BookingDraft.date draft = Some date ->
  BookingDraft.time draft = Some time ->
  BookingDraft.partySize draft = Some partySize ->
  date <> EmptyString -> time <> EmptyString -> partySize <> 0%Z ->
  exists c response profile' st',
    processMessage gpt userText context profile st
    = finish (Storage.getHistory st) userText c response profile' st'
    /\ Storage.bookings st'
       = Storage.bookings st
           ++ [Booking.mk (BookingDraft.restaurantId draft) date time
                 partySize (BookingDraft.notes draft)]
    /\ ConversationContext.state c = DISCOVERY
    /\ ConversationContext.bookingDraft c = None
    /\ ConversationContext.slots c = ConversationContext.slots context.
Proof.
  intros Hstate Hconfirm Hdraft Hdate Htime Hparty Hdne Htne Hpne.
  rewrite processMessage_dispatch by congruence.
  unfold stateMachine. rewrite Hstate.
  unfold onBookingConfirm. rewrite Hconfirm, Hdraft, Hdate, Htime, Hparty.
  assert (JS.truthyStr (Some date) && JS.truthyStr (Some time)
          && JS.truthyNum (Some partySize) = true) as ->.
  { simpl. rewrite !andb_true_iff, !negb_true_iff.
    repeat split;
      [apply String.eqb_neq | apply String.eqb_neq | apply Z.eqb_neq];
      assumption. }
  cbn [Booking.restaurantId].
  destruct (findRestaurant (BookingDraft.restaurantId draft));
    eexists _, _, _, _; repeat split.
Qed.

(** X30. A booking dialogue stores what was said. From well-numbered
    recommendations and slots with a party size, the five turns [book N],
    a date, a time, a note and [confirm] all resolve, and they leave
    exactly one more booking: for the restaurant shown as option N, with
    the date as [parseRelativeDate] resolved it, the time as [parseTime]
    normalised it, the party size of the slots, and the note, trimmed, or
    the empty note when the reply was [no], [n] or blank. The dialogue
    ends in [DISCOVERY] with no draft. *)
Theorem booking_dialogue_stores_what_was_said
  (gpt : Interpreter.t) (context : ConversationContext.t)
  (profile : Profile.t) (st : Storage.t) (recs : Recommendations.t)
  (n : OptionNumber) (item : RestaurantRecommendation.t) (partySize : Z)
  (bookText dateText timeText notesText confirmText : string) :
  ConversationContext.state context = RECOMMEND ->
  ConversationContext.recommendations context = Some recs ->
  numbered recs ->
  (Recommendations.topPick recs :: Recommendations.alternatives recs)
    !! optionIndex n = Some item ->
  Slots.partySize (ConversationContext.slots context) = Some partySize ->
  partySize <> 0%Z ->
  parseUserMessage bookText = Parsed.mk BookOption (Some n) ->
  Parsed.intent (parseUserMessage confirmText) = Confirm ->
  Forall
    (fun text =>
       Parsed.intent (parseUserMessage text) <> Reset
       /\ Parsed.intent (parseUserMessage text) <> ProfileCommand)
    [dateText; timeText; notesText] ->
  Interpreter.parseRelativeDate gpt dateText <> EmptyString ->
  parseTime timeText <> EmptyString ->
  let notes :=
    if String.eqb (JS.toLowerCase notesText) "no"
       || String.eqb (JS.toLowerCase notesText) "n"
       || String.eqb (JS.trim (JS.toLowerCase notesText)) EmptyString
    then EmptyString else JS.trim notesText in
  exists context' profile' st',
    converse gpt [bookText; dateText; timeText; notesText; confirmText]
      context profile st
    = Some (context', profile', st')
    /\ Storage.bookings st'
       = Storage.bookings st
           ++ [Booking.mk
                 (Some (Restaurant.id
                          (RestaurantRecommendation.restaurant item)))
                 (Interpreter.parseRelativeDate gpt dateText)
                 (parseTime timeText) partySize (Some notes)]
    /\ ConversationContext.state context' = DISCOVERY
    /\ ConversationContext.bookingDraft context' = None
    /\ ConversationContext.slots context' = ConversationContext.slots context.
Proof.
  intros Hstate Hrecs Hnumbered Hitem Hparty Hpne Hbook Hconfirm Htexts
    Hdate Htime notes.
  inversion Htexts as [| ? ? [Hd1 Hd2] Htexts1]; subst.
  inversion Htexts1 as [| ? ? [Ht1 Ht2] Htexts2]; subst.
  inversion Htexts2 as [| ? ? [Hn1 Hn2] _]; subst.
  pose proof (numbered_option recs n item Hnumbered Hitem) as Hget.
  assert (optionOf context n
          = Some (RestaurantRecommendation.restaurant item)) as Hoption.
  { unfold optionOf. rewrite Hrecs. exact Hget. }
  set (id := Restaurant.id (RestaurantRecommendation.restaurant item)) in *.
  set (date := Interpreter.parseRelativeDate gpt dateText) in *.
  set (time := parseTime timeText) in *.
  destruct (step_book gpt bookText context profile st n _ Hstate Hbook
              Hoption) as (c1 & r1 & Heq1 & Hs1 & Hdraft1 & Hslots1).
  fold id in Hdraft1. rewrite Hparty in Hdraft1.
  rewrite (converse_step _ _ _ _ _ _ _ _ _ _ Heq1).
  match goal with
  | |- context [converse gpt _ c1 profile ?s] =>
      destruct (step_collect gpt dateText c1 profile s _ Hs1 Hdraft1 Hd1 Hd2)
        as (c2 & r2 & Heq2 & Hslots2 & Hstep2 & _)
  end.
  destruct (Hstep2 eq_refl) as [Hs2 Hdraft2].
  rewrite (converse_step _ _ _ _ _ _ _ _ _ _ Heq2).
  match goal with
  | |- context [converse gpt _ c2 profile ?s] =>
      destruct (step_collect gpt timeText c2 profile s _ Hs2 Hdraft2 Ht1 Ht2)
        as (c3 & r3 & Heq3 & Hslots3 & _ & Hstep3 & _)
  end.
  assert (JS.truthyStr (Some date) = true) as Hdate'.
  { simpl. apply negb_true_iff. apply String.eqb_neq. exact Hdate. }
  assert (JS.truthyStr (Some time) = true) as Htime'.
  { simpl. apply negb_true_iff. apply String.eqb_neq. exact Htime. }
  destruct (Hstep3 Hdate' eq_refl) as [Hs3 Hdraft3].
  rewrite (converse_step _ _ _ _ _ _ _ _ _ _ Heq3).
  match goal with
  | |- context [converse gpt _ c3 profile ?s] =>
      destruct (step_collect gpt notesText c3 profile s _ Hs3 Hdraft3 Hn1 Hn2)
        as (c4 & r4 & Heq4 & Hslots4 & _ & _ & Hstep4)
  end.
  destruct (Hstep4 Hdate' Htime' partySize eq_refl eq_refl)
    as [Hs4 Hdraft4].
  fold notes in Hdraft4.
  rewrite (converse_step _ _ _ _ _ _ _ _ _ _ Heq4).
  match goal with
  | |- context [converse gpt _ c4 profile ?s] => set (st4 := s) in *
  end.
  assert (Storage.bookings st4 = Storage.bookings st) as Hbookings
    by reflexivity.
  clearbody st4.
  destruct (step_confirm gpt confirmText c4 profile st4 _ date time partySize
              Hs4 Hconfirm Hdraft4 eq_refl eq_refl eq_refl Hdate Htime Hpne)
    as (c5 & r5 & p5 & st5 & Heq5 & Hbooked & Hs5 & Hdraft5 & Hslots5).
  rewrite (converse_step _ _ _ _ _ _ _ _ _ _ Heq5).
  cbn [converse]. eexists _, _, _. split; [reflexivity |].
  cbn [Storage.bookings Storage.saveHistory].
  split; [rewrite Hbooked, Hbookings; reflexivity |].
  split; [exact Hs5 |]. split; [exact Hdraft5 |]. congruence.
Qed.

End Butler.

(** ** The properties on the sample data *)

Example parse_book : parseUserMessage "  Book   2 " = Parsed.mk BookOption (Some Two).
Proof. reflexivity. Qed.

Example parse_time_pm : parseTime "7:30 PM" = "19:30".
Proof. reflexivity. Qed.

Example party_of_twelve : partyMatch "we are 12 people" = Some 12%Z.
Proof. reflexivity. Qed.

(** The score of the walk-in counter under the sample request, as the
    engine computes it: 6.1. *)
Example sample_score :
  scoreRestaurant64 sampleWalkIn sampleSlots sampleProfile = 6.1%float.
Proof. reflexivity. Qed.

(** Diversification on the sample: the shown pick drops behind, with the
    score the multiplication leaves it. *)
Example diversify_sample :
  diversifyRecommendations64 sampleScored64 (Some ["r-walkin"])
  = [Scored64.mk sampleBistro 2.35%float;
     Scored64.mk sampleWalkIn 1.8299999999999998%float].
Proof. reflexivity. Qed.

(** C1, counterexample. Area, party size, budget and vibe are set, so
    [canRecommend] holds; the discovery policy still has a question, the one
    about the meal time. *)
Lemma complete_slots_still_asked_meal_time :
  canRecommend sampleReadySlots sampleProfile = true
  /\ fst (getNextDiscoveryQuestion sampleReadySlots sampleProfile) <> EmptyString
  /\ snd (getNextDiscoveryQuestion sampleReadySlots sampleProfile) = QMealTime.
Proof. repeat split. discriminate. Qed.

Lemma complete_slots_witness :
  canRecommend sampleReadySlots sampleProfile = true
  /\ (fst (getNextDiscoveryQuestion sampleReadySlots sampleProfile) <> EmptyString ->
      snd (getNextDiscoveryQuestion sampleReadySlots sampleProfile) = QMealTime
      \/ snd (getNextDiscoveryQuestion sampleReadySlots sampleProfile) = QCuisine
      \/ snd (getNextDiscoveryQuestion sampleReadySlots sampleProfile) = QDietary).
Proof.
  split; [reflexivity |].
  apply (complete_slots_may_still_be_asked sampleReadySlots sampleProfile).
  reflexivity.
Defined.

Lemma discovery_priority_witness :
  priority = [] ++ QArea :: [QMealTime; QPartySize; QBudget; QCuisine; QDietary]
  /\ Forall (fun e => missing sampleBudgetOnly e = false) []
  /\ missing sampleBudgetOnly QArea = true
  /\ snd (getNextDiscoveryQuestion sampleBudgetOnly sampleProfile) = QArea
  /\ fst (getNextDiscoveryQuestion sampleBudgetOnly sampleProfile) <> EmptyString.
Proof.
  split; [reflexivity |]. split; [constructor |]. split; [reflexivity |].
  apply (proj1 (discovery_asks_in_priority_order sampleProfile)
           sampleBudgetOnly []
           [QMealTime; QPartySize; QBudget; QCuisine; QDietary] QArea);
    [reflexivity | constructor | reflexivity].
Defined.

(** C6, counterexample. The score 6.1 of a demoted item becomes
    1.8299999999999998, which is not 1.83, three tenths of 6.1; and a list
    with a [NaN] score comes back in no descending order, whatever the
    order it comes back in. *)
Lemma demoted_score_is_rounded :
  (forall item,
      In item (diversifyRecommendations64 sampleScored64 (Some ["r-walkin"])) ->
      Scored64.restaurant item = sampleWalkIn ->
      Scored64.score item = 1.8299999999999998%float
      /\ (Scored64.score item =? Double.ofQ ((61 # 10) * (3 # 10)))%float
         = false)
  /\ Double.ofQ ((61 # 10) * (3 # 10)) = 1.83%float
  /\ (forall l,
        Permutation l
          (diversifyRecommendations64
             [Scored64.mk sampleWalkIn PrimFloat.nan;
              Scored64.mk sampleBistro 2.35%float]
             (Some ["r-grill"])) ->
        ~ StronglySorted (descending64 Scored64.score) l).
Proof.
  split; [| split].
  - intros item Hin Hr. vm_compute in Hin.
    destruct Hin as [<- | [<- | []]]; [discriminate Hr |].
    split; reflexivity.
  - reflexivity.
  - intros l Hperm.
    apply (nan_is_never_descending Scored64.score l
             (Scored64.mk sampleWalkIn PrimFloat.nan)
             (Scored64.mk sampleBistro 2.35%float)).
    + apply (Permutation_in _ (Permutation_sym Hperm)). vm_compute. tauto.
    + apply (Permutation_in _ (Permutation_sym Hperm)). vm_compute. tauto.
    + discriminate.
    + reflexivity.
Qed.

(** C6, witness: the sample scores against the shown pick. *)
Lemma diversify_witness :
  In "r-walkin" ["r-walkin"]
  /\ exists adjusted : list Scored64.t,
      Forall2 (adjustedBy64 ["r-walkin"]) sampleScored64 adjusted
      /\ Permutation
           (diversifyRecommendations64 sampleScored64 (Some ["r-walkin"]))
           adjusted
      /\ (Forall (fun item => Double.isNaN (Scored64.score item) = false)
            sampleScored64 ->
          StronglySorted (descending64 Scored64.score)
            (diversifyRecommendations64 sampleScored64 (Some ["r-walkin"]))).
Proof.
  split; [simpl; left; reflexivity |].
  apply (diversify_demotes_and_sorts sampleScored64 ["r-walkin"] "r-walkin").
  simpl. left. reflexivity.
Defined.

(** C7, counterexample. For the diner, rated 4.12, and one matching
    cuisine the exact sum is 5.06; the score is
    5.0600000000000005. And for a requested cuisine named [constructor]
    the score is [NaN]: the lookup finds the member every object inherits
    under that name. *)
Lemma score_is_rounded :
  (scoreBySpec sampleDiner sampleSlots sampleProfile == 506 # 100)%Q
  /\ Double.ofQ (506 # 100) = 5.06%float
  /\ scoreRestaurant64 sampleDiner sampleSlots sampleProfile
     = 5.0600000000000005%float
  /\ (scoreRestaurant64 sampleDiner sampleSlots sampleProfile
      =? Double.ofQ (scoreBySpec sampleDiner sampleSlots sampleProfile))%float
     = false
  /\ Double.isNaN
       (scoreRestaurant64 sampleWalkIn sampleInheritedSlots sampleProfile)
     = true
  /\ scoreBySpec64 sampleWalkIn sampleInheritedSlots sampleProfile
     = 3.1%float.
Proof. repeat split; reflexivity. Qed.

(** C7, witness: the sample request names a cuisine no object inherits a
    member under. *)
Lemma score_witness :
  Forall (plainName (Profile.cuisinesLiked sampleProfile))
    (requestedCuisines sampleSlots)
  /\ scoreRestaurant64 sampleWalkIn sampleSlots sampleProfile
     = scoreBySpec64 sampleWalkIn sampleSlots sampleProfile.
Proof.
  assert (Forall (plainName (Profile.cuisinesLiked sampleProfile))
            (requestedCuisines sampleSlots)) as H.
  { apply List.Forall_cons; [| apply List.Forall_nil].
    right. cbn. intuition discriminate. }
  split; [exact H |].
  exact (score_is_additive_sum sampleWalkIn sampleSlots sampleProfile H).
Defined.


(** C3, counterexample. The area was set to Hamra; the user answers the
    meal-time question and mentions the marina; the extraction carries the
    new area, and the merge of the [DISCOVERY] branch stores it over the old
    one. *)
Lemma discovery_merge_overwrites_area :
  exists turn,
    Outcome.turn
      (processMessage sampleCatalog sampleNumberToString sampleInterpreter
         "dinner, but at the marina" sampleDiscoveryContext sampleProfile
         Storage.empty)
    = Some turn
    /\ ConversationContext.state sampleDiscoveryContext = DISCOVERY
    /\ Slots.area (ConversationContext.slots sampleDiscoveryContext)
       = Some "Hamra"
    /\ Slots.area (ConversationContext.slots (Turn.context turn))
       = Some "Dubai Marina".
Proof. eexists. repeat split. Qed.

Lemma extraction_witness :
  sampleCatalog <> []
  /\ Parsed.intent (parseUserMessage "dinner, but at the marina") <> Reset
  /\ Parsed.intent (parseUserMessage "dinner, but at the marina")
     <> ProfileCommand
  /\ ConversationContext.state sampleDiscoveryContext = DISCOVERY
  /\ canRecommend (ConversationContext.slots sampleDiscoveryContext)
       sampleProfile = false
  /\ exists turn,
      Outcome.turn
        (processMessage sampleCatalog sampleNumberToString sampleInterpreter
           "dinner, but at the marina" sampleDiscoveryContext sampleProfile
           Storage.empty)
      = Some turn
      /\ ConversationContext.slots (Turn.context turn)
         = Slots.spread (ConversationContext.slots sampleDiscoveryContext)
             (Interpreter.extractSlots sampleInterpreter
                "dinner, but at the marina"
                (ConversationContext.slots sampleDiscoveryContext)
                (ConversationContext.lastQuestion sampleDiscoveryContext)
                (ConversationContext.lastQuestionType sampleDiscoveryContext)).
Proof.
  split; [discriminate |].
  split; [vm_compute; discriminate |].
  split; [vm_compute; discriminate |].
  split; [reflexivity |]. split; [reflexivity |].
  destruct (extraction_takes_precedence sampleCatalog sampleNumberToString
              sampleInterpreter "dinner, but at the marina"
              sampleDiscoveryContext sampleProfile Storage.empty)
    as (turn & Hturn & Hslots & _).
  - discriminate.
  - vm_compute. discriminate.
  - vm_compute. discriminate.
  - right. split; reflexivity.
  - exists turn. split; [exact Hturn | exact Hslots].
Defined.





(** C2. A run from the first message: the sample request makes the
    walk-in-only Falafel Corner option 1; [book 1] then opens a booking
    draft for it and asks for the date, and [1] offers to book it. Neither
    reply shows its discount code, and neither turn goes back to
    [DISCOVERY]. *)
Theorem walk_in_pick_enters_booking :
  let run := processMessage sampleCatalog sampleNumberToString sampleInterpreter in
  let first :=
    run sampleRequest (initializeConversation sampleProfile Storage.empty)
      sampleProfile Storage.empty in
  exists recommended booked picked,
    Outcome.turn first = Some recommended
    /\ ConversationContext.state (Turn.context recommended) = RECOMMEND
    /\ optionOf (Turn.context recommended) One = Some sampleWalkIn
    /\ Restaurant.bookingAvailable sampleWalkIn = false
    /\ Restaurant.discountCode sampleWalkIn = Some "VIDA10"
    /\ Outcome.turn
         (run "book 1" (Turn.context recommended) sampleProfile
            (Outcome.storage first))
       = Some booked
    /\ ConversationContext.state (Turn.context booked) = BOOKING_COLLECT
    /\ (BookingDraft.restaurantId
          <$> ConversationContext.bookingDraft (Turn.context booked))
       = Some (Some "r-walkin")
    /\ Turn.response booked
       = "What date would you like to book for? You can say things like 'tomorrow', 'Friday', or a specific date like '2024-12-25'."
    /\ Outcome.turn
         (run "1" (Turn.context recommended) sampleProfile
            (Outcome.storage first))
       = Some picked
    /\ ConversationContext.state (Turn.context picked) = RECOMMEND
    /\ Turn.response picked
       = "Great choice! Falafel Corner looks perfect. Would you like me to book it? Just reply 'book 1' to start, or 'more' to see other options."
    /\ JS.includes (Turn.response booked) "VIDA10" = false
    /\ JS.includes (Turn.response picked) "VIDA10" = false.
Proof. eexists _, _, _. repeat split. Qed.

(** The same pick in the other flow: option 1 of the sample request is the
    walk-in-only venue, and the reply sends the user there with the code. *)
Example new_flow_walk_in_pick :
  exists messages st',
    processMessageNew sampleCatalog "Pick #1"
      (Storage.saveActiveRequest sampleActiveRequest
         (Storage.saveMode Recommending Storage.empty))
    = Answered
        "You can just head over—no booking needed. Present this code at the door for a discount: **VIDA10**"
        messages st'
    /\ Storage.mode st' = Some Collecting
    /\ Storage.selectedRestaurantId st' = None.
Proof. eexists _, _. repeat split. Qed.

(** X1 on the sample catalog: the walk-in venue passes the filters of the
    sample request, and so has the price tier of its budget. *)
Lemma filtered_meet_every_filter_witness :
  In sampleWalkIn (filterRestaurants sampleCatalog sampleSlots sampleProfile)
  /\ In sampleWalkIn sampleCatalog
  /\ Restaurant.price sampleWalkIn = mapBudgetToPrice BudgetMid.
Proof.
  assert (In sampleWalkIn
            (filterRestaurants sampleCatalog sampleSlots sampleProfile))
    as Hin by (vm_compute; left; reflexivity).
  split; [exact Hin |].
  destruct (filtered_meet_every_filter sampleCatalog sampleSlots sampleProfile
              sampleWalkIn Hin) as [Hcatalog [_ [Hbudget _]]].
  split; [exact Hcatalog |]. apply Hbudget. reflexivity.
Defined.

(** X2 on the sample catalog. *)
Lemma recommendations_head_a_ranking_witness :
  exists rec ranked,
    recommendRestaurants sampleCatalog sampleNumberToString sampleSlots
      sampleProfile None = Some rec
    /\ Permutation ranked
         (filterRestaurants sampleCatalog sampleSlots sampleProfile)
    /\ List.map RestaurantRecommendation.restaurant
         (Recommended.topPick rec :: Recommended.alternatives rec)
       = take 3 ranked.
Proof.
  destruct (recommendRestaurants sampleCatalog sampleNumberToString
              sampleSlots sampleProfile None) as [rec |] eqn:Hrec;
    [| vm_compute in Hrec; discriminate].
  destruct (recommendations_head_a_ranking sampleCatalog sampleNumberToString
              sampleSlots sampleProfile None rec
              ltac:(vm_compute; discriminate) Hrec)
    as [ranked [Hperm [Htake _]]].
  exists rec, ranked. auto.
Defined.

(** X3 on the sample catalog: the walk-in venue, the one Lebanese entry in
    Hamra, scores no lower than the bistro. *)
Lemma first_recommendation_is_best_witness :
  exists rec,
    recommendRestaurants64 sampleCatalog sampleNumberToString sampleSlots
      sampleProfile None = Some rec
    /\ (scoreRestaurant64 sampleBistro sampleSlots sampleProfile
        <=? scoreRestaurant64
              (RestaurantRecommendation.restaurant (Recommended.topPick rec))
              sampleSlots sampleProfile)%float = true.
Proof.
  assert (filterRestaurants sampleCatalog sampleSlots sampleProfile
          = [sampleWalkIn; sampleBistro]) as Hfiltered
      by (vm_compute; reflexivity).
  assert (Forall
            (fun r =>
               Double.isNaN (scoreRestaurant64 r sampleSlots sampleProfile)
               = false)
            (filterRestaurants sampleCatalog sampleSlots sampleProfile))
    as Hnan.
  { rewrite Hfiltered.
    repeat (apply List.Forall_cons; [vm_compute; reflexivity |]).
    apply List.Forall_nil. }
  destruct (recommendRestaurants64 sampleCatalog sampleNumberToString
              sampleSlots sampleProfile None) as [rec |] eqn:Hrec;
    [| vm_compute in Hrec; discriminate].
  exists rec. split; [reflexivity |].
  apply (proj1 (first_recommendation_is_best sampleCatalog
                  sampleNumberToString sampleSlots sampleProfile None rec
                  eq_refl ltac:(rewrite Hfiltered; discriminate) Hnan Hrec)).
  rewrite Hfiltered. right. left. reflexivity.
Defined.

(** X4 on the sample catalog: the budget reason of the walk-in venue. *)
Lemma reasons_keep_the_request_witness :
  Slots.budget sampleSlots = Some BudgetMid
  /\ Restaurant.price sampleWalkIn = mapBudgetToPrice BudgetMid
  /\ In "matches your mid budget"
       (generateReasons sampleNumberToString sampleWalkIn sampleSlots
          sampleProfile).
Proof.
  split; [reflexivity |]. split; [reflexivity |].
  apply (proj1 (proj2 (proj2 (proj2
           (reasons_keep_the_request sampleNumberToString sampleWalkIn
              sampleSlots sampleProfile)))) BudgetMid);
    reflexivity.
Defined.


(** X6 on the sample data: a reset in the middle of a booking. *)
Lemma reset_starts_over_witness :
  Parsed.intent (parseUserMessage "Reset please") = Reset
  /\ exists turn,
       Outcome.turn
         (processMessage sampleCatalog sampleNumberToString sampleInterpreter
            "Reset please" sampleConfirmContext sampleProfile Storage.empty)
       = Some turn
       /\ Turn.context turn
          = ConversationContext.mk DISCOVERY Slots.empty None None None None.
Proof.
  split; [reflexivity |].
  destruct (reset_starts_over sampleCatalog sampleNumberToString
              sampleInterpreter "Reset please" sampleConfirmContext
              sampleProfile Storage.empty eq_refl)
    as [turn [Hturn [Hcontext _]]].
  exists turn. split; [exact Hturn | exact Hcontext].
Defined.


(** X8 on the sample data: the confirmation of the sample draft. *)
Lemma bookings_change_on_confirm_only_witness :
  ConversationContext.state sampleConfirmContext = BOOKING_CONFIRM
  /\ Parsed.intent (parseUserMessage "confirm") = Confirm
  /\ Storage.bookings
       (Outcome.storage
          (processMessage sampleCatalog sampleNumberToString sampleInterpreter
             "confirm" sampleConfirmContext sampleProfile Storage.empty))
     = [Booking.mk (Some "r-bistro") "2024-12-25" "19:30" 2%Z
          (Some EmptyString)].
Proof.
  split; [reflexivity |]. split; [reflexivity |].
  apply (proj1 (proj2 (proj2
           (bookings_change_on_confirm_only sampleCatalog
              sampleNumberToString sampleInterpreter "confirm"
              sampleConfirmContext sampleProfile Storage.empty)))
           sampleDraft "2024-12-25" "19:30" 2%Z);
    first [reflexivity | discriminate].
Defined.

(** X9 on the sample data: the recommendations of the first turn. *)
Lemma recommendations_stay_numbered_witness :
  exists turn recs,
    Outcome.turn
      (processMessage sampleCatalog sampleNumberToString sampleInterpreter
         sampleRequest (initializeConversation sampleProfile Storage.empty)
         sampleProfile Storage.empty)
    = Some turn
    /\ ConversationContext.recommendations (Turn.context turn) = Some recs
    /\ numbered recs.
Proof.
  pose proof (recommendations_stay_numbered sampleCatalog
                sampleNumberToString sampleInterpreter sampleRequest
                (initializeConversation sampleProfile Storage.empty)
                sampleProfile Storage.empty) as [Hinit Hstep].
  eexists _, _. split; [reflexivity |]. split; [reflexivity |].
  apply (Hstep Hinit _ eq_refl). reflexivity.
Defined.

(** X10 on the sample data: the first turn goes from [WELCOME] to
    [RECOMMEND] on slots that pass [canRecommend]. *)
Lemma states_are_entered_in_order_witness :
  exists turn,
    Outcome.turn
      (processMessage sampleCatalog sampleNumberToString sampleInterpreter
         sampleRequest (initializeConversation sampleProfile Storage.empty)
         sampleProfile Storage.empty)
    = Some turn
    /\ ConversationContext.state (Turn.context turn) = RECOMMEND
    /\ canRecommend (ConversationContext.slots (Turn.context turn))
         sampleProfile = true.
Proof.
  eexists. split; [reflexivity |]. split; [reflexivity |].
  destruct (proj1 (states_are_entered_in_order sampleCatalog
                     sampleNumberToString sampleInterpreter sampleRequest
                     (initializeConversation sampleProfile Storage.empty)
                     sampleProfile Storage.empty _ eq_refl) eq_refl)
    as [Hbefore | [_ Hcan]]; [discriminate | exact Hcan].
Defined.

(** X11 on the sample data: [book 1] opens a draft for the restaurant
    shown as option 1. *)
Lemma options_pick_what_was_shown_witness :
  numbered sampleRecommendations
  /\ Parsed.intent (parseUserMessage "book 1") = BookOption
  /\ exists booked,
       Outcome.turn
         (processMessage sampleCatalog sampleNumberToString sampleInterpreter
            "book 1" sampleRecommendContext sampleProfile Storage.empty)
       = Some booked
       /\ ConversationContext.bookingDraft (Turn.context booked)
          = Some (BookingDraft.mk (Some "r-walkin") None None (Some 2%Z) None).
Proof.
  assert (numbered sampleRecommendations) as Hnumbered.
  { repeat split; try reflexivity; try (simpl; lia).
    exists ["r-walkin"]. repeat split. simpl. lia. }
  split; [exact Hnumbered |]. split; [reflexivity |].
  destruct (proj1 (options_pick_what_was_shown sampleCatalog
                     sampleNumberToString sampleInterpreter "book 1"
                     sampleRecommendContext sampleProfile Storage.empty
                     sampleRecommendations One
                     (Recommendations.topPick sampleRecommendations)
                     eq_refl eq_refl Hnumbered eq_refl eq_refl)
              eq_refl)
    as [booked [Hbooked [_ [Hdraft _]]]].
  exists booked. split; [exact Hbooked | exact Hdraft].
Defined.

(** X12 on the sample data: naming the area while refining. *)
Lemma refine_clears_the_named_slot_witness :
  exists turn,
    Outcome.turn
      (processMessage sampleCatalog sampleNumberToString sampleInterpreter
         "a different area please" sampleRefineContext sampleProfile
         Storage.empty)
    = Some turn
    /\ ConversationContext.state (Turn.context turn) = DISCOVERY
    /\ ConversationContext.slots (Turn.context turn)
       = Slots.set_area None sampleSlots.
Proof.
  destruct (proj1 (refine_clears_the_named_slot sampleCatalog
                     sampleNumberToString sampleInterpreter
                     "a different area please" sampleRefineContext
                     sampleProfile Storage.empty eq_refl
                     ltac:(vm_compute; discriminate)
                     ltac:(vm_compute; discriminate))
              eq_refl)
    as [turn [Hturn [Hstate [Hslots _]]]].
  exists turn. split; [exact Hturn |]. split; [exact Hstate | exact Hslots].
Defined.


(** X14 on a reply that says more than the time. *)
Lemma times_are_normalised_witness :
  Exists (fun c => JS.isDigit c = true) (list_ascii_of_string "at 7:30pm")
  /\ exists hours minutes,
       (hours < 100)%nat /\ (minutes < 100)%nat
       /\ parseTime "at 7:30pm"
          = JS.padStart2 (pretty hours) +:+ ":"
              +:+ JS.padStart2 (pretty minutes).
Proof.
  assert (Exists (fun c => JS.isDigit c = true)
            (list_ascii_of_string "at 7:30pm")) as Hdigit.
  { simpl. do 3 apply Exists_cons_tl. apply Exists_cons_hd. reflexivity. }
  split; [exact Hdigit |].
  exact (proj1 times_are_normalised "at 7:30pm" Hdigit).
Defined.

(** X15 on a reply that names the party. *)
Lemma party_sizes_are_small_numbers_witness :
  partyMatch "we are 12" = Some 12%Z /\ (0 <= 12 < 100)%Z.
Proof.
  split; [reflexivity |].
  exact (proj1 party_sizes_are_small_numbers "we are 12" 12%Z eq_refl).
Defined.

(** X17 on a padded, capitalised command. *)
Lemma commands_ignore_case_and_padding_witness :
  parseUserMessage ("  " +:+ "Book 2" +:+ " ") = parseUserMessage "Book 2"
  /\ parseUserMessage "BOOK 2" = parseUserMessage "Book 2".
Proof.
  split.
  - apply (proj2 (commands_ignore_case_and_padding "Book 2") "  " " ");
      simpl; repeat constructor.
  - apply (proj1 (commands_ignore_case_and_padding "Book 2") "BOOK 2").
    reflexivity.
Defined.

(** X18 on the sample request, which has everything but a budget. *)
Lemma next_missing_slot_is_the_first_witness :
  slotOrder
  = [PendingArea; PendingCuisine]
      ++ PendingBudget :: [PendingDate; PendingTime; PendingPartySize]
  /\ getNextMissingSlot sampleActiveRequest = Some PendingBudget.
Proof.
  split; [reflexivity |].
  apply (proj1 (proj2 (next_missing_slot_is_the_first sampleActiveRequest))
           [PendingArea; PendingCuisine] PendingBudget
           [PendingDate; PendingTime; PendingPartySize]);
    [reflexivity | repeat constructor | reflexivity].
Defined.

(** X19 on the sample data: the request keeps its area and party size
    although the extraction names others, and takes the budget. *)
Lemma merge_fills_only_empty_slots_witness :
  ActiveRequest.area
    (mergeExtracted sampleActiveRequest sampleExtracted sampleNormalization)
  = Some "Hamra"
  /\ ActiveRequest.budget
       (mergeExtracted sampleActiveRequest sampleExtracted sampleNormalization)
     = Some (BudgetRange.mk BudgetRange.R2 "medium").
Proof.
  pose proof (merge_fills_only_empty_slots sampleActiveRequest sampleExtracted
                sampleNormalization) as H.
  cbv zeta in H.
  destruct H as (Harea & _ & _ & _ & _ & _ & _ & _ & _ & _ & _ & Hbudget).
  split.
  - exact (Harea eq_refl).
  - exact (Hbudget BudgetRange.R2 eq_refl eq_refl).
Defined.

(** X20 on the sample data: the completed request is answered with the
    walk-in venue on top, and [1] then selects it without a booking. *)
Lemma complete_request_is_recommended_witness :
  getNextMissingSlot sampleCompleteRequest = None
  /\ exists response messages st' reply messages' st'',
       recommendOrAsk sampleCatalog [] "make it medium" sampleCompleteRequest
         Storage.empty
       = Answered response messages st'
       /\ Storage.getMode st' = Recommending
       /\ processMessageNew sampleCatalog "1" st'
          = Answered reply messages' st''
       /\ Storage.getMode st'' = Collecting
       /\ Storage.getSelectedRestaurantId st'' = None.
Proof.
  split; [reflexivity |].
  destruct (proj2 (complete_request_is_recommended sampleCatalog []
                     "make it medium" sampleCompleteRequest Storage.empty)
              eq_refl ltac:(discriminate))
    as (top & rest & st' & Htop & Hanswer & Hmode & _ & _ & _ & Hpick).
  assert (top = sampleWalkIn) as ->.
  { vm_compute in Htop. injection Htop as <-. reflexivity. }
  destruct (Hpick One sampleWalkIn eq_refl)
    as (reply & messages' & st'' & Hreply & _ & Hwalk).
  simpl in Hwalk. destruct Hwalk as [Hmode'' Hselected].
  eexists _, _, st', reply, messages', st''.
  split; [exact Hanswer |]. split; [exact Hmode |].
  split; [exact Hreply |]. split; [exact Hmode'' | exact Hselected].
Defined.

(** X21 on the sample data: a note confirms the bistro. *)
Lemma new_flow_books_on_a_note_only_witness :
  exists response messages st',
    processMessageNew sampleCatalog "window seat" sampleConfirmingStorage
    = Answered response messages st'
    /\ Storage.history st' = messages
    /\ Storage.getMode st' = Collecting.
Proof.
  eexists _, _, _. split; [reflexivity |].
  destruct (new_flow_books_on_a_note_only sampleCatalog "window seat" _ _
              sampleConfirmingStorage _ eq_refl)
    as [[_ Hhistory] [_ [Hdone _]]].
  split; [exact Hhistory |].
  destruct (Hdone eq_refl ltac:(vm_compute; discriminate) eq_refl
              ltac:(vm_compute; discriminate)) as (_ & _ & Hmode & _).
  exact Hmode.
Defined.

(** X22 on the sample data: a one-word reply that has a greeting inside
    it leaves the slots of a discovery turn as they were. *)
Lemma casual_replies_change_no_slot_witness :
  ExtractSlots.isGreetingOrCasualResponse "Chinese" = true
  /\ exists turn,
       Outcome.turn
         (processMessage sampleCatalog sampleNumberToString
            (ExtractSlots.interpreter sampleCompletion (fun d => d))
            "Chinese" sampleDiscoveryContext sampleProfile Storage.empty)
       = Some turn
       /\ ConversationContext.slots (Turn.context turn)
          = ConversationContext.slots sampleDiscoveryContext.
Proof.
  pose proof (casual_replies_change_no_slot sampleCatalog
                sampleNumberToString sampleCompletion (fun d => d) "Chinese"
                sampleDiscoveryContext sampleProfile Storage.empty) as H.
  cbv zeta in H. destruct H as [Hinside Hquiet].
  assert (ExtractSlots.isGreetingOrCasualResponse "Chinese" = true)
    as Hgreeting.
  { apply (Hinside "hi"); [simpl; auto | vm_compute; lia | reflexivity]. }
  split; [exact Hgreeting |].
  destruct (proj2 (Hquiet Hgreeting)
              ltac:(vm_compute; discriminate) ltac:(vm_compute; discriminate)
              (or_intror eq_refl) eq_refl)
    as [turn [Hturn [_ [Hslots _]]]].
  exists turn. split; [exact Hturn | exact Hslots].
Defined.

(** X23 on the sample data: the message names a budget and an evening, so
    the budget and the meal time pass the check; a message that names
    neither keeps its area only. *)
Lemma extraction_is_checked_against_the_message_witness :
  ExtractSlots.extractSlots sampleCompletion "cheap eats in Hamra tonight"
    Slots.empty None None
  = ExtractSlots.Response.mk
      (Slots.mk (Some Dinner) (Some "Hamra") None (Some BudgetCheap) None None
         None None)
      (9 # 10)
  /\ ExtractSlots.mentions (JS.toLowerCase "cheap eats in Hamra tonight")
       ExtractSlots.budgetKeywords = true
  /\ ExtractSlots.Response.confidence
       (ExtractSlots.extractSlots sampleCompletion "a place near the sea"
          Slots.empty None None)
     = 1 # 2.
Proof.
  pose proof (extraction_is_checked_against_the_message sampleCompletion
                "cheap eats in Hamra tonight" Slots.empty None None) as H.
  cbv zeta in H. destruct H as (_ & _ & Hbudget & _).
  split; [reflexivity |]. split; [exact (Hbudget eq_refl) |].
  pose proof (extraction_is_checked_against_the_message sampleCompletion
                "a place near the sea" Slots.empty None None) as H.
  cbv zeta in H. destruct H as (_ & _ & _ & _ & _ & _ & Hcut).
  destruct (Hcut _ ltac:(discriminate) eq_refl eq_refl)
    as [[Hvalid _] | [_ [Hconfidence _]]].
  - vm_compute in Hvalid. discriminate.
  - exact Hconfidence.
Defined.

(** X26 on the sample data: [more] after the sample recommendations. *)
Lemma more_shows_something_new_or_refines_witness :
  Parsed.intent (parseUserMessage "more") = More
  /\ exists turn,
       Outcome.turn
         (processMessage sampleCatalog sampleNumberToString sampleInterpreter
            "more" sampleRecommendContext sampleProfile Storage.empty)
       = Some turn
       /\ ConversationContext.slots (Turn.context turn) = sampleSlots.
Proof.
  split; [reflexivity |].
  destruct (more_shows_something_new_or_refines sampleCatalog
              sampleNumberToString sampleInterpreter "more"
              sampleRecommendContext sampleProfile Storage.empty
              ltac:(discriminate) eq_refl eq_refl)
    as (turn & rec & Hturn & _ & Hslots & _).
  exists turn. split; [exact Hturn | exact Hslots].
Defined.

(** X27 on the sample data: the meal time is asked for after the
    recommendations, and the answer [dinner] is not stored. *)
Lemma answers_after_recommendations_are_not_stored_witness :
  exists asked again,
    Outcome.turn
      (processMessage sampleCatalog sampleNumberToString sampleInterpreter
         "hmm"
         (ConversationContext.mk RECOMMEND sampleReadySlots None None None
            None)
         sampleProfile Storage.empty)
    = Some asked
    /\ Turn.response asked
       = "What meal time are you planning for? Options: breakfast, lunch, dinner, coffee, drinks, or late-night."
    /\ Outcome.turn
         (processMessage sampleCatalog sampleNumberToString sampleInterpreter
            "dinner" (Turn.context asked) sampleProfile
            (Outcome.storage
               (processMessage sampleCatalog sampleNumberToString
                  sampleInterpreter "hmm"
                  (ConversationContext.mk RECOMMEND sampleReadySlots None
                     None None None)
                  sampleProfile Storage.empty)))
       = Some again
    /\ Slots.mealTime (ConversationContext.slots (Turn.context again)) = None.
Proof.
  destruct (answers_after_recommendations_are_not_stored sampleCatalog
              sampleNumberToString sampleInterpreter "hmm" "dinner"
              (ConversationContext.mk RECOMMEND sampleReadySlots None None
                 None None)
              sampleProfile Storage.empty
              ltac:(discriminate) eq_refl eq_refl
              ltac:(vm_compute; auto)
              ltac:(vm_compute; discriminate)
              ltac:(vm_compute; discriminate)
              ltac:(vm_compute; discriminate))
    as (asked & again & Hasked & _ & Hresponse & Hagain & _ & Hslots).
  exists asked, again. split; [exact Hasked |].
  split; [exact Hresponse |]. split; [exact Hagain |].
  rewrite Hslots. reflexivity.
Defined.

(** X28 on the sample data: the top pick serves the requested cuisine, so
    the message opens with it. *)
Lemma recommendation_message_opens_with_witness :
  JS.startsWith
    (formatRecommendationMessage (Some sampleRecommendations) sampleSlots)
    ("Top pick:" +:+ JS.newline +:+ "1) Falafel Corner")
  = true.
Proof.
  apply (proj1 (proj2 (recommendation_message_opens_with
                         sampleRecommendations sampleSlots))).
  intros requested [= <-]. right. vm_compute. discriminate.
Defined.

(** X30 on the sample data: a booking of option 2, from [book 2] to
    [confirm]. *)
Lemma booking_dialogue_stores_what_was_said_witness :
  exists context' profile' st',
    converse sampleCatalog sampleNumberToString sampleInterpreter
      ["book 2"; "2025-01-10"; "7:30pm"; "window seat"; "confirm"]
      sampleRecommendContext sampleProfile Storage.empty
    = Some (context', profile', st')
    /\ Storage.bookings st'
       = [Booking.mk (Some "r-bistro") "2025-01-10" "19:30" 2%Z
            (Some "window seat")].
Proof.
  assert (numbered sampleRecommendations) as Hnumbered.
  { repeat split; try reflexivity; try (simpl; lia).
    exists ["r-walkin"]. repeat split. simpl. lia. }
  destruct (booking_dialogue_stores_what_was_said sampleCatalog
              sampleNumberToString sampleInterpreter sampleRecommendContext
              sampleProfile Storage.empty sampleRecommendations Two
              (RestaurantRecommendation.mk sampleBistro
                 ["matches your mid budget"; "highly rated (4.7 stars)";
                  "Candle-lit terrace"])
              2%Z "book 2" "2025-01-10" "7:30pm" "window seat" "confirm"
              eq_refl eq_refl Hnumbered eq_refl eq_refl
              ltac:(discriminate) eq_refl eq_refl
              ltac:(repeat constructor; vm_compute; discriminate)
              ltac:(vm_compute; discriminate)
              ltac:(vm_compute; discriminate))
    as (context' & profile' & st' & Hrun & Hbookings & _).
  exists context', profile', st'. split; [exact Hrun | exact Hbookings].
Defined.
